(** * The Intel Media SDK video decoder of the Sora C++ SDK

    A shallow embedding of [src/hwenc_msdk/msdk_video_decoder.cpp]:
    the class [MsdkVideoDecoderImpl] (its fields, [CreateDecoder],
    [Configure], [Decode], [RegisterDecodeCompleteCallback], [Release],
    [InitMediaSDK], [ReleaseMediaSDK]) and the static
    [MsdkVideoDecoder::IsSupported].

    The hardware engine reached through [MFXVideoDECODE] and
    [MFXVideoCORE_SyncOperation] is an external library.  Its answers are
    inputs of the model: a record of functions for the negotiation calls and
    a script of replies for the successive [DecodeFrameAsync] calls.  Every
    call the code makes to it is written to a log, so that what was
    submitted, and in which order, can be stated. *)

From Stdlib Require Import ZArith NArith List Bool Lia.
Import ListNotations.

Local Open Scope N_scope.

(** ** Machine integers *)

(** [mfxU16] and [mfxU32] are held in [N]; a store into such a field keeps
    the low 16 or 32 bits. *)
Definition mfxU16 := N.
Definition mfxU32 := N.

Definition to_mfxU16 (z : Z) : mfxU16 := Z.to_N (z mod 2 ^ 16).
Definition to_mfxU32 (n : N) : mfxU32 := n mod 2 ^ 32.

(** ** Constants of the headers the file includes *)

Module Mfx.

(** [mfxStatus] of mfxdefs.h: negative values are errors, positive values
    are warnings. *)
Definition mfxStatus := Z.

Definition MFX_ERR_NONE : mfxStatus := 0%Z.
Definition MFX_ERR_UNSUPPORTED : mfxStatus := (-3)%Z.
Definition MFX_ERR_MORE_DATA : mfxStatus := (-10)%Z.
Definition MFX_ERR_DEVICE_FAILED : mfxStatus := (-17)%Z.
Definition MFX_WRN_DEVICE_BUSY : mfxStatus := 2%Z.

(** [MFX_MAKEFOURCC(a, b, c, d)] on character codes. *)
Definition MFX_MAKEFOURCC (a b c d : N) : mfxU32 :=
  N.lor (N.lor a (N.shiftl b 8)) (N.lor (N.shiftl c 16) (N.shiftl d 24)).

Definition MFX_FOURCC_NV12 : mfxU32 := MFX_MAKEFOURCC 78 86 49 50.
Definition MFX_CODEC_AVC : mfxU32 := MFX_MAKEFOURCC 65 86 67 32.
Definition MFX_CODEC_VP8 : mfxU32 := MFX_MAKEFOURCC 86 80 56 32.
Definition MFX_CODEC_VP9 : mfxU32 := MFX_MAKEFOURCC 86 80 57 32.
Definition MFX_CODEC_AV1 : mfxU32 := MFX_MAKEFOURCC 65 86 49 32.

Definition MFX_CHROMAFORMAT_YUV420 : mfxU16 := 1.
Definition MFX_PICSTRUCT_PROGRESSIVE : mfxU16 := 1.
Definition MFX_IOPATTERN_OUT_SYSTEM_MEMORY : mfxU16 := 32.

End Mfx.
Export Mfx.

Module WebRTC.

(** modules/video_coding/include/video_error_codes.h *)
Definition WEBRTC_VIDEO_CODEC_OK : Z := 0%Z.
Definition WEBRTC_VIDEO_CODEC_ERROR : Z := (-1)%Z.
Definition WEBRTC_VIDEO_CODEC_ERR_PARAMETER : Z := (-4)%Z.
Definition WEBRTC_VIDEO_CODEC_UNINITIALIZED : Z := (-7)%Z.

(** [webrtc::VideoCodecType] *)
Inductive VideoCodecType :=
| kVideoCodecGeneric
| kVideoCodecVP8
| kVideoCodecVP9
| kVideoCodecAV1
| kVideoCodecH264.

(** [webrtc::EncodedImage], as far as [Decode] reads it: [data()] is
    [None] for a null pointer and otherwise the bytes stored behind it,
    [size()] is the declared size, [Timestamp()] the RTP timestamp. *)
Record EncodedImage := {
  data : option (list Byte.byte);
  size : N;
  Timestamp : N
}.

(** [webrtc::VideoDecoder::Settings]: only the maximum render resolution
    is read. *)
Record Settings := {
  max_render_width : Z;
  max_render_height : Z
}.

(** A frame handed to the sink.  Pixel data is produced by the engine and
    converted by libyuv; the model keeps the geometry of the I420 buffer,
    the RTP timestamp and the surface the pixels were read from. *)
Record VideoFrame := {
  frame_width : Z;
  frame_height : Z;
  timestamp_rtp : N;
  frame_source : nat
}.

(** A [webrtc::DecodedImageCallback*]; [None] in an option is nullptr. *)
Definition DecodedImageCallback := N.

End WebRTC.
Export WebRTC.

(** ** Structures of the Media SDK *)

Record mfxFrameInfo := {
  FourCC : mfxU32;
  ChromaFormat : mfxU16;
  PicStruct : mfxU16;
  CropX : mfxU16;
  CropY : mfxU16;
  CropW : mfxU16;
  CropH : mfxU16;
  Width : mfxU16;
  Height : mfxU16
}.

Record mfxVideoParam := {
  CodecId : mfxU32;
  FrameInfo : mfxFrameInfo;
  GopRefDist : mfxU16;
  AsyncDepth : mfxU16;
  IOPattern : mfxU16
}.

Record mfxFrameAllocRequest := {
  NumFrameSuggested : mfxU16;
  Info : mfxFrameInfo
}.

(** [mfxFrameSurface1]: the plane pointers are offsets into
    [surface_buffer_]. *)
Record mfxFrameSurface1 := {
  surface_Info : mfxFrameInfo;
  Locked : mfxU16;
  Y : Z;
  U : Z;
  V : Z;
  Pitch : mfxU16
}.

(** [mfxBitstream].  [Data] always aliases the storage of
    [bitstream_buffer_] (it is reassigned after each resize), so the record
    keeps the three counters only. *)
Record mfxBitstream := {
  DataOffset : mfxU32;
  DataLength : mfxU32;
  MaxLength : mfxU32
}.

Definition mfxSyncPoint := N.

(** [memset(&x, 0, sizeof(x))] *)
Definition zero_FrameInfo : mfxFrameInfo :=
  {| FourCC := 0; ChromaFormat := 0; PicStruct := 0; CropX := 0; CropY := 0;
     CropW := 0; CropH := 0; Width := 0; Height := 0 |}.

Definition zero_AllocRequest : mfxFrameAllocRequest :=
  {| NumFrameSuggested := 0; Info := zero_FrameInfo |}.

Definition zero_Bitstream : mfxBitstream :=
  {| DataOffset := 0; DataLength := 0; MaxLength := 0 |}.

(** An [MFXVideoDECODE] object: the parameters it was validated with and
    whether [Init] was run on it. *)
Record MFXVideoDECODE := {
  dec_param : mfxVideoParam;
  dec_initialized : bool
}.

(** ** The engine *)

(** The answers of the engine to the negotiation calls and to the blocking
    wait. *)
Record Engine := {
  Query : mfxVideoParam -> mfxStatus * mfxVideoParam;
  Init : mfxVideoParam -> mfxStatus;
  GetVideoParam : MFXVideoDECODE -> mfxStatus * mfxVideoParam;
  QueryIOSurf : mfxVideoParam -> mfxStatus * mfxFrameAllocRequest;
  SyncOperation : mfxSyncPoint -> N -> mfxStatus
}.

(** One answer of [DecodeFrameAsync]: the status, how many bytes of the
    bitstream view the engine consumed, the [Locked] counters it rewrote
    (index, new value), and the two out-parameters as the caller reads them
    after the call ([None] is a null pointer). *)
Record submit_reply := {
  r_sts : mfxStatus;
  r_consumed : N;
  r_relock : list (nat * mfxU16);
  r_out_surface : option nat;
  r_syncp : option mfxSyncPoint
}.

(** What the code did to the outside, in order.  A submission records the
    bitstream descriptor and the bytes it designates, the position of the
    surface in [surfaces_] and the surface as it is at that moment. *)
Inductive event :=
| EvQuery (p : mfxVideoParam)
| EvInit (p : mfxVideoParam)
| EvGetVideoParam
| EvQueryIOSurf (p : mfxVideoParam)
| EvClose
| EvDecodeFrameAsync (bs : mfxBitstream) (view : list Byte.byte)
                     (surface : nat) (s : option mfxFrameSurface1)
| EvSleep (ms : N)
| EvSyncOperation (syncp : mfxSyncPoint) (wait : N)
| EvDecoded (cb : DecodedImageCallback) (frame : VideoFrame).

(** ** The decoder object *)

Record MsdkVideoDecoderImpl := {
  width_ : Z;
  height_ : Z;
  decode_complete_callback_ : option DecodedImageCallback;
  buffer_pool_ : list (Z * Z);
  codec_ : mfxU32;
  session_ : option N;
  alloc_request_ : mfxFrameAllocRequest;
  decoder_ : option MFXVideoDECODE;
  surface_buffer_ : Z;
  surfaces_ : list mfxFrameSurface1;
  bitstream_buffer_ : list Byte.byte;
  bitstream_ : mfxBitstream
}.

(** Field updates ([d.field = v] in the source). *)
Definition set_size (w h : Z) (d : MsdkVideoDecoderImpl) :=
  {| width_ := w; height_ := h;
     decode_complete_callback_ := decode_complete_callback_ d;
     buffer_pool_ := buffer_pool_ d; codec_ := codec_ d;
     session_ := session_ d; alloc_request_ := alloc_request_ d;
     decoder_ := decoder_ d; surface_buffer_ := surface_buffer_ d;
     surfaces_ := surfaces_ d; bitstream_buffer_ := bitstream_buffer_ d;
     bitstream_ := bitstream_ d |}.

Definition set_decode_complete_callback_
    (cb : option DecodedImageCallback) (d : MsdkVideoDecoderImpl) :=
  {| width_ := width_ d; height_ := height_ d;
     decode_complete_callback_ := cb;
     buffer_pool_ := buffer_pool_ d; codec_ := codec_ d;
     session_ := session_ d; alloc_request_ := alloc_request_ d;
     decoder_ := decoder_ d; surface_buffer_ := surface_buffer_ d;
     surfaces_ := surfaces_ d; bitstream_buffer_ := bitstream_buffer_ d;
     bitstream_ := bitstream_ d |}.

Definition set_buffer_pool_ (p : list (Z * Z)) (d : MsdkVideoDecoderImpl) :=
  {| width_ := width_ d; height_ := height_ d;
     decode_complete_callback_ := decode_complete_callback_ d;
     buffer_pool_ := p; codec_ := codec_ d;
     session_ := session_ d; alloc_request_ := alloc_request_ d;
     decoder_ := decoder_ d; surface_buffer_ := surface_buffer_ d;
     surfaces_ := surfaces_ d; bitstream_buffer_ := bitstream_buffer_ d;
     bitstream_ := bitstream_ d |}.

Definition set_alloc_request_
    (r : mfxFrameAllocRequest) (d : MsdkVideoDecoderImpl) :=
  {| width_ := width_ d; height_ := height_ d;
     decode_complete_callback_ := decode_complete_callback_ d;
     buffer_pool_ := buffer_pool_ d; codec_ := codec_ d;
     session_ := session_ d; alloc_request_ := r;
     decoder_ := decoder_ d; surface_buffer_ := surface_buffer_ d;
     surfaces_ := surfaces_ d; bitstream_buffer_ := bitstream_buffer_ d;
     bitstream_ := bitstream_ d |}.

Definition set_decoder_
    (h : option MFXVideoDECODE) (d : MsdkVideoDecoderImpl) :=
  {| width_ := width_ d; height_ := height_ d;
     decode_complete_callback_ := decode_complete_callback_ d;
     buffer_pool_ := buffer_pool_ d; codec_ := codec_ d;
     session_ := session_ d; alloc_request_ := alloc_request_ d;
     decoder_ := h; surface_buffer_ := surface_buffer_ d;
     surfaces_ := surfaces_ d; bitstream_buffer_ := bitstream_buffer_ d;
     bitstream_ := bitstream_ d |}.

Definition set_surfaces
    (sz : Z) (ss : list mfxFrameSurface1) (d : MsdkVideoDecoderImpl) :=
  {| width_ := width_ d; height_ := height_ d;
     decode_complete_callback_ := decode_complete_callback_ d;
     buffer_pool_ := buffer_pool_ d; codec_ := codec_ d;
     session_ := session_ d; alloc_request_ := alloc_request_ d;
     decoder_ := decoder_ d; surface_buffer_ := sz;
     surfaces_ := ss; bitstream_buffer_ := bitstream_buffer_ d;
     bitstream_ := bitstream_ d |}.

Definition set_bitstream
    (buf : list Byte.byte) (bs : mfxBitstream) (d : MsdkVideoDecoderImpl) :=
  {| width_ := width_ d; height_ := height_ d;
     decode_complete_callback_ := decode_complete_callback_ d;
     buffer_pool_ := buffer_pool_ d; codec_ := codec_ d;
     session_ := session_ d; alloc_request_ := alloc_request_ d;
     decoder_ := decoder_ d; surface_buffer_ := surface_buffer_ d;
     surfaces_ := surfaces_ d; bitstream_buffer_ := buf;
     bitstream_ := bs |}.

(** The constructor: fields with an initialiser get it; [bitstream_] and
    [alloc_request_] have none in the source and start zeroed here. *)
Definition MsdkVideoDecoderImpl_new (session : option N) (codec : mfxU32) :=
  {| width_ := 0; height_ := 0;
     decode_complete_callback_ := None;
     buffer_pool_ := []; codec_ := codec;
     session_ := session; alloc_request_ := zero_AllocRequest;
     decoder_ := None; surface_buffer_ := 0;
     surfaces_ := []; bitstream_buffer_ := [];
     bitstream_ := zero_Bitstream |}.

(** ** Byte buffers *)

Section Bytes.

Definition len (l : list Byte.byte) : N := N.of_nat (length l).

(** [std::vector<uint8_t>::resize(n)]: the first elements are kept, new
    ones are zero. *)
Definition resize (n : N) (l : list Byte.byte) : list Byte.byte :=
  firstn (N.to_nat n) l ++ repeat Byte.x00 (N.to_nat n - length l).

(** The bytes [off, off + n) of a buffer. *)
Definition slice (off n : N) (l : list Byte.byte) : list Byte.byte :=
  firstn (N.to_nat n) (skipn (N.to_nat off) l).

(** Overwrite the bytes [at, at + length src) of a buffer. *)
Definition blit (at_ : N) (src l : list Byte.byte) : list Byte.byte :=
  firstn (N.to_nat at_) l ++ src
    ++ skipn (N.to_nat at_ + length src) l.

(** [memmove(buf, buf + off, n)] inside one buffer; [None] when a byte
    outside the buffer would be touched. *)
Definition memmove_front (off n : N) (l : list Byte.byte)
  : option (list Byte.byte) :=
  if off + n <=? len l then Some (blit 0 (slice off n l) l) else None.

(** [memcpy(buf + at, src, n)]; [None] when a byte outside the buffer or
    outside the source would be touched.  Nothing is touched when [n] is
    zero, whatever the source pointer. *)
Definition memcpy_at (at_ : N) (src : option (list Byte.byte)) (n : N)
    (l : list Byte.byte) : option (list Byte.byte) :=
  if n =? 0 then Some l
  else match src with
       | None => None
       | Some bytes =>
           if (n <=? len bytes) && (at_ + n <=? len l)
           then Some (blit at_ (slice 0 n bytes) l)
           else None
       end.

End Bytes.

(** The window of the buffer that a bitstream descriptor designates:
    [DataLength] bytes from [DataOffset]. *)
Definition view (d : MsdkVideoDecoderImpl) : list Byte.byte :=
  slice (DataOffset (bitstream_ d)) (DataLength (bitstream_ d))
        (bitstream_buffer_ d).

(** ** Outcomes and the state monad of the member functions *)

Inductive fault :=
| NullDereference
| OutOfBounds.

(** A call returns a value, leaves through [MSDK_CHECK_RESULT] carrying a
    status, runs into undefined behaviour, or is still retrying when the
    replies given for the engine are used up. *)
Inductive outcome (A : Type) :=
| Returned (a : A)
| Raised (e : mfxStatus)
| Undefined (f : fault)
| Starved.

Arguments Returned {A} a.
Arguments Raised {A} e.
Arguments Undefined {A} f.
Arguments Starved {A}.

Record world := {
  self : MsdkVideoDecoderImpl;
  replies : list submit_reply;
  log : list event
}.

Definition M (A : Type) := world -> outcome A * world.

Definition ret {A} (a : A) : M A := fun w => (Returned a, w).

Definition bind {A B} (c : M A) (k : A -> M B) : M B :=
  fun w =>
    match c w with
    | (Returned a, w') => k a w'
    | (Raised e, w') => (Raised e, w')
    | (Undefined f, w') => (Undefined f, w')
    | (Starved, w') => (Starved, w')
    end.

Declare Scope msdk_scope.
Delimit Scope msdk_scope with msdk.
Notation "x <- c ;; k" := (bind c (fun x => k))
  (at level 61, c at next level, right associativity) : msdk_scope.
Notation "c ;; k" := (bind c (fun _ => k))
  (at level 61, right associativity) : msdk_scope.
Local Open Scope msdk_scope.

Definition this : M MsdkVideoDecoderImpl := fun w => (Returned (self w), w).

Definition update (f : MsdkVideoDecoderImpl -> MsdkVideoDecoderImpl)
  : M unit :=
  fun w => (Returned tt,
            {| self := f (self w); replies := replies w; log := log w |}).

Definition emit (evs : list event) : M unit :=
  fun w => (Returned tt,
            {| self := self w; replies := replies w; log := log w ++ evs |}).

Definition raise {A} (e : mfxStatus) : M A := fun w => (Raised e, w).

Definition undefined {A} (f : fault) : M A := fun w => (Undefined f, w).

(** A static function has no object: called from a world, it adds the
    engine calls it made to the log and nothing else. *)
Definition static {A} (f : A * list event) : M A :=
  emit (snd f) ;; ret (fst f).

(** Run a member function on an object, with the replies the engine will
    give to [DecodeFrameAsync], from an empty log. *)
Definition run {A} (c : M A) (d : MsdkVideoDecoderImpl)
    (rs : list submit_reply) : outcome A * world :=
  c {| self := d; replies := rs; log := [] |}.

(** ** The member functions *)

(** [std::find_if]: the position of the first element that satisfies the
    predicate, [None] for [end()]. *)
Fixpoint find_if {A : Type} (p : A -> bool) (l : list A) : option nat :=
  match l with
  | [] => None
  | x :: l' => if p x then Some O else option_map S (find_if p l')
  end.

(** The predicate of the scan of line 196: [!s.Data.Locked]. *)
Definition unlocked (s : mfxFrameSurface1) : bool := Locked s =? 0.

Definition set_Locked (v : mfxU16) (s : mfxFrameSurface1) :=
  {| surface_Info := surface_Info s; Locked := v;
     Y := Y s; U := U s; V := V s; Pitch := Pitch s |}.

Fixpoint relock_one (i : nat) (v : mfxU16) (ss : list mfxFrameSurface1) :=
  match ss, i with
  | [], _ => []
  | s :: ss', O => set_Locked v s :: ss'
  | s :: ss', S i' => s :: relock_one i' v ss'
  end.

Definition relock (ups : list (nat * mfxU16)) (ss : list mfxFrameSurface1) :=
  fold_left (fun acc up => relock_one (fst up) (snd up) acc) ups ss.

(** Modelled from the spec: what a [DecodeFrameAsync] call does to the
    objects it is given pointers to (the engine is not part of the
    repository).  It advances [DataOffset] and shrinks [DataLength] by the
    number of bytes it consumed, at most the bytes of the view, and it
    rewrites [Locked] counters of surfaces. *)
Definition engine_effect (r : submit_reply) (d : MsdkVideoDecoderImpl) :=
  let bs := bitstream_ d in
  let c := N.min (r_consumed r) (DataLength bs) in
  {| width_ := width_ d; height_ := height_ d;
     decode_complete_callback_ := decode_complete_callback_ d;
     buffer_pool_ := buffer_pool_ d; codec_ := codec_ d;
     session_ := session_ d; alloc_request_ := alloc_request_ d;
     decoder_ := decoder_ d; surface_buffer_ := surface_buffer_ d;
     surfaces_ := relock (r_relock r) (surfaces_ d);
     bitstream_buffer_ := bitstream_buffer_ d;
     bitstream_ := {| DataOffset := to_mfxU32 (DataOffset bs + c);
                      DataLength := DataLength bs - c;
                      MaxLength := MaxLength bs |} |}.

(** Modelled from the spec: [webrtc::VideoFrameBufferPool] (an external
    class), a pool of reusable destination buffers.  [CreateI420Buffer]
    reuses a pooled buffer of the requested size and otherwise adds one;
    [Release] empties the pool. *)
Definition CreateI420Buffer (w h : Z) (pool : list (Z * Z)) : list (Z * Z) :=
  if existsb (fun b => (fst b =? w)%Z && (snd b =? h)%Z) pool
  then pool else (w, h) :: pool.

Section Decoder.

(** The engine behind the session. *)
Variable engine : Engine.

(** [MSDK_CHECK_RESULT(P, X, ERR)] is defined in msdk_utils.h, which is
    not among the sources: whether it fires on the pair [(P, X)] is a
    parameter.  When it fires the enclosing function is left with [ERR]. *)
Variable msdk_check_fails : mfxStatus -> mfxStatus -> bool.

(** [ToMfxCodec] is declared in msdk_utils.h as well. *)
Variable ToMfxCodec : VideoCodecType -> mfxU32.

Definition MSDK_CHECK_RESULT (P X ERR : mfxStatus) : M unit :=
  if msdk_check_fails P X then raise ERR else ret tt.

(** The parameter block filled in by [CreateDecoder] (lines 93-109).
    The sums and products are those of [int] as long as they stay in its
    range (signed overflow is undefined in the source and has no
    counterpart here: the theorems that depend on the sizes bound them);
    the stores into the 16-bit fields truncate. *)
Definition decoder_param (codec : mfxU32) (width height : Z)
  : mfxVideoParam :=
  {| CodecId := codec;
     FrameInfo :=
       {| FourCC := MFX_FOURCC_NV12;
          ChromaFormat := MFX_CHROMAFORMAT_YUV420;
          PicStruct := MFX_PICSTRUCT_PROGRESSIVE;
          CropX := 0;
          CropY := 0;
          CropW := to_mfxU16 width;
          CropH := to_mfxU16 height;
          Width := to_mfxU16 ((width + 15) ÷ 16 * 16);
          Height := to_mfxU16 ((height + 15) ÷ 16 * 16) |};
     GopRefDist := 1;
     AsyncDepth := 1;
     IOPattern := MFX_IOPATTERN_OUT_SYSTEM_MEMORY |}.

(** [MsdkVideoDecoderImpl::CreateDecoder] is static: it gets no decoder
    object, and returns the new [MFXVideoDECODE] ([None] for nullptr)
    with the engine calls it made. *)
Definition CreateDecoder (session : option N) (codec : mfxU32)
    (width height : Z) (init : bool)
  : option MFXVideoDECODE * list event :=
  let param := decoder_param codec width height in
  let '(sts, param') := Query engine param in
  if (sts <? 0)%Z then (None, [EvQuery param])
  else if init then
    let sts' := Init engine param' in
    if negb (sts' =? MFX_ERR_NONE)%Z
    then (None, [EvQuery param; EvInit param'])
    else (Some {| dec_param := param'; dec_initialized := true |},
          [EvQuery param; EvInit param'])
  else (Some {| dec_param := param'; dec_initialized := false |},
        [EvQuery param]).

(** The surfaces built by [InitMediaSDK] (lines 296-316).  [width],
    [height] and [size] are [int] in the source: the products below are
    the source's as long as [width * height * 12] and
    [NumFrameSuggested * size] fit in an [int], which the theorems on the
    layout assume. *)
Definition make_surfaces (param : mfxVideoParam)
    (req : mfxFrameAllocRequest) : Z * list mfxFrameSurface1 :=
  let width := ((Z.of_N (Width (Info req)) + 31) ÷ 32 * 32)%Z in
  let height := ((Z.of_N (Height (Info req)) + 31) ÷ 32 * 32)%Z in
  let size := (width * height * 12 ÷ 8)%Z in
  ((Z.of_N (NumFrameSuggested req) * size)%Z,
   map (fun i : nat =>
          {| surface_Info := FrameInfo param;
             Locked := 0;
             Y := (Z.of_nat i * size)%Z;
             U := (Z.of_nat i * size + width * height)%Z;
             V := (Z.of_nat i * size + width * height + 1)%Z;
             Pitch := to_mfxU16 width |})
       (seq 0 (N.to_nat (NumFrameSuggested req)))).

Definition InitMediaSDK : M bool :=
  d <- this ;;
  decoder <- static (CreateDecoder (session_ d) (codec_ d)
                                   (width_ d) (height_ d) true) ;;
  update (set_decoder_ decoder) ;;
  match decoder with
  | None => undefined NullDereference
  | Some h =>
      emit [EvGetVideoParam] ;;
      let '(sts, param) := GetVideoParam engine h in
      if negb (sts =? MFX_ERR_NONE)%Z then ret false
      else
        emit [EvQueryIOSurf param] ;;
        let '(sts, req) := QueryIOSurf engine param in
        update (set_alloc_request_ req) ;;
        MSDK_CHECK_RESULT sts MFX_ERR_NONE sts ;;
        update (fun d =>
                  let buf := resize (1024 * 1024) (bitstream_buffer_ d) in
                  set_bitstream buf
                    {| DataOffset := 0; DataLength := 0;
                       MaxLength := to_mfxU32 (len buf) |} d) ;;
        update (fun d =>
                  let '(sz, ss) := make_surfaces param (alloc_request_ d) in
                  set_surfaces sz ss d) ;;
        ret true
  end.

Definition Configure (settings : Settings) : M bool :=
  update (set_size (max_render_width settings)
                   (max_render_height settings)) ;;
  InitMediaSDK.

Definition ReleaseMediaSDK : M unit :=
  d <- this ;;
  match decoder_ d with
  | Some _ => emit [EvClose]
  | None => ret tt
  end ;;
  update (set_decoder_ None).

Definition Release : M Z :=
  ReleaseMediaSDK ;;
  update (set_buffer_pool_ []) ;;
  ret WEBRTC_VIDEO_CODEC_OK.

Definition RegisterDecodeCompleteCallback
    (callback : option DecodedImageCallback) : M Z :=
  update (set_decode_complete_callback_ callback) ;;
  ret WEBRTC_VIDEO_CODEC_OK.

(** *** [Decode] *)

(** Lines 170-174: make room for the bytes held plus the new chunk. *)
Definition grow (n : N) (st : list Byte.byte * mfxBitstream)
  : list Byte.byte * mfxBitstream :=
  let '(buf, bs) := st in
  if MaxLength bs <? DataLength bs + n then
    let buf' := resize (DataLength bs + n) buf in
    (buf', {| DataOffset := DataOffset bs;
              DataLength := DataLength bs;
              MaxLength := to_mfxU32 (DataLength bs + len buf') |})
  else st.

(** Lines 186-188: move the unconsumed bytes to the front. *)
Definition compact (st : list Byte.byte * mfxBitstream)
  : option (list Byte.byte * mfxBitstream) :=
  let '(buf, bs) := st in
  match memmove_front (DataOffset bs) (DataLength bs) buf with
  | Some buf' => Some (buf', {| DataOffset := 0;
                                DataLength := DataLength bs;
                                MaxLength := MaxLength bs |})
  | None => None
  end.

(** Lines 189-191: copy the chunk behind them. *)
Definition append (input_image : EncodedImage)
    (st : list Byte.byte * mfxBitstream)
  : option (list Byte.byte * mfxBitstream) :=
  let '(buf, bs) := st in
  match memcpy_at (DataLength bs) (data input_image) (size input_image)
                  buf with
  | Some buf' =>
      Some (buf', {| DataOffset := DataOffset bs;
                     DataLength :=
                       to_mfxU32 (DataLength bs + size input_image);
                     MaxLength := MaxLength bs |})
  | None => None
  end.

(** Lines 170-191 on the object.  A copy that leaves the buffer is
    undefined behaviour; the object is then left as it was before that
    copy. *)
Definition accumulate (input_image : EncodedImage) : M unit :=
  d <- this ;;
  let st := grow (size input_image) (bitstream_buffer_ d, bitstream_ d) in
  update (set_bitstream (fst st) (snd st)) ;;
  match compact st with
  | None => undefined OutOfBounds
  | Some st =>
      update (set_bitstream (fst st) (snd st)) ;;
      match append input_image st with
      | None => undefined OutOfBounds
      | Some st => update (set_bitstream (fst st) (snd st))
      end
  end.

(** The object after lines 170-191, when both copies stay inside the
    buffer. *)
Definition accumulated (input_image : EncodedImage)
    (d : MsdkVideoDecoderImpl) : option MsdkVideoDecoderImpl :=
  match compact (grow (size input_image)
                      (bitstream_buffer_ d, bitstream_ d)) with
  | None => None
  | Some st =>
      match append input_image st with
      | None => None
      | Some st' => Some (set_bitstream (fst st') (snd st') d)
      end
  end.

(** Lines 210-218: submit until the engine answers something else than
    [MFX_WRN_DEVICE_BUSY], sleeping one millisecond after each busy
    answer.  The loop has no bound in the source; here it runs along the
    replies, and the answer that ends it is returned. *)
Fixpoint submit_loop (surface : nat) (rs : list submit_reply)
    (d : MsdkVideoDecoderImpl) (lg : list event)
  : outcome submit_reply * world :=
  match rs with
  | [] => (Starved, {| self := d; replies := []; log := lg |})
  | r :: rs' =>
      let ev := EvDecodeFrameAsync (bitstream_ d) (view d) surface
                  (nth_error (surfaces_ d) surface) in
      let d' := engine_effect r d in
      if (r_sts r =? MFX_WRN_DEVICE_BUSY)%Z
      then submit_loop surface rs' d' (lg ++ [ev; EvSleep 1])
      else (Returned r, {| self := d'; replies := rs'; log := lg ++ [ev] |})
  end.

Definition submit (surface : nat) : M submit_reply :=
  fun w => submit_loop surface (replies w) (self w) (log w).

(** Lines 221-250: what follows the loop. *)
Definition deliver (cb : DecodedImageCallback) (pts : N)
    (r : submit_reply) : M Z :=
  if (r_sts r =? MFX_ERR_MORE_DATA)%Z then ret WEBRTC_VIDEO_CODEC_OK
  else
    match r_syncp r with
    | None => ret WEBRTC_VIDEO_CODEC_OK
    | Some syncp =>
        MSDK_CHECK_RESULT (r_sts r) MFX_ERR_NONE (r_sts r) ;;
        emit [EvSyncOperation syncp 600000] ;;
        let sts := SyncOperation engine syncp 600000 in
        MSDK_CHECK_RESULT sts MFX_ERR_NONE sts ;;
        d <- this ;;
        update (set_buffer_pool_
                  (CreateI420Buffer (width_ d) (height_ d)
                                    (buffer_pool_ d))) ;;
        match r_out_surface r with
        | None => undefined NullDereference
        | Some out_surface =>
            emit [EvDecoded cb
                    {| frame_width := width_ d;
                       frame_height := height_ d;
                       timestamp_rtp := to_mfxU32 pts;
                       frame_source := out_surface |}] ;;
            ret WEBRTC_VIDEO_CODEC_OK
        end
    end.

(** Lines 170-250: the path taken once the three checks have passed. *)
Definition decode_chunk (cb : DecodedImageCallback)
    (input_image : EncodedImage) : M Z :=
  accumulate input_image ;;
  d <- this ;;
  match find_if unlocked (surfaces_ d) with
  | None => ret WEBRTC_VIDEO_CODEC_ERROR
  | Some surface =>
      let pts := Timestamp input_image in
      r <- submit surface ;;
      deliver cb pts r
  end.

Definition Decode (input_image : EncodedImage) (missing_frames : bool)
    (render_time_ms : Z) : M Z :=
  d <- this ;;
  match decoder_ d with
  | None => ret WEBRTC_VIDEO_CODEC_UNINITIALIZED
  | Some _ =>
      match decode_complete_callback_ d with
      | None => ret WEBRTC_VIDEO_CODEC_UNINITIALIZED
      | Some cb =>
          if match data input_image with None => true | Some _ => false end
             && (0 <? size input_image)
          then ret WEBRTC_VIDEO_CODEC_ERR_PARAMETER
          else decode_chunk cb input_image
      end
  end.

(** [MsdkVideoDecoder::Create] (lines 347-352). *)
Definition Create (session : option N) (codec : VideoCodecType)
  : MsdkVideoDecoderImpl :=
  MsdkVideoDecoderImpl_new session (ToMfxCodec codec).

(** [MsdkVideoDecoder::IsSupported], static as well. *)
Definition IsSupported (session : option N) (codec : VideoCodecType)
  : bool * list event :=
  match session with
  | None => (false, [])
  | Some _ =>
      let '(decoder, evs) :=
        CreateDecoder session (ToMfxCodec codec) 640 480 false in
      (match decoder with Some _ => true | None => false end, evs)
  end.

End Decoder.

(** The bytes that the [memcpy] of line 189 reads from the input. *)
Definition chunk (input_image : EncodedImage) : list Byte.byte :=
  match data input_image with
  | Some bytes => slice 0 (size input_image) bytes
  | None => []
  end.

(** The declared size does not exceed the bytes behind [data()]; a null
    [data()] comes with size zero. *)
Definition readable (input_image : EncodedImage) : Prop :=
  match data input_image with
  | Some bytes => size input_image <= len bytes
  | None => size input_image = 0
  end.

(** ** Conditions on the accumulation buffer *)

(** The unconsumed bytes lie inside the buffer, and the recorded capacity
    is not below the size of the buffer. *)
Definition bitstream_ok (d : MsdkVideoDecoderImpl) : Prop :=
  DataOffset (bitstream_ d) + DataLength (bitstream_ d)
    <= len (bitstream_buffer_ d)
  /\ len (bitstream_buffer_ d) <= MaxLength (bitstream_ d).

(** A chunk of [n] bytes that the recorded capacity accepts without growth
    has room in the buffer itself. *)
Definition chunk_fits (n : N) (d : MsdkVideoDecoderImpl) : Prop :=
  DataLength (bitstream_ d) + n <= MaxLength (bitstream_ d) ->
  DataLength (bitstream_ d) + n <= len (bitstream_buffer_ d).

(** ** Conditions on the engine's answers *)

(** A busy answer that took nothing: no byte consumed, no [Locked] counter
    rewritten. *)
Definition busy_idle (r : submit_reply) : Prop :=
  r_sts r = MFX_WRN_DEVICE_BUSY /\ r_consumed r = 0 /\ r_relock r = [].

(** A successful answer after which the call can run to its end: either
    there is no completion token, or there is one together with an output
    surface, the check of line 228 lets [MFX_ERR_NONE] through, and the
    wait on the token succeeds. *)
Definition completes (engine : Engine)
    (msdk_check_fails : mfxStatus -> mfxStatus -> bool)
    (r : submit_reply) : Prop :=
  r_syncp r = None
  \/ exists syncp out_surface,
       r_syncp r = Some syncp
       /\ r_out_surface r = Some out_surface
       /\ msdk_check_fails MFX_ERR_NONE MFX_ERR_NONE = false
       /\ SyncOperation engine syncp 600000 = MFX_ERR_NONE.

(** What [deliver] logs after the submissions. *)
Definition completion_events (d : MsdkVideoDecoderImpl)
    (cb : DecodedImageCallback) (pts : N) (r : submit_reply) : list event :=
  match r_syncp r, r_out_surface r with
  | Some syncp, Some out_surface =>
      [EvSyncOperation syncp 600000;
       EvDecoded cb {| frame_width := width_ d;
                       frame_height := height_ d;
                       timestamp_rtp := to_mfxU32 pts;
                       frame_source := out_surface |}]
  | _, _ => []
  end.

(** The submission that the loop of lines 210-218 makes on the object [d]:
    the bitstream descriptor, the bytes it designates, and the surface. *)
Definition submission (surface : nat) (d : MsdkVideoDecoderImpl) : event :=
  EvDecodeFrameAsync (bitstream_ d) (view d) surface
                     (nth_error (surfaces_ d) surface).

(** The values a call may return, when it returns. *)
Definition returns_only (vals : list Z) (o : outcome Z) : Prop :=
  match o with
  | Returned v => In v vals
  | _ => True
  end.

Definition is_submission (e : event) : bool :=
  match e with EvDecodeFrameAsync _ _ _ _ => true | _ => false end.

Definition is_Init (e : event) : bool :=
  match e with EvInit _ => true | _ => false end.

(** A caller that feeds chunks one after the other, whatever each call
    answers. *)
Fixpoint feed (engine : Engine)
    (msdk_check_fails : mfxStatus -> mfxStatus -> bool)
    (chunks : list EncodedImage) (w : world) : list (outcome Z) * world :=
  match chunks with
  | [] => ([], w)
  | input_image :: rest =>
      let '(o, w1) := Decode engine msdk_check_fails input_image false 0 w in
      let '(os, w2) := feed engine msdk_check_fails rest w1 in
      (o :: os, w2)
  end.

(** ** Sample collaborators and inputs *)

Module Sample.

(** An engine that accepts what it is asked, wants two surfaces, and
    completes every wait. *)
Definition engine : Engine :=
  {| Query := fun p => (MFX_ERR_NONE, p);
     Init := fun _ => MFX_ERR_NONE;
     GetVideoParam := fun h => (MFX_ERR_NONE, dec_param h);
     QueryIOSurf := fun p =>
       (MFX_ERR_NONE, {| NumFrameSuggested := 2; Info := FrameInfo p |});
     SyncOperation := fun _ _ => MFX_ERR_NONE |}.

(** An engine that rejects every parameter block at validation. *)
Definition rejecting : Engine :=
  {| Query := fun p => (MFX_ERR_UNSUPPORTED, p);
     Init := fun _ => MFX_ERR_NONE;
     GetVideoParam := fun h => (MFX_ERR_NONE, dec_param h);
     QueryIOSurf := fun p =>
       (MFX_ERR_NONE, {| NumFrameSuggested := 2; Info := FrameInfo p |});
     SyncOperation := fun _ _ => MFX_ERR_NONE |}.

(** A check that fires when the status is below the expected one. *)
Definition check_fails (P X : mfxStatus) : bool := (P <? X)%Z.

Definition ToMfxCodec (codec : VideoCodecType) : mfxU32 :=
  match codec with
  | kVideoCodecVP8 => MFX_CODEC_VP8
  | kVideoCodecVP9 => MFX_CODEC_VP9
  | kVideoCodecH264 => MFX_CODEC_AVC
  | _ => MFX_CODEC_AV1
  end.

Definition settings : Settings :=
  {| max_render_width := 640; max_render_height := 480 |}.

(** A new decoder with a sink registered. *)
Definition created : MsdkVideoDecoderImpl :=
  self (snd (run (RegisterDecodeCompleteCallback (Some 1))
                 (Create ToMfxCodec (Some 0) kVideoCodecVP8) [])).

(** The same after [Configure]: a buffer of 1 MiB and two surfaces. *)
Definition configured : MsdkVideoDecoderImpl :=
  self (snd (run (Configure engine check_fails settings) created [])).

(** A chunk of [n] bytes of value 1. *)
Definition ones (n : N) : EncodedImage :=
  {| data := Some (repeat Byte.x01 (N.to_nat n)); size := n;
     Timestamp := 90000 |}.

Definition abc : EncodedImage :=
  {| data := Some [Byte.x61; Byte.x62; Byte.x63]; size := 3;
     Timestamp := 90000 |}.

Definition de : EncodedImage :=
  {| data := Some [Byte.x64; Byte.x65]; size := 2; Timestamp := 93000 |}.

Definition null_sized : EncodedImage :=
  {| data := None; size := 4; Timestamp := 90000 |}.

Definition more_data (consumed : N) : submit_reply :=
  {| r_sts := MFX_ERR_MORE_DATA; r_consumed := consumed; r_relock := [];
     r_out_surface := None; r_syncp := None |}.

Definition busy : submit_reply :=
  {| r_sts := MFX_WRN_DEVICE_BUSY; r_consumed := 0; r_relock := [];
     r_out_surface := None; r_syncp := None |}.

Definition success : submit_reply :=
  {| r_sts := MFX_ERR_NONE; r_consumed := 3; r_relock := [(O, 1)];
     r_out_surface := Some O; r_syncp := Some 42 |}.

Definition failed : submit_reply :=
  {| r_sts := MFX_ERR_DEVICE_FAILED; r_consumed := 0; r_relock := [];
     r_out_surface := None; r_syncp := None |}.

(** [configured] after lines 170-191 on the chunk [abc]. *)
Definition fed : MsdkVideoDecoderImpl :=
  match accumulated abc configured with
  | Some d => d
  | None => configured
  end.



(** The first surface of [configured]. *)
Definition surface0 : mfxFrameSurface1 :=
  {| surface_Info := FrameInfo (decoder_param MFX_CODEC_VP8 640 480);
     Locked := 0; Y := 0; U := 307200; V := 307201; Pitch := 640 |}.

End Sample.

(** ** Further observations on the log and the object *)

Definition is_frame (e : event) : bool :=
  match e with EvDecoded _ _ => true | _ => false end.

Definition is_sleep (e : event) : bool :=
  match e with EvSleep _ => true | _ => false end.

(** The bytes shown to the engine by the submissions of a log, in order. *)
Fixpoint submitted_views (lg : list event) : list (list Byte.byte) :=
  match lg with
  | [] => []
  | EvDecodeFrameAsync _ v _ _ :: lg' => v :: submitted_views lg'
  | _ :: lg' => submitted_views lg'
  end.

(** A surface without its [Locked] counter. *)
Definition unlock (s : mfxFrameSurface1) : mfxFrameSurface1 :=
  set_Locked 0 s.

(** What a decoder is configured with: everything but the accumulator, the
    [Locked] counters and the pool of destination buffers. *)
Definition configuration (d : MsdkVideoDecoderImpl) :=
  (width_ d, height_ d, decode_complete_callback_ d, codec_ d, session_ d,
   alloc_request_ d, decoder_ d, surface_buffer_ d,
   map unlock (surfaces_ d)).

(** A member function keeps an observation [f] of the object when the
    object it leaves, whatever the outcome, has the same [f]. *)
Definition keeps {A X : Type} (f : MsdkVideoDecoderImpl -> X) (c : M A)
  : Prop :=
  forall w, f (self (snd (c w))) = f (self w).

(** The windows a caller expects the engine to see when chunks are fed one
    after the other and nothing is consumed: the bytes held, extended by
    each chunk in turn. *)
Fixpoint running_views (held : list Byte.byte) (chunks : list EncodedImage)
  : list (list Byte.byte) :=
  match chunks with
  | [] => []
  | c :: cs => (held ++ chunk c) :: running_views (held ++ chunk c) cs
  end.

(** The total of the declared sizes. *)
Definition total_size (chunks : list EncodedImage) : N :=
  fold_right (fun c acc => size c + acc) 0 chunks.

(** An answer that asks for more data and takes nothing. *)
Definition wants_more (r : submit_reply) : Prop :=
  r_sts r = MFX_ERR_MORE_DATA /\ r_consumed r = 0 /\ r_relock r = [].

(** The destructor (lines 78-80). *)
Definition MsdkVideoDecoderImpl_delete : M Z := Release.

(** What the scan of lines 194-196 is to give: surface [s0] is at position
    [i] of the pool, it is not locked, and every surface before it is. *)
Definition first_unlocked (ss : list mfxFrameSurface1) (i : nat)
    (s0 : mfxFrameSurface1) : Prop :=
  nth_error ss i = Some s0
  /\ Locked s0 = 0
  /\ forall k sk, (k < i)%nat -> nth_error ss k = Some sk -> Locked sk <> 0.


(** The object after the [memmove] of lines 186-188 alone: the unconsumed
    bytes at the front of the buffer, the descriptor at offset 0. *)
Definition compacted (d : MsdkVideoDecoderImpl) : MsdkVideoDecoderImpl :=
  set_bitstream (blit 0 (view d) (bitstream_buffer_ d))
    {| DataOffset := 0;
       DataLength := DataLength (bitstream_ d);
       MaxLength := MaxLength (bitstream_ d) |} d.

(** * The video encoder factory

    A shallow embedding of [src/sora_video_encoder_factory.cpp]: the class
    [SoraVideoEncoderFactory] (constructor, [GetSupportedFormats],
    [CreateVideoEncoder]) and the two functions that build its default
    configurations.  The header that declares the classes is not among
    the sources; the fields are the ones the code reads and writes. *)

Module Factory.

Section Factory.

(** [webrtc::SdpVideoFormat] and its comparison [IsSameCodec] belong to
    WebRTC. *)
Variable SdpVideoFormat : Type.
Variable IsSameCodec : SdpVideoFormat -> SdpVideoFormat -> bool.

(** [GetDefaultVideoFormats] is declared in default_video_formats.h, which
    is not among the sources. *)
Variable GetDefaultVideoFormats : VideoCodecType -> list SdpVideoFormat.

(** What a creation function returns: a
    [std::unique_ptr<webrtc::VideoEncoder>], null or not. *)
Variable Encoder : Type.

(** A [webrtc::VideoEncoderFactory] held by an entry, as far as it is
    called here. *)
Record VideoEncoderFactory := {
  factory_GetSupportedFormats : list SdpVideoFormat;
  factory_CreateVideoEncoder : SdpVideoFormat -> Encoder
}.

(** [VideoEncoderConfig]; an empty [std::function] and a null [factory]
    are [None]. *)
Record VideoEncoderConfig := {
  codec : VideoCodecType;
  get_supported_formats : option (list SdpVideoFormat);
  create_video_encoder : option (SdpVideoFormat -> Encoder);
  factory : option VideoEncoderFactory
}.

Record SoraVideoEncoderFactoryConfig := {
  encoders : list VideoEncoderConfig;
  use_simulcast_adapter : bool
}.

(** The object: [formats_] is the mutable cache that the const member
    [GetSupportedFormats] rewrites. *)
#[local] Unset Elimination Schemes.
Inductive SoraVideoEncoderFactory := {
  config_ : SoraVideoEncoderFactoryConfig;
  formats_ : list (list SdpVideoFormat);
  internal_encoder_factory_ : option SoraVideoEncoderFactory
}.

#[local] Set Elimination Schemes.

(** The constructor (lines 45-53).  The factory it nests is built by the
    same constructor from [config2], whose flag is false, so that one has
    no nested factory. *)
Definition SoraVideoEncoderFactory_new (config : SoraVideoEncoderFactoryConfig)
  : SoraVideoEncoderFactory :=
  if use_simulcast_adapter config then
    let config2 := {| encoders := encoders config;
                      use_simulcast_adapter := false |} in
    {| config_ := config; formats_ := [];
       internal_encoder_factory_ :=
         Some {| config_ := config2; formats_ := [];
                 internal_encoder_factory_ := None |} |}
  else
    {| config_ := config; formats_ := [];
       internal_encoder_factory_ := None |}.

(** Lines 64-71: the formats of one entry. *)
Definition entry_formats (enc : VideoEncoderConfig) : list SdpVideoFormat :=
  match factory enc with
  | Some f => factory_GetSupportedFormats f
  | None =>
      match get_supported_formats enc with
      | Some formats => formats
      | None => GetDefaultVideoFormats (codec enc)
      end
  end.

(** Lines 60-74: the loop, with [r] and [formats_] as they grow. *)
Fixpoint collect_formats (encs : list VideoEncoderConfig)
    (r : list SdpVideoFormat) (cache : list (list SdpVideoFormat))
  : list SdpVideoFormat * list (list SdpVideoFormat) :=
  match encs with
  | [] => (r, cache)
  | enc :: rest =>
      let formats := entry_formats enc in
      collect_formats rest (r ++ formats) (cache ++ [formats])
  end.

Definition GetSupportedFormats (this : SoraVideoEncoderFactory)
  : list SdpVideoFormat * SoraVideoEncoderFactory :=
  let '(r, cache) := collect_formats (encoders (config_ this)) [] [] in
  (r, {| config_ := config_ this; formats_ := cache;
         internal_encoder_factory_ := internal_encoder_factory_ this |}).

(** How a [CreateVideoEncoder] call ends: with what a creation function
    returned, with a new [SimulcastEncoderAdapter] on the nested factory,
    with the [nullptr] of line 124, with the [std::bad_function_call] of an
    empty [std::function], or with a read of [formats_] behind its end. *)
Inductive creation :=
| Created (e : Encoder)
| Adapter (inner : SoraVideoEncoderFactory) (format : SdpVideoFormat)
| Nullptr
| BadFunctionCall
| OutOfRange.

(** Lines 104-111: the creation function of one entry. *)
Definition entry_create (enc : VideoEncoderConfig)
  : option (SdpVideoFormat -> Encoder) :=
  match factory enc with
  | Some f => Some (factory_CreateVideoEncoder f)
  | None => create_video_encoder enc
  end.

(** Lines 114-118: does the inner loop reach its [return]? *)
Fixpoint has_same_codec (supported_formats : list SdpVideoFormat)
    (format : SdpVideoFormat) : bool :=
  match supported_formats with
  | [] => false
  | f :: rest =>
      if IsSameCodec f format then true else has_same_codec rest format
  end.

(** Lines 94-124.  The local [r] of line 113 is never assigned, so the
    test of line 120 never holds. *)
Fixpoint create_loop (encs : list VideoEncoderConfig)
    (cache : list (list SdpVideoFormat)) (n : nat) (format : SdpVideoFormat)
  : creation :=
  match encs with
  | [] => Nullptr
  | enc :: rest =>
      match nth_error cache n with
      | None => OutOfRange
      | Some supported_formats =>
          if has_same_codec supported_formats format then
            match entry_create enc with
            | Some create => Created (create format)
            | None => BadFunctionCall
            end
          else create_loop rest cache (S n) format
      end
  end.

Definition CreateVideoEncoder (this : SoraVideoEncoderFactory)
    (format : SdpVideoFormat) : creation * SoraVideoEncoderFactory :=
  match internal_encoder_factory_ this with
  | Some inner => (Adapter inner format, this)
  | None =>
      let this1 := match formats_ this with
                   | [] => snd (GetSupportedFormats this)
                   | _ :: _ => this
                   end in
      (create_loop (encoders (config_ this1)) (formats_ this1) 0 format,
       this1)
  end.

(** The entry a request is served by: the first one whose formats hold
    one of the same codec. *)
Definition first_match (encs : list VideoEncoderConfig)
    (format : SdpVideoFormat) : creation :=
  match find (fun enc =>
                existsb (fun f => IsSameCodec f format) (entry_formats enc))
             encs with
  | Some enc =>
      match entry_create enc with
      | Some create => Created (create format)
      | None => BadFunctionCall
      end
  | None => Nullptr
  end.

(** A use of the factory: a sequence of calls of its two members. *)
Inductive call :=
| CallGetSupportedFormats
| CallCreateVideoEncoder (format : SdpVideoFormat).

(** The creations of a sequence of calls, in order, and the object left. *)
Fixpoint use_factory (calls : list call) (this : SoraVideoEncoderFactory)
  : list creation * SoraVideoEncoderFactory :=
  match calls with
  | [] => ([], this)
  | CallGetSupportedFormats :: rest =>
      use_factory rest (snd (GetSupportedFormats this))
  | CallCreateVideoEncoder format :: rest =>
      let '(c, this1) := CreateVideoEncoder this format in
      let '(cs, this2) := use_factory rest this1 in
      (c :: cs, this2)
  end.

(** The cache is empty or holds the formats of every entry, in order. *)
Definition cache_ok (this : SoraVideoEncoderFactory) : Prop :=
  formats_ this = []
  \/ formats_ this = map entry_formats (encoders (config_ this)).

End Factory.

Section Defaults.

Variable SdpVideoFormat : Type.

(** The encoders that the default configurations create, named after the
    call that makes them (lines 150-154, 165-167, 206-209, 245-253). *)
Inductive EncoderCall :=
| VP8Encoder_Create
| VP9Encoder_Create (format : SdpVideoFormat)
| CreateLibaomAv1Encoder
| NvCodecH264Encoder_Create (format : SdpVideoFormat)
                            (cuda_context : option N)
| MsdkVideoEncoder_Create (codec : VideoCodecType)
| JetsonVideoEncoder_make (format : SdpVideoFormat).

(** The preprocessor conditions of the file. *)
Record Build := {
  APPLE : bool;
  SORA_CPP_SDK_ANDROID : bool;
  USE_NVCODEC_ENCODER : bool;
  USE_MSDK_ENCODER : bool;
  USE_JETSON_ENCODER : bool;
  (** [!defined(__arm__) || defined(__aarch64__) || defined(__ARM_NEON__)] *)
  HAVE_LIBAOM : bool
}.

(** The probes of the hardware encoders and the platform factories, all
    defined outside this file. *)
Record Platform := {
  NvCodecH264Encoder_IsSupported : option N -> bool;
  MsdkVideoEncoder_IsSupported : VideoCodecType -> bool;
  JetsonVideoEncoder_IsSupportedVP8 : bool;
  JetsonVideoEncoder_IsSupportedVP9 : bool;
  JetsonVideoEncoder_IsSupportedAV1 : bool;
  CreateMacVideoEncoderFactory :
    VideoEncoderFactory SdpVideoFormat EncoderCall;
  CreateAndroidVideoEncoderFactory :
    N -> VideoEncoderFactory SdpVideoFormat EncoderCall
}.

Variable build : Build.
Variable platform : Platform.

(** The constructors of [VideoEncoderConfig] and the default-constructed
    [SoraVideoEncoderFactoryConfig] are declared in the header, which is
    not among the sources. *)
Variable VideoEncoderConfig_of_codec :
  VideoCodecType -> (SdpVideoFormat -> EncoderCall) ->
  VideoEncoderConfig SdpVideoFormat EncoderCall.
Variable VideoEncoderConfig_of_factory :
  VideoEncoderFactory SdpVideoFormat EncoderCall ->
  VideoEncoderConfig SdpVideoFormat EncoderCall.
Variable default_config : SoraVideoEncoderFactoryConfig SdpVideoFormat
                                                        EncoderCall.

(** [config.encoders.push_back(x)] and
    [config.encoders.insert(config.encoders.begin(), x)]. *)
Definition push_back (x : VideoEncoderConfig SdpVideoFormat EncoderCall)
    (config : SoraVideoEncoderFactoryConfig SdpVideoFormat EncoderCall) :=
  {| encoders := encoders _ _ config ++ [x];
     use_simulcast_adapter := use_simulcast_adapter _ _ config |}.

Definition insert_begin (x : VideoEncoderConfig SdpVideoFormat EncoderCall)
    (config : SoraVideoEncoderFactoryConfig SdpVideoFormat EncoderCall) :=
  {| encoders := x :: encoders _ _ config;
     use_simulcast_adapter := use_simulcast_adapter _ _ config |}.

(** Lines 241-256. *)
Definition GetSoftwareOnlyVideoEncoderFactoryConfig :=
  let config := default_config in
  let config :=
    push_back (VideoEncoderConfig_of_codec kVideoCodecVP8
                 (fun format => VP8Encoder_Create)) config in
  let config :=
    push_back (VideoEncoderConfig_of_codec kVideoCodecVP9
                 (fun format => VP9Encoder_Create format)) config in
  let config :=
    if HAVE_LIBAOM build
    then push_back (VideoEncoderConfig_of_codec kVideoCodecAV1
                      (fun format => CreateLibaomAv1Encoder)) config
    else config in
  config.

(** An entry of the Media SDK encoder for one codec (lines 163-168). *)
Definition msdk_entry (c : VideoCodecType) :=
  VideoEncoderConfig_of_codec c (fun format => MsdkVideoEncoder_Create c).

(** An entry of the Jetson encoder for one codec (lines 206-210). *)
Definition jetson_entry (c : VideoCodecType) :=
  VideoEncoderConfig_of_codec c (fun format => JetsonVideoEncoder_make format).

(** Lines 127-239. *)
Definition GetDefaultVideoEncoderFactoryConfig
    (cuda_context : option N) (env : option N) :=
  let config := GetSoftwareOnlyVideoEncoderFactoryConfig in
  let config :=
    if APPLE build
    then insert_begin
           (VideoEncoderConfig_of_factory
              (CreateMacVideoEncoderFactory platform)) config
    else config in
  let config :=
    if SORA_CPP_SDK_ANDROID build
    then match env with
         | Some e =>
             insert_begin
               (VideoEncoderConfig_of_factory
                  (CreateAndroidVideoEncoderFactory platform e)) config
         | None => config
         end
    else config in
  let config :=
    if USE_NVCODEC_ENCODER build
    then if NvCodecH264Encoder_IsSupported platform cuda_context
         then insert_begin
                (VideoEncoderConfig_of_codec kVideoCodecH264
                   (fun format =>
                      NvCodecH264Encoder_Create format cuda_context))
                config
         else config
    else config in
  let config :=
    if USE_MSDK_ENCODER build
    then
      let config :=
        if MsdkVideoEncoder_IsSupported platform kVideoCodecVP8
        then insert_begin (msdk_entry kVideoCodecVP8) config else config in
      let config :=
        if MsdkVideoEncoder_IsSupported platform kVideoCodecVP9
        then insert_begin (msdk_entry kVideoCodecVP9) config else config in
      let config :=
        if MsdkVideoEncoder_IsSupported platform kVideoCodecH264
        then insert_begin (msdk_entry kVideoCodecH264) config else config in
      let config :=
        if MsdkVideoEncoder_IsSupported platform kVideoCodecAV1
        then insert_begin (msdk_entry kVideoCodecAV1) config else config in
      config
    else config in
  let config :=
    if USE_JETSON_ENCODER build
    then
      let config :=
        if JetsonVideoEncoder_IsSupportedVP8 platform
        then insert_begin (jetson_entry kVideoCodecVP8) config else config in
      let config :=
        if JetsonVideoEncoder_IsSupportedVP9 platform
        then insert_begin (jetson_entry kVideoCodecVP9) config else config in
      let config :=
        if JetsonVideoEncoder_IsSupportedAV1 platform
        then insert_begin (jetson_entry kVideoCodecAV1) config else config in
      insert_begin (jetson_entry kVideoCodecH264) config
    else config in
  config.

(** [x] when [b] holds, as a list. *)
Definition when {A : Type} (b : bool) (x : A) : list A :=
  if b then [x] else [].

End Defaults.

Arguments VP8Encoder_Create {SdpVideoFormat}.
Arguments CreateLibaomAv1Encoder {SdpVideoFormat}.
Arguments MsdkVideoEncoder_Create {SdpVideoFormat} codec.

Definition codec_eqb (a b : VideoCodecType) : bool :=
  match a, b with
  | kVideoCodecGeneric, kVideoCodecGeneric
  | kVideoCodecVP8, kVideoCodecVP8
  | kVideoCodecVP9, kVideoCodecVP9
  | kVideoCodecAV1, kVideoCodecAV1
  | kVideoCodecH264, kVideoCodecH264 => true
  | _, _ => false
  end.

Arguments codec {SdpVideoFormat Encoder} v.
Arguments get_supported_formats {SdpVideoFormat Encoder} v.
Arguments create_video_encoder {SdpVideoFormat Encoder} v.
Arguments factory {SdpVideoFormat Encoder} v.
Arguments factory_GetSupportedFormats {SdpVideoFormat Encoder} v.
Arguments factory_CreateVideoEncoder {SdpVideoFormat Encoder} v.
Arguments encoders {SdpVideoFormat Encoder} s.
Arguments use_simulcast_adapter {SdpVideoFormat Encoder} s.
Arguments config_ {SdpVideoFormat Encoder} s.
Arguments formats_ {SdpVideoFormat Encoder} s.
Arguments internal_encoder_factory_ {SdpVideoFormat Encoder} s.
Arguments SoraVideoEncoderFactory_new {SdpVideoFormat Encoder} config.
Arguments entry_formats {SdpVideoFormat} GetDefaultVideoFormats {Encoder} enc.
Arguments entry_create {SdpVideoFormat Encoder} enc.
Arguments has_same_codec {SdpVideoFormat} IsSameCodec supported_formats
  format.
Arguments create_loop {SdpVideoFormat} IsSameCodec {Encoder} encs cache n
  format.
Arguments GetSupportedFormats {SdpVideoFormat} GetDefaultVideoFormats
  {Encoder} this.
Arguments CreateVideoEncoder {SdpVideoFormat} IsSameCodec
  GetDefaultVideoFormats {Encoder} this format.
Arguments first_match {SdpVideoFormat} IsSameCodec GetDefaultVideoFormats
  {Encoder} encs format.
Arguments use_factory {SdpVideoFormat} IsSameCodec GetDefaultVideoFormats
  {Encoder} calls this.
Arguments cache_ok {SdpVideoFormat} GetDefaultVideoFormats {Encoder} this.
Arguments collect_formats {SdpVideoFormat} GetDefaultVideoFormats {Encoder}
  encs r cache.

Arguments Created {SdpVideoFormat Encoder} e.
Arguments Adapter {SdpVideoFormat Encoder} inner format.
Arguments Nullptr {SdpVideoFormat Encoder}.
Arguments BadFunctionCall {SdpVideoFormat Encoder}.
Arguments OutOfRange {SdpVideoFormat Encoder}.
Arguments CallGetSupportedFormats {SdpVideoFormat}.
Arguments CallCreateVideoEncoder {SdpVideoFormat} format.

End Factory.

(** ** A sample factory *)

Module FactorySample.

(** A format: the codec and a profile number. *)
Definition format := (VideoCodecType * N)%type.

(** Two formats are of the same codec when their codecs agree. *)
Definition IsSameCodec (a b : format) : bool :=
  Factory.codec_eqb (fst a) (fst b).

Definition GetDefaultVideoFormats (c : VideoCodecType) : list format :=
  match c with
  | kVideoCodecH264 => [(kVideoCodecH264, 0); (kVideoCodecH264, 1)]
  | _ => [(c, 0)]
  end.

Definition of_codec (c : VideoCodecType)
    (create : format -> Factory.EncoderCall format)
  : Factory.VideoEncoderConfig format (Factory.EncoderCall format) :=
  {| Factory.codec := c;
     Factory.get_supported_formats := None;
     Factory.create_video_encoder := Some create;
     Factory.factory := None |}.

Definition of_factory
    (f : Factory.VideoEncoderFactory format (Factory.EncoderCall format))
  : Factory.VideoEncoderConfig format (Factory.EncoderCall format) :=
  {| Factory.codec := kVideoCodecGeneric;
     Factory.get_supported_formats := None;
     Factory.create_video_encoder := None;
     Factory.factory := Some f |}.

Definition default_config
  : Factory.SoraVideoEncoderFactoryConfig format (Factory.EncoderCall format)
  := {| Factory.encoders := []; Factory.use_simulcast_adapter := false |}.

(** A build with the Media SDK encoder and libaom. *)
Definition build : Factory.Build :=
  {| Factory.APPLE := false; Factory.SORA_CPP_SDK_ANDROID := false;
     Factory.USE_NVCODEC_ENCODER := false; Factory.USE_MSDK_ENCODER := true;
     Factory.USE_JETSON_ENCODER := false; Factory.HAVE_LIBAOM := true |}.

Definition no_factory
  : Factory.VideoEncoderFactory format (Factory.EncoderCall format) :=
  {| Factory.factory_GetSupportedFormats := [];
     Factory.factory_CreateVideoEncoder :=
       fun _ => Factory.VP8Encoder_Create |}.

(** A machine whose Media SDK encodes H264 and VP9 only. *)
Definition platform : Factory.Platform format :=
  {| Factory.NvCodecH264Encoder_IsSupported := fun _ => false;
     Factory.MsdkVideoEncoder_IsSupported :=
       fun c => match c with
                | kVideoCodecH264 | kVideoCodecVP9 => true
                | _ => false
                end;
     Factory.JetsonVideoEncoder_IsSupportedVP8 := false;
     Factory.JetsonVideoEncoder_IsSupportedVP9 := false;
     Factory.JetsonVideoEncoder_IsSupportedAV1 := false;
     Factory.CreateMacVideoEncoderFactory := no_factory;
     Factory.CreateAndroidVideoEncoderFactory := fun _ => no_factory |}.

Definition config :=
  Factory.GetDefaultVideoEncoderFactoryConfig format build platform
    of_codec of_factory default_config None None.

End FactorySample.

(** ** Facts on byte buffers *)

Lemma option_is_Some {A : Type} (o : option A) (default : A) :
  match o with Some _ => true | None => false end = true ->
  o = Some (match o with Some x => x | None => default end).
Proof. destruct o; [reflexivity | discriminate]. Qed.


Section BytesFacts.

Implicit Types l src : list Byte.byte.

Lemma len_resize n l : len (resize n l) = n.
Proof.
  unfold resize, len.
  rewrite length_app, length_firstn, repeat_length. lia.
Qed.

Lemma resize_extends n l :
  len l <= n -> resize n l = l ++ repeat Byte.x00 (N.to_nat n - length l).
Proof.
  unfold resize, len. intros H.
  rewrite firstn_all2 by lia. reflexivity.
Qed.

Lemma slice_app_left off n l1 l2 :
  off + n <= len l1 -> slice off n (l1 ++ l2) = slice off n l1.
Proof.
  unfold slice, len. intros H.
  rewrite skipn_app, firstn_app, length_skipn.
  replace (N.to_nat n - (length l1 - N.to_nat off))%nat with O by lia.
  rewrite firstn_O, app_nil_r. reflexivity.
Qed.

Lemma length_slice off n l :
  off + n <= len l -> length (slice off n l) = N.to_nat n.
Proof.
  unfold slice, len. intros H.
  rewrite length_firstn, length_skipn. lia.
Qed.

Lemma len_blit at_ src l :
  at_ + len src <= len l -> len (blit at_ src l) = len l.
Proof.
  unfold blit, len. intros H.
  rewrite !length_app, length_firstn, length_skipn. lia.
Qed.

(** After a blit at [at_], the first [at_ + length src] bytes are the old
    first [at_] bytes followed by the source. *)
Lemma slice_blit at_ src l :
  at_ <= len l ->
  slice 0 (at_ + len src) (blit at_ src l) = slice 0 at_ l ++ src.
Proof.
  unfold slice, blit, len. intros H. cbn [N.to_nat skipn].
  rewrite app_assoc, firstn_app.
  rewrite length_app, length_firstn.
  replace (N.to_nat (at_ + N.of_nat (length src))
           - (Nat.min (N.to_nat at_) (length l) + length src))%nat
    with O by lia.
  rewrite firstn_O, app_nil_r.
  apply firstn_all2. rewrite length_app, length_firstn. lia.
Qed.

(** Consuming [c] bytes of a window leaves its tail. *)
Lemma slice_advance off n c l :
  c <= n ->
  slice (off + c) (n - c) l = skipn (N.to_nat c) (slice off n l).
Proof.
  unfold slice. intros H.
  rewrite skipn_firstn_comm, skipn_skipn.
  f_equal; [lia | f_equal; lia].
Qed.

End BytesFacts.

(** ** Accumulation (lines 170-191) *)

Section Accumulation.

Lemma to_mfxU32_small n : n < 2 ^ 32 -> to_mfxU32 n = n.
Proof. intros H. unfold to_mfxU32. apply N.mod_small. exact H. Qed.

Lemma len_chunk img : readable img -> len (chunk img) = size img.
Proof.
  unfold readable, chunk. destruct (data img) as [bytes|]; intros H.
  - unfold len at 1. rewrite length_slice by lia. lia.
  - rewrite H. reflexivity.
Qed.

(** Compaction followed by the copy of the chunk, on a buffer with room
    for both. *)
Lemma compact_append buf bs img :
  readable img ->
  DataOffset bs + DataLength bs <= len buf ->
  DataLength bs + size img <= len buf ->
  exists buf',
    option_map (fun st => append img st) (compact (buf, bs))
    = Some (Some (buf',
                  {| DataOffset := 0;
                     DataLength := to_mfxU32 (DataLength bs + size img);
                     MaxLength := MaxLength bs |}))
    /\ len buf' = len buf
    /\ slice 0 (DataLength bs + size img) buf'
       = slice (DataOffset bs) (DataLength bs) buf ++ chunk img.
Proof.
  intros Hread Hreg Hfit.
  pose proof (len_chunk img Hread) as Hlc.
  set (S := slice (DataOffset bs) (DataLength bs) buf).
  assert (HS : len S = DataLength bs).
  { unfold len, S. rewrite length_slice by lia. lia. }
  set (buf2 := blit 0 S buf).
  assert (Hlen2 : len buf2 = len buf).
  { apply len_blit. lia. }
  assert (Hpre : slice 0 (DataLength bs) buf2 = S).
  { unfold buf2. pose proof (slice_blit 0 S buf) as E.
    rewrite HS in E. cbn [N.add] in E. rewrite E by lia. reflexivity. }
  unfold compact, memmove_front.
  destruct (N.leb_spec (DataOffset bs + DataLength bs) (len buf)); [|lia].
  fold S. fold buf2. cbn [option_map append DataLength DataOffset MaxLength].
  unfold memcpy_at.
  destruct (N.eqb_spec (size img) 0) as [Hz|Hnz].
  - exists buf2. split; [reflexivity|]. split; [exact Hlen2|].
    assert (chunk img = []) as ->.
    { destruct (chunk img); [reflexivity|]. unfold len in Hlc. cbn in Hlc. lia. }
    rewrite Hz, N.add_0_r, app_nil_r. exact Hpre.
  - unfold readable in Hread. unfold chunk in *.
    destruct (data img) as [bytes|]; [|contradiction].
    destruct (N.leb_spec (size img) (len bytes)); [|lia].
    rewrite Hlen2.
    destruct (N.leb_spec (DataLength bs + size img) (len buf)); [|lia].
    cbn [andb].
    exists (blit (DataLength bs) (slice 0 (size img) bytes) buf2).
    split; [reflexivity|]. split.
    + rewrite len_blit; [exact Hlen2|]. rewrite Hlc, Hlen2. exact Hfit.
    + rewrite <- Hlc at 1. rewrite slice_blit by lia.
      rewrite Hpre. reflexivity.
Qed.

End Accumulation.

Section AccumulationOnObject.

(** With the unconsumed bytes inside the buffer and room for the chunk,
    lines 170-191 succeed: the descriptor then starts at offset 0 and
    designates the old unconsumed bytes followed by the chunk. *)
Lemma accumulated_ok d img :
  readable img ->
  bitstream_ok d ->
  chunk_fits (size img) d ->
  DataLength (bitstream_ d) + size img < 2 ^ 32 ->
  exists buf' bs',
    accumulated img d = Some (set_bitstream buf' bs' d)
    /\ DataOffset bs' = 0
    /\ DataLength bs' = DataLength (bitstream_ d) + size img
    /\ slice 0 (DataLength bs') buf' = view d ++ chunk img.
Proof.
  intros Hread [Hreg Hcap] Hfit Hwrap.
  unfold accumulated, grow, view.
  destruct (N.ltb_spec (MaxLength (bitstream_ d))
                       (DataLength (bitstream_ d) + size img)) as [Hg|Hg].
  - set (buf1 := resize (DataLength (bitstream_ d) + size img)
                        (bitstream_buffer_ d)).
    set (bs1 := {| DataOffset := DataOffset (bitstream_ d);
                   DataLength := DataLength (bitstream_ d);
                   MaxLength := to_mfxU32 (DataLength (bitstream_ d)
                                           + len buf1) |}).
    assert (Hl1 : len buf1 = DataLength (bitstream_ d) + size img)
      by apply len_resize.
    destruct (compact_append buf1 bs1 img Hread) as (buf' & E & _ & Hv).
    { cbn [bs1 DataOffset DataLength]. lia. }
    { cbn [bs1 DataLength]. lia. }
    destruct (compact (buf1, bs1)) as [st|]; [|discriminate E].
    cbn [option_map] in E. injection E as E. rewrite E.
    eexists _, _. split; [reflexivity|].
    cbn [fst snd DataOffset DataLength bs1] in *.
    rewrite to_mfxU32_small by exact Hwrap.
    repeat split. rewrite Hv. f_equal.
    unfold buf1. rewrite resize_extends by lia.
    apply slice_app_left. exact Hreg.
  - destruct (compact_append (bitstream_buffer_ d) (bitstream_ d) img Hread)
      as (buf' & E & _ & Hv); [exact Hreg | apply Hfit; exact Hg |].
    destruct (compact (bitstream_buffer_ d, bitstream_ d)) as [st|];
      [|discriminate E].
    cbn [option_map] in E. injection E as E. rewrite E.
    eexists _, _. split; [reflexivity|].
    cbn [fst snd DataOffset DataLength].
    rewrite to_mfxU32_small by exact Hwrap.
    repeat split. exact Hv.
Qed.

(** [accumulate] is [accumulated] on the object of the world; it leaves
    the replies and the log alone. *)
Lemma accumulate_Some img w d' :
  accumulated img (self w) = Some d' ->
  accumulate img w
  = (Returned tt, {| self := d'; replies := replies w; log := log w |}).
Proof.
  unfold accumulated, accumulate, bind, this, update. cbn [self replies log].
  destruct (compact _) as [st|]; [|discriminate].
  destruct (append img st) as [st'|]; [|discriminate].
  intros E. injection E as <-. reflexivity.
Qed.

Lemma accumulate_None img w :
  accumulated img (self w) = None ->
  exists d',
    accumulate img w
    = (Undefined OutOfBounds,
       {| self := d'; replies := replies w; log := log w |})
    /\ surfaces_ d' = surfaces_ (self w).
Proof.
  unfold accumulated, accumulate, bind, this, update, undefined.
  cbn [self replies log].
  destruct (compact _) as [st|].
  - destruct (append img st) as [st'|]; [discriminate|].
    intros _. eexists. split; reflexivity.
  - intros _. eexists. split; reflexivity.
Qed.

Lemma accumulated_fields img d d' :
  accumulated img d = Some d' ->
  surfaces_ d' = surfaces_ d
  /\ width_ d' = width_ d /\ height_ d' = height_ d
  /\ decoder_ d' = decoder_ d
  /\ decode_complete_callback_ d' = decode_complete_callback_ d
  /\ buffer_pool_ d' = buffer_pool_ d
  /\ DataOffset (bitstream_ d') = 0.
Proof.
  unfold accumulated.
  destruct (compact _) as [[buf1 bs1]|] eqn:Ec; [|discriminate].
  destruct (append img (buf1, bs1)) as [st'|] eqn:Ea; [|discriminate].
  intros E. injection E as <-. repeat split.
  unfold compact in Ec. destruct (grow _ _) as [b0 s0].
  destruct (memmove_front _ _ _); [|discriminate].
  injection Ec as <- <-.
  unfold append in Ea. destruct (memcpy_at _ _ _ _); [|discriminate].
  injection Ea as <-. reflexivity.
Qed.

End AccumulationOnObject.

(** ** The path through [Decode] *)

Section DecodePath.

Variable engine : Engine.
Variable msdk_check_fails : mfxStatus -> mfxStatus -> bool.

(** Past the three checks of lines 160-168, [Decode] is [decode_chunk]. *)
Lemma Decode_ready img mf rt w h cb :
  decoder_ (self w) = Some h ->
  decode_complete_callback_ (self w) = Some cb ->
  (data img = None -> size img = 0) ->
  Decode engine msdk_check_fails img mf rt w
  = decode_chunk engine msdk_check_fails cb img w.
Proof.
  intros Hd Hc Hn. unfold Decode, bind, this.
  rewrite Hd, Hc.
  destruct (data img) as [bytes|]; [reflexivity|].
  rewrite (Hn eq_refl). reflexivity.
Qed.

Lemma decode_chunk_accumulated img w cb d1 :
  accumulated img (self w) = Some d1 ->
  decode_chunk engine msdk_check_fails cb img w
  = let w1 := {| self := d1; replies := replies w; log := log w |} in
    match find_if unlocked (surfaces_ d1) with
    | None => (Returned WEBRTC_VIDEO_CODEC_ERROR, w1)
    | Some surface =>
        bind (submit surface)
             (deliver engine msdk_check_fails cb (Timestamp img)) w1
    end.
Proof.
  intros Ha. unfold decode_chunk, bind at 1.
  rewrite (accumulate_Some _ _ _ Ha).
  unfold bind at 1, this. cbn [self].
  destruct (find_if unlocked (surfaces_ d1)); reflexivity.
Qed.

Lemma decode_chunk_out_of_bounds img w cb :
  accumulated img (self w) = None ->
  fst (decode_chunk engine msdk_check_fails cb img w)
  = Undefined OutOfBounds
  /\ log (snd (decode_chunk engine msdk_check_fails cb img w)) = log w.
Proof.
  intros Ha. unfold decode_chunk, bind.
  destruct (accumulate_None _ _ Ha) as (d' & -> & _). split; reflexivity.
Qed.

(** An idle busy answer leaves the object as it is. *)
Lemma engine_effect_idle b d :
  r_consumed b = 0 -> r_relock b = [] ->
  DataOffset (bitstream_ d) < 2 ^ 32 ->
  engine_effect b d = d.
Proof.
  intros Hc Hr Hoff. unfold engine_effect. rewrite Hc, Hr.
  destruct d as [? ? ? ? ? ? ? ? ? ? ? [off n cap]].
  cbn [bitstream_ DataOffset DataLength MaxLength surfaces_ relock
       fold_left] in *.
  rewrite N.min_0_l, N.add_0_r, N.sub_0_r, to_mfxU32_small by exact Hoff.
  reflexivity.
Qed.

(** Along idle busy answers the loop submits the same thing again, sleeps
    one millisecond after each, and stops at the first other answer. *)
Lemma submit_loop_busy pre :
  forall surface r rest d lg,
    Forall busy_idle pre ->
    r_sts r <> MFX_WRN_DEVICE_BUSY ->
    DataOffset (bitstream_ d) < 2 ^ 32 ->
    submit_loop surface (pre ++ r :: rest) d lg
    = (Returned r,
       {| self := engine_effect r d;
          replies := rest;
          log := lg
                 ++ flat_map (fun _ => [submission surface d; EvSleep 1]) pre
                 ++ [submission surface d] |}).
Proof.
  induction pre as [|b pre IH]; intros surface r rest d lg Hpre Hr Hoff.
  - cbn [app submit_loop flat_map].
    destruct (Z.eqb_spec (r_sts r) MFX_WRN_DEVICE_BUSY); [contradiction|].
    reflexivity.
  - inversion Hpre as [|? ? [Hb [Hc Hl]] Hpre']; subst.
    cbn [app submit_loop flat_map]. rewrite Hb, Z.eqb_refl.
    rewrite (engine_effect_idle b d Hc Hl Hoff).
    rewrite IH by assumption.
    rewrite <- !app_assoc. reflexivity.
Qed.

(** After a successful answer that [completes], lines 221-250 return OK
    and log the wait and the delivery, if any. *)
Lemma deliver_completes cb pts r w :
  r_sts r = MFX_ERR_NONE ->
  completes engine msdk_check_fails r ->
  exists d',
    deliver engine msdk_check_fails cb pts r w
    = (Returned WEBRTC_VIDEO_CODEC_OK,
       {| self := d'; replies := replies w;
          log := log w ++ completion_events (self w) cb pts r |})
    /\ bitstream_ d' = bitstream_ (self w)
    /\ bitstream_buffer_ d' = bitstream_buffer_ (self w)
    /\ surfaces_ d' = surfaces_ (self w).
Proof.
  intros Hs Hc. unfold deliver, completion_events.
  rewrite Hs. cbn [Z.eqb MFX_ERR_NONE MFX_ERR_MORE_DATA].
  destruct Hc as [Hn | (syncp & out & Ht & Ho & Hchk & Hsync)].
  - rewrite Hn. exists (self w). unfold ret. rewrite app_nil_r.
    destruct w; repeat split.
  - rewrite Ht, Ho, Hsync.
    unfold MSDK_CHECK_RESULT, bind, emit, this, update, ret.
    rewrite Hchk. cbn [self replies log].
    eexists. split.
    + rewrite <- app_assoc. reflexivity.
    + repeat split.
Qed.

End DecodePath.

(** ** Return values *)

Section ReturnValues.

Variable engine : Engine.
Variable msdk_check_fails : mfxStatus -> mfxStatus -> bool.

Lemma submit_loop_result surface rs :
  forall d lg,
    match fst (submit_loop surface rs d lg) with
    | Returned _ | Starved => True
    | _ => False
    end.
Proof.
  induction rs as [|r rs IH]; intros d lg; cbn [submit_loop].
  - exact I.
  - destruct (r_sts r =? MFX_WRN_DEVICE_BUSY)%Z; [apply IH | exact I].
Qed.

Lemma deliver_returns cb pts r w :
  returns_only [WEBRTC_VIDEO_CODEC_OK]
               (fst (deliver engine msdk_check_fails cb pts r w)).
Proof.
  unfold deliver, MSDK_CHECK_RESULT, bind, emit, update, this, ret, raise,
    undefined.
  destruct (r_sts r =? MFX_ERR_MORE_DATA)%Z; [left; reflexivity|].
  destruct (r_syncp r) as [syncp|]; [|left; reflexivity].
  destruct (msdk_check_fails (r_sts r) MFX_ERR_NONE); [exact I|].
  cbn [fst snd self replies log].
  destruct (msdk_check_fails _ MFX_ERR_NONE); [exact I|].
  destruct (r_out_surface r); [left; reflexivity | exact I].
Qed.

Lemma decode_chunk_returns cb img w :
  returns_only [WEBRTC_VIDEO_CODEC_OK; WEBRTC_VIDEO_CODEC_ERROR]
               (fst (decode_chunk engine msdk_check_fails cb img w)).
Proof.
  unfold decode_chunk, bind at 1.
  destruct (accumulate img w) as [[[]| | |] w1]; try exact I.
  unfold bind at 1, this.
  destruct (find_if unlocked (surfaces_ (self w1))) as [surface|];
    [|right; left; reflexivity].
  unfold bind, submit.
  pose proof (submit_loop_result surface (replies w1) (self w1) (log w1))
    as Hs.
  destruct (submit_loop surface (replies w1) (self w1) (log w1))
    as [[r| | |] w2]; cbn [fst] in Hs; try contradiction; try exact I.
  pose proof (deliver_returns cb (Timestamp img) r w2) as Hd.
  destruct (fst (deliver engine msdk_check_fails cb (Timestamp img) r w2));
    try exact I.
  destruct Hd as [<-|[]]. left; reflexivity.
Qed.

End ReturnValues.

(** ** The contract checks of [Decode] (lines 160-168) *)

(** C9: [Decode] returns WEBRTC_VIDEO_CODEC_UNINITIALIZED at once when
    [decoder_] is null or when no sink is registered, and, past these two
    checks, WEBRTC_VIDEO_CODEC_ERR_PARAMETER at once when the input has a
    null data pointer and a nonzero size.  In both cases the world is
    returned as it was: the object (accumulator, surfaces, session), the
    replies of the engine (none was asked for) and the log (no call was
    made). *)
Theorem Decode_contract_checks :
  forall engine msdk_check_fails input_image missing_frames render_time_ms w,
    (decoder_ (self w) = None \/ decode_complete_callback_ (self w) = None ->
     Decode engine msdk_check_fails input_image missing_frames
            render_time_ms w
     = (Returned WEBRTC_VIDEO_CODEC_UNINITIALIZED, w))
    /\ (decoder_ (self w) <> None ->
        decode_complete_callback_ (self w) <> None ->
        data input_image = None ->
        0 < size input_image ->
        Decode engine msdk_check_fails input_image missing_frames
               render_time_ms w
        = (Returned WEBRTC_VIDEO_CODEC_ERR_PARAMETER, w)).
Proof.
  intros engine chk img mf rt w. unfold Decode, bind, this, ret. split.
  - intros [Hd | Hc].
    + rewrite Hd. reflexivity.
    + rewrite Hc. destruct (decoder_ (self w)); reflexivity.
  - intros Hd Hc Hn Hs.
    destruct (decoder_ (self w)); [|contradiction].
    destruct (decode_complete_callback_ (self w)); [|contradiction].
    rewrite Hn. destruct (N.ltb_spec 0 (size img)) as [_|Hle].
    + reflexivity.
    + lia.
Qed.

Lemma Decode_contract_checks_witness :
  run (Decode Sample.engine Sample.check_fails Sample.abc false 0)
      Sample.created []
  = (Returned WEBRTC_VIDEO_CODEC_UNINITIALIZED,
     {| self := Sample.created; replies := []; log := [] |})
  /\ run (Decode Sample.engine Sample.check_fails Sample.null_sized false 0)
         Sample.configured [Sample.success]
     = (Returned WEBRTC_VIDEO_CODEC_ERR_PARAMETER,
        {| self := Sample.configured; replies := [Sample.success];
           log := [] |}).
Proof.
  split.
  - apply (Decode_contract_checks Sample.engine Sample.check_fails Sample.abc
             false 0 {| self := Sample.created; replies := []; log := [] |}).
    left. reflexivity.
  - apply (Decode_contract_checks Sample.engine Sample.check_fails
             Sample.null_sized false 0
             {| self := Sample.configured; replies := [Sample.success];
                log := [] |}).
    + vm_compute. discriminate.
    + vm_compute. discriminate.
    + reflexivity.
    + reflexivity.
Defined.

(** ** [Release] (lines 259-263 and 321-326) *)

(** C7: [Release] returns WEBRTC_VIDEO_CODEC_OK from every state, and a
    second [Release] right after it returns WEBRTC_VIDEO_CODEC_OK again,
    makes no further call to the engine and leaves the world exactly as
    the first one left it: [decoder_] reset to null, the buffer pool
    empty. *)
Theorem Release_idempotent :
  forall w,
    exists w1,
      Release w = (Returned WEBRTC_VIDEO_CODEC_OK, w1)
      /\ Release w1 = (Returned WEBRTC_VIDEO_CODEC_OK, w1)
      /\ decoder_ (self w1) = None
      /\ buffer_pool_ (self w1) = []
      /\ replies w1 = replies w
      /\ log w1 = log w ++ match decoder_ (self w) with
                           | Some _ => [EvClose]
                           | None => []
                           end.
Proof.
  intros w.
  unfold Release, ReleaseMediaSDK, bind, this, emit, update, ret.
  destruct (decoder_ (self w)) as [h|] eqn:Hd; cbn [self replies log].
  - eexists. split; [reflexivity|]. cbn [self replies log decoder_
      buffer_pool_ set_buffer_pool_ set_decoder_].
    repeat split.
  - eexists. split; [reflexivity|]. cbn [self replies log decoder_
      buffer_pool_ set_buffer_pool_ set_decoder_].
    rewrite app_nil_r. repeat split.
Qed.

(** ** The capability probe (lines 332-345 and 82-147) *)

(** C8: [IsSupported] never calls [Init]: with [init == false],
    [CreateDecoder] stops after [Query].  For a codec whose parameter block
    the engine rejects at [Query] (a negative status) it returns false,
    having made that one call when a session is given and none otherwise.
    Being static it has no decoder object: called from any world, it
    leaves the object and the pending replies as they are. *)
Theorem IsSupported_probe_only :
  forall engine ToMfxCodec session codec,
    existsb is_Init (snd (IsSupported engine ToMfxCodec session codec)) = false
    /\ ((fst (Query engine (decoder_param (ToMfxCodec codec) 640 480)) < 0)%Z ->
        IsSupported engine ToMfxCodec session codec
        = (false,
           match session with
           | Some _ => [EvQuery (decoder_param (ToMfxCodec codec) 640 480)]
           | None => []
           end)
        /\ forall w,
             static (IsSupported engine ToMfxCodec session codec) w
             = (Returned false,
                {| self := self w;
                   replies := replies w;
                   log := log w
                          ++ snd (IsSupported engine ToMfxCodec
                                              session codec) |})).
Proof.
  intros engine ToMfx session codec.
  unfold IsSupported, CreateDecoder.
  destruct session as [s|].
  - destruct (Query engine (decoder_param (ToMfx codec) 640 480))
      as [sts param'] eqn:Eq.
    cbn [fst]. split.
    + destruct (sts <? 0)%Z; reflexivity.
    + intros Hneg. destruct (Z.ltb_spec sts 0); [|lia].
      split; [reflexivity|]. intros w. reflexivity.
  - split; [reflexivity|]. intros _. split; [reflexivity|].
    intros w. reflexivity.
Qed.

Lemma IsSupported_probe_only_witness :
  existsb is_Init
    (snd (IsSupported Sample.rejecting Sample.ToMfxCodec (Some 0)
                      kVideoCodecVP9)) = false
  /\ IsSupported Sample.rejecting Sample.ToMfxCodec (Some 0) kVideoCodecVP9
     = (false, [EvQuery (decoder_param MFX_CODEC_VP9 640 480)])
  /\ static (IsSupported Sample.rejecting Sample.ToMfxCodec (Some 0)
                         kVideoCodecVP9)
            {| self := Sample.configured; replies := [Sample.success];
               log := [] |}
     = (Returned false,
        {| self := Sample.configured; replies := [Sample.success];
           log := [EvQuery (decoder_param MFX_CODEC_VP9 640 480)] |}).
Proof.
  destruct (IsSupported_probe_only Sample.rejecting Sample.ToMfxCodec
              (Some 0) kVideoCodecVP9) as [Hinit Hrej].
  destruct Hrej as [Hret Hframe]; [reflexivity|].
  split; [exact Hinit|]. split; [exact Hret|].
  exact (Hframe {| self := Sample.configured; replies := [Sample.success];
                   log := [] |}).
Defined.

(** ** The scan for a free surface (lines 194-200) *)

Section Scan.

Context {A : Type} (p : A -> bool).


Lemma find_if_None l :
  Forall (fun x => p x = false) l -> find_if p l = None.
Proof.
  induction 1 as [|a l Ha _ IH]; cbn [find_if].
  - reflexivity.
  - rewrite Ha, IH. reflexivity.
Qed.

(** Conversely, the first position that satisfies the predicate is what
    the scan returns. *)
Lemma find_if_first l :
  forall i x,
    nth_error l i = Some x -> p x = true ->
    (forall k y, (k < i)%nat -> nth_error l k = Some y -> p y = false) ->
    find_if p l = Some i.
Proof.
  induction l as [|a l IH]; intros [|i] x Hx Hp Hlt; cbn [nth_error] in Hx;
    try discriminate.
  - injection Hx as ->. cbn [find_if]. rewrite Hp. reflexivity.
  - cbn [find_if]. rewrite (Hlt O a) by (lia || reflexivity).
    rewrite (IH i x Hx Hp); [reflexivity|].
    intros k y Hk Hy. apply (Hlt (S k) y); [lia | exact Hy].
Qed.

End Scan.

(** The scan of lines 194-196 returns the first unlocked surface, and what
    it returns is the first unlocked surface. *)
Lemma first_unlocked_find_if ss i s0 :
  first_unlocked ss i s0 -> find_if unlocked ss = Some i.
Proof.
  intros (Hn & Hl & Hlt). apply (find_if_first unlocked ss i s0 Hn).
  - unfold unlocked. apply N.eqb_eq. exact Hl.
  - intros k y Hk Hy. unfold unlocked. apply N.eqb_neq. exact (Hlt k y Hk Hy).
Qed.


Section Relock.



End Relock.

(** ** What [Decode] submits *)

Section Submissions.

Variable engine : Engine.
Variable msdk_check_fails : mfxStatus -> mfxStatus -> bool.

(** The loop logs submissions of the surface it was given, and sleeps. *)
Lemma submit_loop_log surface rs :
  forall d lg e,
    In e (log (snd (submit_loop surface rs d lg))) ->
    In e lg \/ e = EvSleep 1
    \/ exists bs v s, e = EvDecodeFrameAsync bs v surface s.
Proof.
  induction rs as [|r rs IH]; intros d lg e; cbn [submit_loop].
  - cbn [snd log]. tauto.
  - destruct (r_sts r =? MFX_WRN_DEVICE_BUSY)%Z.
    + intros H. apply IH in H. destruct H as [H | H]; [|tauto].
      apply in_app_or in H. destruct H as [H | [<- | [<- | []]]].
      * tauto.
      * right. right. eauto.
      * tauto.
    + cbn [snd log]. intros H. apply in_app_or in H.
      destruct H as [H | [<- | []]]; [tauto|].
      right. right. eauto.
Qed.


(** The loop only adds to the log, and what it adds starts with the
    submission of the surface on the object as it stands. *)
Lemma submit_loop_log_app surface rs :
  forall d lg,
    exists evs,
      log (snd (submit_loop surface rs d lg)) = lg ++ evs
      /\ match rs with
         | [] => evs = []
         | _ :: _ => exists tl, evs = submission surface d :: tl
         end.
Proof.
  induction rs as [|r rs IH]; intros d lg; cbn [submit_loop].
  - exists []. cbn [snd log]. rewrite app_nil_r. split; reflexivity.
  - destruct (r_sts r =? MFX_WRN_DEVICE_BUSY)%Z.
    + destruct (IH (engine_effect r d)
                   (lg ++ [submission surface d; EvSleep 1]))
        as (evs & E & _).
      unfold submission in E at 1. rewrite E.
      exists ([submission surface d; EvSleep 1] ++ evs).
      rewrite app_assoc. split; [reflexivity|].
      cbn [app]. eauto.
    + exists [submission surface d]. cbn [snd log]. split; [reflexivity|].
      eauto.
Qed.

(** Lines 221-250 only add to the log, and add no submission. *)
Lemma deliver_log_app cb pts r w :
  exists evs,
    log (snd (deliver engine msdk_check_fails cb pts r w)) = log w ++ evs
    /\ Forall (fun e => is_submission e = false) evs.
Proof.
  unfold deliver, MSDK_CHECK_RESULT, bind, emit, update, this, ret, raise,
    undefined.
  destruct (r_sts r =? MFX_ERR_MORE_DATA)%Z;
    [exists []; rewrite app_nil_r; split; [reflexivity | constructor]|].
  destruct (r_syncp r) as [syncp|];
    [|exists []; rewrite app_nil_r; split; [reflexivity | constructor]].
  destruct (msdk_check_fails (r_sts r) MFX_ERR_NONE);
    [exists []; rewrite app_nil_r; split; [reflexivity | constructor]|].
  cbn [fst snd self replies log].
  destruct (msdk_check_fails _ MFX_ERR_NONE);
    cbn [fst snd self replies log].
  - eexists. split; [reflexivity|]. repeat constructor.
  - destruct (r_out_surface r); cbn [fst snd self replies log].
    + eexists. rewrite <- app_assoc. split; [reflexivity|].
      repeat constructor.
    + eexists. split; [reflexivity|]. repeat constructor.
Qed.

(** The log of the loop followed by lines 221-250. *)
Lemma submit_deliver_log cb pts surface w :
  exists evs,
    log (snd (bind (submit surface)
                   (deliver engine msdk_check_fails cb pts) w))
    = log (snd (submit_loop surface (replies w) (self w) (log w))) ++ evs
    /\ Forall (fun e => is_submission e = false) evs.
Proof.
  unfold bind, submit.
  destruct (submit_loop surface (replies w) (self w) (log w))
    as [[r| | |] w2]; cbn [snd];
    try (exists []; rewrite app_nil_r; split; [reflexivity | constructor]).
  apply deliver_log_app.
Qed.


End Submissions.

(** ** The busy-retry loop (lines 210-218) *)

(** C5: when the engine answers MFX_WRN_DEVICE_BUSY to the first N
    submissions of a call (taking nothing each time) and MFX_ERR_NONE to
    the next one, [Decode] makes N + 1 submissions, each of the same
    bitstream descriptor, bytes and surface, asks for a sleep of one
    millisecond after each busy answer, and returns
    WEBRTC_VIDEO_CODEC_OK: the busy status never reaches the caller.  N
    is the length of [pre]; what follows the last submission in the log is
    the wait and the delivery, if the answer carries a completion token. *)
Theorem Decode_retries_while_busy :
  forall engine msdk_check_fails input_image missing_frames render_time_ms
         d h cb d1 surface pre r rest,
    decoder_ d = Some h ->
    decode_complete_callback_ d = Some cb ->
    (data input_image = None -> size input_image = 0) ->
    accumulated input_image d = Some d1 ->
    find_if unlocked (surfaces_ d1) = Some surface ->
    Forall busy_idle pre ->
    r_sts r = MFX_ERR_NONE ->
    completes engine msdk_check_fails r ->
    exists d',
      run (Decode engine msdk_check_fails input_image missing_frames
                  render_time_ms) d (pre ++ r :: rest)
      = (Returned WEBRTC_VIDEO_CODEC_OK,
         {| self := d';
            replies := rest;
            log := flat_map (fun _ => [submission surface d1; EvSleep 1]) pre
                   ++ submission surface d1
                   :: completion_events d1 cb (Timestamp input_image) r |}).
Proof.
  intros engine chk img mf rt d h cb d1 surface pre r rest
         Hd Hc Hn Ha Hf Hpre Hr Hcomp.
  unfold run.
  set (w := {| self := d; replies := pre ++ r :: rest; log := [] |}).
  rewrite (Decode_ready engine chk img mf rt w h cb Hd Hc Hn).
  rewrite (decode_chunk_accumulated engine chk img w cb d1 Ha).
  cbv zeta. rewrite Hf. subst w. unfold bind, submit. cbn [self replies log].
  destruct (accumulated_fields _ _ _ Ha) as (_ & _ & _ & _ & _ & _ & Hoff).
  rewrite submit_loop_busy.
  - destruct (deliver_completes engine chk cb (Timestamp img) r
                {| self := engine_effect r d1; replies := rest;
                   log := [] ++ flat_map
                            (fun _ => [submission surface d1; EvSleep 1]) pre
                          ++ [submission surface d1] |} Hr Hcomp)
      as (d' & E & _).
    exists d'. rewrite E. cbn [self replies log app].
    rewrite <- app_assoc. reflexivity.
  - exact Hpre.
  - rewrite Hr. discriminate.
  - rewrite Hoff. reflexivity.
Qed.

Lemma Decode_retries_while_busy_witness :
  exists d',
    run (Decode Sample.engine Sample.check_fails Sample.abc false 0)
        Sample.configured
        (repeat Sample.busy 5 ++ Sample.success :: [Sample.more_data 0])
    = (Returned WEBRTC_VIDEO_CODEC_OK,
       {| self := d';
          replies := [Sample.more_data 0];
          log := flat_map
                   (fun _ => [submission 0 Sample.fed; EvSleep 1])
                   (repeat Sample.busy 5)
                 ++ submission 0 Sample.fed
                 :: completion_events Sample.fed 1 (Timestamp Sample.abc)
                      Sample.success |}).
Proof.
  apply (Decode_retries_while_busy Sample.engine Sample.check_fails
           Sample.abc false 0 Sample.configured
           {| dec_param := decoder_param MFX_CODEC_VP8 640 480;
              dec_initialized := true |}
           1 Sample.fed O (repeat Sample.busy 5) Sample.success
           [Sample.more_data 0]).
  - vm_compute. reflexivity.
  - vm_compute. reflexivity.
  - discriminate.
  - apply option_is_Some. vm_compute. reflexivity.
  - vm_compute. reflexivity.
  - repeat constructor.
  - reflexivity.
  - right. exists 42, O. repeat split.
Defined.

(** ** The surface given to the engine (lines 194-212) *)





(** ** A null input of size zero (lines 166-191) *)

(** The [memmove] of lines 186-188 keeps the bytes that the descriptor
    designates. *)
Lemma view_compacted d :
  DataOffset (bitstream_ d) + DataLength (bitstream_ d)
    <= len (bitstream_buffer_ d) ->
  view (compacted d) = view d.
Proof.
  intros Hreg. unfold compacted, view at 1.
  cbn [bitstream_ bitstream_buffer_ set_bitstream DataOffset DataLength].
  assert (HS : len (view d) = DataLength (bitstream_ d)).
  { unfold len, view. rewrite length_slice by lia. lia. }
  pose proof (slice_blit 0 (view d) (bitstream_buffer_ d)) as E.
  rewrite HS in E. cbn [N.add] in E. rewrite E by lia. reflexivity.
Qed.

(** An input of size zero, whatever its data pointer, takes lines 170-191
    without growth and without copying anything from the input: what is
    left is the compaction. *)
Lemma accumulated_size_zero img d :
  size img = 0 ->
  bitstream_ok d ->
  len (bitstream_buffer_ d) < 2 ^ 32 ->
  accumulated img d = Some (compacted d).
Proof.
  intros Hz [Hreg Hcap] Hlen. unfold accumulated, grow, compacted.
  rewrite Hz, N.add_0_r.
  destruct (N.ltb_spec (MaxLength (bitstream_ d)) (DataLength (bitstream_ d)));
    [lia|].
  unfold compact, memmove_front.
  destruct (N.leb_spec (DataOffset (bitstream_ d) + DataLength (bitstream_ d))
                       (len (bitstream_buffer_ d))); [|lia].
  unfold append, memcpy_at. rewrite Hz. cbn [N.eqb DataLength].
  cbn [fst snd DataOffset DataLength MaxLength].
  rewrite N.add_0_r, to_mfxU32_small by lia. reflexivity.
Qed.

(** The unconsumed bytes stay inside the buffer, and the buffer inside the
    recorded capacity, over every run of lines 170-191 that does not leave
    the buffer. *)
Lemma bitstream_ok_accumulated img d d1 :
  accumulated img d = Some d1 ->
  bitstream_ok d ->
  2 * DataLength (bitstream_ d) + size img < 2 ^ 32 ->
  bitstream_ok d1.
Proof.
  intros Ha [Hreg Hcap] Hwrap. unfold accumulated in Ha.
  destruct (grow (size img) (bitstream_buffer_ d, bitstream_ d))
    as [buf1 bs1] eqn:Eg.
  assert (Hg : DataLength bs1 = DataLength (bitstream_ d)
               /\ len buf1 <= MaxLength bs1
               /\ (DataLength (bitstream_ d) + size img <= len buf1
                   \/ DataLength (bitstream_ d) + size img
                      <= MaxLength bs1)).
  { unfold grow in Eg.
    destruct (N.ltb_spec (MaxLength (bitstream_ d))
                         (DataLength (bitstream_ d) + size img)).
    - injection Eg as <- <-. cbn [DataLength MaxLength].
      rewrite len_resize, to_mfxU32_small by lia. lia.
    - injection Eg as <- <-. lia. }
  destruct Hg as (HL & Hc1 & _).
  unfold compact, memmove_front in Ha.
  destruct (N.leb_spec (DataOffset bs1 + DataLength bs1) (len buf1))
    as [Hr1|]; [|discriminate].
  unfold append, memcpy_at in Ha. cbn [DataLength DataOffset MaxLength] in Ha.
  assert (Hl2 : len (blit 0 (slice (DataOffset bs1) (DataLength bs1) buf1)
                          buf1) = len buf1).
  { apply len_blit. unfold len at 1. rewrite length_slice by lia. lia. }
  destruct (N.eqb_spec (size img) 0) as [Hz|Hnz].
  - injection Ha as <-. unfold bitstream_ok.
    cbn [fst snd bitstream_ bitstream_buffer_ set_bitstream DataOffset
         DataLength MaxLength].
    rewrite Hl2, to_mfxU32_small by lia. lia.
  - destruct (data img) as [bytes|]; [|discriminate].
    rewrite Hl2 in Ha.
    destruct (N.leb_spec (size img) (len bytes)) as [Hb|];
      [|discriminate].
    destruct (N.leb_spec (DataLength bs1 + size img) (len buf1)) as [Hf|];
      [|discriminate].
    cbn [andb] in Ha. injection Ha as <-. unfold bitstream_ok.
    cbn [fst snd bitstream_ bitstream_buffer_ set_bitstream DataOffset
         DataLength MaxLength].
    rewrite len_blit.
    + rewrite Hl2, to_mfxU32_small by lia. lia.
    + rewrite Hl2. unfold len at 1. rewrite length_slice by lia. lia.
Qed.

(** C10: on a decoder that is initialized and has a sink, an input with a
    null data pointer and size zero is not answered with
    WEBRTC_VIDEO_CODEC_ERR_PARAMETER: the check of line 166 lets it
    through and the call takes lines 170-250.  With the unconsumed bytes
    inside the buffer, nothing is appended and the unconsumed bytes are
    moved to the front.  When the pool has an unlocked surface and the
    engine answers, the first thing the call does to the engine is to
    submit these bytes (descriptor at offset 0, length and capacity
    unchanged) on the first unlocked surface; when the answer is
    MFX_ERR_MORE_DATA or leaves no completion token, the call returns
    WEBRTC_VIDEO_CODEC_OK with this one submission in its log.  When every
    surface is locked the call returns WEBRTC_VIDEO_CODEC_ERROR after the
    compaction, as for any chunk.  Result, object, replies and log are
    those of an empty chunk behind a non-null pointer.  The [memcpy] of
    line 189 gets a null source with size zero here; as [memcpy_at] has
    it, a copy of zero bytes touches nothing. *)
Theorem Decode_null_empty_input :
  forall engine msdk_check_fails timestamp missing_frames render_time_ms
         d h cb rs,
    let null_empty := {| data := None; size := 0; Timestamp := timestamp |} in
    let empty := {| data := Some []; size := 0; Timestamp := timestamp |} in
    decoder_ d = Some h ->
    decode_complete_callback_ d = Some cb ->
    bitstream_ok d ->
    len (bitstream_buffer_ d) < 2 ^ 32 ->
    (forall surface s0 r rest,
        first_unlocked (surfaces_ d) surface s0 ->
        rs = r :: rest ->
        (exists tail,
            log (snd (run (Decode engine msdk_check_fails null_empty
                                  missing_frames render_time_ms) d rs))
            = EvDecodeFrameAsync
                {| DataOffset := 0;
                   DataLength := DataLength (bitstream_ d);
                   MaxLength := MaxLength (bitstream_ d) |}
                (view d) surface (Some s0)
              :: tail)
        /\ (r_sts r <> MFX_WRN_DEVICE_BUSY ->
            r_sts r = MFX_ERR_MORE_DATA \/ r_syncp r = None ->
            run (Decode engine msdk_check_fails null_empty missing_frames
                        render_time_ms) d rs
            = (Returned WEBRTC_VIDEO_CODEC_OK,
               {| self := engine_effect r (compacted d); replies := rest;
                  log := [submission surface (compacted d)] |})))
    /\ (Forall (fun s => Locked s <> 0) (surfaces_ d) ->
        run (Decode engine msdk_check_fails null_empty missing_frames
                    render_time_ms) d rs
        = (Returned WEBRTC_VIDEO_CODEC_ERROR,
           {| self := compacted d; replies := rs; log := [] |}))
    /\ run (Decode engine msdk_check_fails null_empty missing_frames
                   render_time_ms) d rs
       = run (Decode engine msdk_check_fails empty missing_frames
                     render_time_ms) d rs
    /\ returns_only [WEBRTC_VIDEO_CODEC_OK; WEBRTC_VIDEO_CODEC_ERROR]
         (fst (run (Decode engine msdk_check_fails null_empty missing_frames
                           render_time_ms) d rs)).
Proof.
  intros engine chk ts mf rt d h cb rs null_empty empty Hd Hc Hok Hlen.
  assert (Ha : accumulated null_empty d = Some (compacted d))
    by (apply accumulated_size_zero; [reflexivity | exact Hok | exact Hlen]).
  assert (Ha' : accumulated empty d = Some (compacted d))
    by (apply accumulated_size_zero; [reflexivity | exact Hok | exact Hlen]).
  assert (Hv : view (compacted d) = view d)
    by (apply view_compacted; apply Hok).
  unfold run.
  set (w := {| self := d; replies := rs; log := [] |}).
  set (w1 := {| self := compacted d; replies := rs; log := [] |}).
  assert (E : Decode engine chk null_empty mf rt w
              = match find_if unlocked (surfaces_ d) with
                | None => (Returned WEBRTC_VIDEO_CODEC_ERROR, w1)
                | Some surface =>
                    bind (submit surface) (deliver engine chk cb ts) w1
                end).
  { rewrite (Decode_ready engine chk null_empty mf rt w h cb Hd Hc)
      by reflexivity.
    rewrite (decode_chunk_accumulated engine chk null_empty w cb _ Ha).
    reflexivity. }
  assert (E' : Decode engine chk empty mf rt w
               = Decode engine chk null_empty mf rt w).
  { rewrite E.
    rewrite (Decode_ready engine chk empty mf rt w h cb Hd Hc)
      by discriminate.
    rewrite (decode_chunk_accumulated engine chk empty w cb _ Ha').
    reflexivity. }
  split; [|split; [|split]].
  - intros surface s0 r rest Hfirst Hrs.
    rewrite E, (first_unlocked_find_if _ _ _ Hfirst). split.
    + destruct (submit_deliver_log engine chk cb ts surface w1)
        as (evs & -> & _).
      cbn [self replies log w1]. rewrite Hrs.
      destruct (submit_loop_log_app surface (r :: rest) (compacted d) [])
        as (sub & -> & tl & ->).
      cbn [app]. unfold submission. rewrite Hv.
      destruct Hfirst as (Hn & _).
      cbn [compacted surfaces_ bitstream_ set_bitstream]. rewrite Hn.
      eexists. reflexivity.
    + intros Hb Hr. unfold bind, submit.
      cbn [self replies log w1]. rewrite Hrs. cbn [submit_loop].
      destruct (Z.eqb_spec (r_sts r) MFX_WRN_DEVICE_BUSY); [contradiction|].
      unfold deliver, ret. cbn [app].
      destruct Hr as [Hr | Hr].
      * rewrite Hr. reflexivity.
      * rewrite Hr. destruct (r_sts r =? MFX_ERR_MORE_DATA)%Z; reflexivity.
  - intros Hall. rewrite E.
    rewrite (find_if_None unlocked (surfaces_ d)); [reflexivity|].
    eapply Forall_impl; [|exact Hall]. intros s Hs.
    unfold unlocked. apply N.eqb_neq. exact Hs.
  - rewrite E'. reflexivity.
  - rewrite (Decode_ready engine chk null_empty mf rt w h cb Hd Hc)
      by reflexivity.
    apply decode_chunk_returns.
Qed.

Lemma Decode_null_empty_input_witness :
  let d := engine_effect (Sample.more_data 1) Sample.fed in
  let null_empty := {| data := None; size := 0; Timestamp := 7 |} in
  (exists tail,
      log (snd (run (Decode Sample.engine Sample.check_fails null_empty
                            false 0) d [Sample.more_data 0]))
      = EvDecodeFrameAsync
          {| DataOffset := 0; DataLength := 2; MaxLength := 1048576 |}
          [Byte.x62; Byte.x63] 0 (Some Sample.surface0)
        :: tail)
  /\ fst (run (Decode Sample.engine Sample.check_fails null_empty false 0)
              d [Sample.more_data 0])
     = Returned WEBRTC_VIDEO_CODEC_OK.
Proof.
  intros d null_empty.
  destruct (Decode_null_empty_input Sample.engine Sample.check_fails 7
              false 0 d
              {| dec_param := decoder_param MFX_CODEC_VP8 640 480;
                 dec_initialized := true |}
              1 [Sample.more_data 0])
    as (Hsub & _).
  - vm_compute. reflexivity.
  - vm_compute. reflexivity.
  - split; vm_compute; discriminate.
  - vm_compute. reflexivity.
  - destruct (Hsub O Sample.surface0 (Sample.more_data 0) [])
      as ((tail & E) & H).
    + split; [vm_compute; reflexivity|]. split; [reflexivity|].
      intros k sk Hk. lia.
    + reflexivity.
    + split.
      * exists tail. fold d in E. fold null_empty in E. rewrite E.
        apply (f_equal (fun e => e :: tail)).
        vm_compute. reflexivity.
      * fold d in H. fold null_empty in H.
        rewrite H; [reflexivity | discriminate | left; reflexivity].
Defined.

(** ** What the engine is shown (lines 186-191 and 211) *)

(** The engine's consumption keeps the unconsumed bytes inside the buffer
    and leaves the tail of the window. *)
Lemma engine_effect_view r0 d0 :
  bitstream_ok d0 ->
  len (bitstream_buffer_ d0) < 2 ^ 32 ->
  let c := N.min (r_consumed r0) (DataLength (bitstream_ d0)) in
  bitstream_ok (engine_effect r0 d0)
  /\ DataLength (bitstream_ (engine_effect r0 d0))
     = DataLength (bitstream_ d0) - c
  /\ view (engine_effect r0 d0) = skipn (N.to_nat c) (view d0).
Proof.
  intros [Hreg Hcap] Hlen c.
  unfold bitstream_ok, view, engine_effect.
  cbn [bitstream_ bitstream_buffer_ DataOffset DataLength MaxLength].
  fold c. assert (Hc : c <= DataLength (bitstream_ d0)) by (unfold c; lia).
  rewrite to_mfxU32_small by lia.
  repeat split; try lia.
  apply slice_advance. exact Hc.
Qed.

(** Where the chunk has room in the buffer: let the engine have consumed
    [c] bytes of the window it was shown during the previous call, fewer
    than or as many as it held.  Then the first thing the next [Decode]
    call logs is a submission whose descriptor has [DataOffset] 0 and
    whose bytes are the window without its first [c] bytes (the bytes not
    yet consumed, starting at the first of them) followed by the bytes of
    the new chunk, in this order.  This holds when the unconsumed bytes
    lie inside the buffer and the chunk has room in it (see [bitstream_ok]
    and [chunk_fits]), the sizes staying below 2^32.  The code does not
    keep [chunk_fits] once the buffer has grown with bytes held: see
    [accumulated_overrun] below. *)
Lemma Decode_submits_unconsumed_then_chunk :
  forall engine msdk_check_fails input_image missing_frames render_time_ms
         d0 r0 h cb surface r rs,
    let d := engine_effect r0 d0 in
    let c := N.min (r_consumed r0) (DataLength (bitstream_ d0)) in
    bitstream_ok d0 ->
    len (bitstream_buffer_ d0) < 2 ^ 32 ->
    readable input_image ->
    chunk_fits (size input_image) d ->
    DataLength (bitstream_ d) + size input_image < 2 ^ 32 ->
    decoder_ d0 = Some h ->
    decode_complete_callback_ d0 = Some cb ->
    find_if unlocked (surfaces_ d) = Some surface ->
    exists bs s tail,
      log (snd (run (Decode engine msdk_check_fails input_image
                            missing_frames render_time_ms) d (r :: rs)))
      = EvDecodeFrameAsync bs
          (skipn (N.to_nat c) (view d0) ++ chunk input_image) surface s
        :: tail
      /\ DataOffset bs = 0
      /\ DataLength bs
         = DataLength (bitstream_ d0) - c + size input_image.
Proof.
  intros engine chk img mf rt d0 r0 h cb surface r rs d c
         Hok Hlen Hread Hfit Hwrap Hd Hc Hf.
  destruct (engine_effect_view r0 d0 Hok Hlen) as (Hok' & HL & Hview).
  fold d in Hok', HL, Hview. fold c in HL, Hview.
  destruct (accumulated_ok d img Hread Hok' Hfit Hwrap)
    as (buf' & bs' & Ha & Hoff & Hlen' & Hslice).
  assert (Hn : data img = None -> size img = 0).
  { intros E. unfold readable in Hread. rewrite E in Hread. exact Hread. }
  unfold run.
  set (w := {| self := d; replies := r :: rs; log := [] |}).
  rewrite (Decode_ready engine chk img mf rt w h cb Hd Hc Hn).
  rewrite (decode_chunk_accumulated engine chk img w cb _ Ha).
  cbv zeta. cbn [surfaces_ set_bitstream]. rewrite Hf.
  destruct (submit_deliver_log engine chk cb (Timestamp img) surface
              {| self := set_bitstream buf' bs' d; replies := replies w;
                 log := log w |}) as (evs & -> & _).
  cbn [self replies log w].
  destruct (submit_loop_log_app surface (r :: rs) (set_bitstream buf' bs' d)
              []) as (sub & -> & tl & ->).
  cbn [app]. unfold submission, view.
  cbn [bitstream_ bitstream_buffer_ set_bitstream].
  eexists _, _, _. split; [|split].
  - rewrite Hoff, Hslice, Hview. reflexivity.
  - exact Hoff.
  - rewrite Hlen', HL. reflexivity.
Qed.

Lemma Decode_submits_unconsumed_then_chunk_witness :
  exists bs s tail,
    log (snd (run (Decode Sample.engine Sample.check_fails Sample.de false 0)
                  (engine_effect (Sample.more_data 1) Sample.fed)
                  [Sample.success]))
    = EvDecodeFrameAsync bs [Byte.x62; Byte.x63; Byte.x64; Byte.x65] 0 s
      :: tail
    /\ DataOffset bs = 0
    /\ DataLength bs = 4.
Proof.
  destruct (Decode_submits_unconsumed_then_chunk
              Sample.engine Sample.check_fails Sample.de false 0
              Sample.fed (Sample.more_data 1)
              {| dec_param := decoder_param MFX_CODEC_VP8 640 480;
                 dec_initialized := true |}
              1 O Sample.success [])
    as (bs & s & tail & E & Hoff & Hlen).
  - split; vm_compute; discriminate.
  - vm_compute. reflexivity.
  - vm_compute. discriminate.
  - intros _. vm_compute. discriminate.
  - vm_compute. reflexivity.
  - vm_compute. reflexivity.
  - vm_compute. reflexivity.
  - vm_compute. reflexivity.
  - exists bs, s, tail. split; [|split].
    + rewrite E.
      apply (f_equal (fun v => EvDecodeFrameAsync bs v 0 s :: tail)).
      vm_compute. reflexivity.
    + exact Hoff.
    + rewrite Hlen. vm_compute. reflexivity.
Defined.

(** A chunk that the recorded capacity accepts without growth and that
    the buffer has no room for: the copy of line 189 leaves the buffer. *)
Lemma accumulated_overrun img d :
  0 < size img ->
  DataLength (bitstream_ d) + size img <= MaxLength (bitstream_ d) ->
  len (bitstream_buffer_ d) < DataLength (bitstream_ d) + size img ->
  accumulated img d = None.
Proof.
  intros Hn Hcap Hover. unfold accumulated, grow.
  destruct (N.ltb_spec (MaxLength (bitstream_ d))
                       (DataLength (bitstream_ d) + size img)); [lia|].
  unfold compact, memmove_front.
  destruct (N.leb_spec (DataOffset (bitstream_ d) + DataLength (bitstream_ d))
                       (len (bitstream_buffer_ d))) as [Hreg|]; [|reflexivity].
  unfold append, memcpy_at. cbn [DataLength].
  destruct (N.eqb_spec (size img) 0); [lia|].
  destruct (data img) as [bytes|]; [|reflexivity].
  rewrite len_blit.
  - destruct (N.leb_spec (DataLength (bitstream_ d) + size img)
                         (len (bitstream_buffer_ d))); [lia|].
    rewrite andb_false_r. reflexivity.
  - unfold len at 1. rewrite length_slice by lia. lia.
Qed.

(** [Decode] is then undefined before it reaches the loop: nothing is
    submitted. *)
Lemma Decode_overrun engine chk img mf rt w h cb :
  decoder_ (self w) = Some h ->
  decode_complete_callback_ (self w) = Some cb ->
  (data img = None -> size img = 0) ->
  0 < size img ->
  DataLength (bitstream_ (self w)) + size img
    <= MaxLength (bitstream_ (self w)) ->
  len (bitstream_buffer_ (self w))
    < DataLength (bitstream_ (self w)) + size img ->
  fst (Decode engine chk img mf rt w) = Undefined OutOfBounds
  /\ log (snd (Decode engine chk img mf rt w)) = log w.
Proof.
  intros Hd Hc Hnull Hn Hcap Hover.
  rewrite (Decode_ready engine chk img mf rt w h cb Hd Hc Hnull).
  apply decode_chunk_out_of_bounds.
  apply accumulated_overrun; assumption.
Qed.

(** C3, at a failing input: on a configured decoder, a chunk of 2 bytes of
    which the engine consumes 1, then a chunk of 1 MiB of which it
    consumes 5, the engine asking for more data both times.  Both calls
    return WEBRTC_VIDEO_CODEC_OK after one submission each.  1048572
    unconsumed bytes are left at offset 5 of a buffer of 1048577 bytes
    whose recorded capacity is 1048578 (line 172); a reply of the engine is
    waiting and surface 0 is free.  A third chunk of 6 bytes passes the
    test of line 170 without growth and the copy of line 189 leaves the
    buffer: the call is undefined before the loop, the log still has the
    two submissions and the reply is unused.  No view made of the
    unconsumed bytes followed by the new chunk is submitted. *)
Theorem Decode_overruns_before_submitting :
  let fed := feed Sample.engine Sample.check_fails
               [Sample.ones 2; Sample.ones 1048576]
               {| self := Sample.configured;
                  replies := [Sample.more_data 1; Sample.more_data 5;
                              Sample.more_data 0];
                  log := [] |} in
  let w := snd fed in
  let third := Decode Sample.engine Sample.check_fails (Sample.ones 6)
                      false 0 w in
  fst fed = [Returned WEBRTC_VIDEO_CODEC_OK; Returned WEBRTC_VIDEO_CODEC_OK]
  /\ length (submitted_views (log w)) = 2%nat
  /\ DataOffset (bitstream_ (self w)) = 5
  /\ DataLength (bitstream_ (self w)) = 1048572
  /\ len (bitstream_buffer_ (self w)) = 1048577
  /\ MaxLength (bitstream_ (self w)) = 1048578
  /\ replies w = [Sample.more_data 0]
  /\ find_if unlocked (surfaces_ (self w)) = Some O
  /\ fst third = Undefined OutOfBounds
  /\ length (submitted_views (log (snd third))) = 2%nat
  /\ replies (snd third) = [Sample.more_data 0].
Proof.
  vm_compute. repeat split.
Qed.

(** ** After the loop (lines 221-231) *)

(** An answer without completion token, or MFX_ERR_MORE_DATA, ends the call
    with WEBRTC_VIDEO_CODEC_OK after the one submission: no wait, no
    frame, and the bytes the engine did not consume stay in the
    accumulator.  The status of the answer is not looked at when the token
    is null. *)
Lemma Decode_without_token :
  forall engine msdk_check_fails input_image missing_frames render_time_ms
         d h cb d1 surface r rest,
    decoder_ d = Some h ->
    decode_complete_callback_ d = Some cb ->
    (data input_image = None -> size input_image = 0) ->
    accumulated input_image d = Some d1 ->
    find_if unlocked (surfaces_ d1) = Some surface ->
    r_sts r <> MFX_WRN_DEVICE_BUSY ->
    r_sts r = MFX_ERR_MORE_DATA \/ r_syncp r = None ->
    run (Decode engine msdk_check_fails input_image missing_frames
                render_time_ms) d (r :: rest)
    = (Returned WEBRTC_VIDEO_CODEC_OK,
       {| self := engine_effect r d1; replies := rest;
          log := [submission surface d1] |}).
Proof.
  intros engine chk img mf rt d h cb d1 surface r rest
         Hd Hc Hn Ha Hf Hb Hr.
  unfold run.
  set (w := {| self := d; replies := r :: rest; log := [] |}).
  rewrite (Decode_ready engine chk img mf rt w h cb Hd Hc Hn).
  rewrite (decode_chunk_accumulated engine chk img w cb d1 Ha).
  cbv zeta. rewrite Hf. unfold bind, submit.
  cbn [self replies log w submit_loop].
  destruct (Z.eqb_spec (r_sts r) MFX_WRN_DEVICE_BUSY); [contradiction|].
  unfold deliver, ret. cbn [app].
  destruct Hr as [Hr | Hr].
  - rewrite Hr. reflexivity.
  - rewrite Hr. destruct (r_sts r =? MFX_ERR_MORE_DATA)%Z; reflexivity.
Qed.

(** C2, at a failing input: the engine answers the submission with
    MFX_ERR_DEVICE_FAILED and leaves no completion token.  Whatever
    [MSDK_CHECK_RESULT] does, [Decode] returns WEBRTC_VIDEO_CODEC_OK: the
    test of the token at line 225 returns before the status is checked at
    line 228, so the failure does not reach the caller. *)
Theorem Decode_failed_submit_returns_OK :
  forall msdk_check_fails,
    run (Decode Sample.engine msdk_check_fails Sample.abc false 0)
        Sample.configured [Sample.failed]
    = (Returned WEBRTC_VIDEO_CODEC_OK,
       {| self := engine_effect Sample.failed Sample.fed; replies := [];
          log := [submission 0 Sample.fed] |}).
Proof.
  intros chk.
  apply (Decode_without_token Sample.engine chk Sample.abc false 0
           Sample.configured
           {| dec_param := decoder_param MFX_CODEC_VP8 640 480;
              dec_initialized := true |}
           1 Sample.fed O Sample.failed []).
  - vm_compute. reflexivity.
  - vm_compute. reflexivity.
  - discriminate.
  - apply option_is_Some. vm_compute. reflexivity.
  - vm_compute. reflexivity.
  - discriminate.
  - right. reflexivity.
Qed.

(** ** The recorded capacity (lines 170-174) *)

(** When the buffer grows, the capacity written to [MaxLength] is the new
    size of the buffer plus the bytes held: line 172 adds [DataLength] to
    [bitstream_buffer_.size()], which already counts them. *)
Lemma grow_records_more_than_buffer buf bs n :
  MaxLength bs < DataLength bs + n ->
  DataLength bs + (DataLength bs + n) < 2 ^ 32 ->
  len (fst (grow n (buf, bs))) = DataLength bs + n
  /\ MaxLength (snd (grow n (buf, bs)))
     = len (fst (grow n (buf, bs))) + DataLength bs.
Proof.
  intros Hg Hwrap. unfold grow.
  destruct (N.ltb_spec (MaxLength bs) (DataLength bs + n)); [|lia].
  cbn [fst snd MaxLength]. rewrite len_resize.
  rewrite to_mfxU32_small by exact Hwrap. split; lia.
Qed.

(** C1, at a failing input: on a configured decoder (a buffer of 1 MiB),
    a chunk of 1 byte and then a chunk of 1 MiB are fed, the engine asking
    for more data both times without consuming anything.  Both calls
    return WEBRTC_VIDEO_CODEC_OK.  After the second one the buffer has
    1048577 bytes, all of them unconsumed data, while [MaxLength] says
    1048578: the recorded capacity exceeds the allocation.  A third chunk
    of 1 byte then passes the test of line 170 without growth, and the copy
    of line 189 writes behind the end of the buffer. *)
Theorem Decode_capacity_exceeds_buffer :
  let fed := feed Sample.engine Sample.check_fails
               [Sample.ones 1; Sample.ones 1048576]
               {| self := Sample.configured;
                  replies := [Sample.more_data 0; Sample.more_data 0;
                              Sample.more_data 0];
                  log := [] |} in
  let d := self (snd fed) in
  fst fed = [Returned WEBRTC_VIDEO_CODEC_OK; Returned WEBRTC_VIDEO_CODEC_OK]
  /\ len (bitstream_buffer_ d) = 1048577
  /\ DataOffset (bitstream_ d) + DataLength (bitstream_ d) = 1048577
  /\ MaxLength (bitstream_ d) = 1048578
  /\ fst (Decode Sample.engine Sample.check_fails (Sample.ones 1) false 0
                 (snd fed))
     = Undefined OutOfBounds.
Proof.
  vm_compute. repeat split.
Qed.

(** ** [Configure] (lines 149-155 and 269-319) *)

(** C4, at the failing inputs: when the engine rejects the parameter block
    at [Query], [CreateDecoder] returns nullptr, [InitMediaSDK] stores it in
    [decoder_] and calls [GetVideoParam] through it at line 276.
    [Configure] does not return false: it dereferences a null pointer. *)
Theorem Configure_rejected_dereferences_null :
  forall engine msdk_check_fails settings w,
    (fst (Query engine
            (decoder_param (codec_ (self w)) (max_render_width settings)
                           (max_render_height settings))) < 0)%Z ->
    fst (Configure engine msdk_check_fails settings w)
    = Undefined NullDereference.
Proof.
  intros engine chk settings w Hq.
  unfold Configure, InitMediaSDK, static, CreateDecoder, bind, update, this,
    emit, ret, undefined.
  cbn [self replies log set_size width_ height_ codec_ session_ fst snd].
  destruct (Query engine _) as [sts param']. cbn [fst] in Hq.
  destruct (Z.ltb_spec sts 0); [|lia].
  reflexivity.
Qed.

Lemma Configure_rejected_dereferences_null_witness :
  fst (Configure Sample.rejecting Sample.check_fails Sample.settings
                 {| self := Sample.created; replies := []; log := [] |})
  = Undefined NullDereference.
Proof.
  apply (Configure_rejected_dereferences_null Sample.rejecting
           Sample.check_fails Sample.settings
           {| self := Sample.created; replies := []; log := [] |}).
  reflexivity.
Defined.

(** The same happens when [Init] fails.  And when [GetVideoParam] fails,
    [Configure] returns false but keeps the decoder it created in
    [decoder_], which is what [Decode] tests at line 160. *)
Lemma Configure_failed_GetVideoParam_keeps_decoder :
  forall engine msdk_check_fails settings w h sts param,
    fst (CreateDecoder engine (session_ (self w)) (codec_ (self w))
                       (max_render_width settings)
                       (max_render_height settings) true) = Some h ->
    GetVideoParam engine h = (sts, param) ->
    sts <> MFX_ERR_NONE ->
    fst (Configure engine msdk_check_fails settings w) = Returned false
    /\ decoder_ (self (snd (Configure engine msdk_check_fails settings w)))
       = Some h.
Proof.
  intros engine chk settings w h sts param Hc Hg Hs.
  unfold Configure, InitMediaSDK, static, bind, update, this, emit, ret.
  cbn [self replies log set_size width_ height_ codec_ session_ fst snd].
  destruct (CreateDecoder engine _ _ _ _ true) as [dec evs].
  cbn [fst snd] in *. subst dec. rewrite Hg.
  destruct (Z.eqb_spec sts MFX_ERR_NONE); [contradiction|].
  cbn [negb fst snd self decoder_ set_decoder_]. split; reflexivity.
Qed.

(** * Further properties of the decoder *)

(** ** A successful [Configure] (lines 149-155, 269-319, 82-147) *)


(** On an object that holds no decoder (a new or a released one), for a
    requested size between 0 and 65520 in each direction: when the engine
    validates the parameter block (any non-negative status), initializes
    on it, gives back its parameters and answers the surface query with a
    status that [MSDK_CHECK_RESULT] lets through, and the surface sizes it
    asks for give products that fit in an [int], [Configure] returns true
    after exactly these four calls.  The object then has the requested
    size, a decoder, an accumulator of 1 MiB that is empty and whose
    recorded capacity is the size of the buffer, and the surfaces of
    [make_surfaces], as many as the engine suggested, all unlocked and
    carrying the frame description of the engine; the sink is kept. *)
Theorem Configure_accepted :
  forall engine msdk_check_fails settings w stsq p' param stsi req,
    let width := ((Z.of_N (Width (Info req)) + 31) ÷ 32 * 32)%Z in
    let height := ((Z.of_N (Height (Info req)) + 31) ÷ 32 * 32)%Z in
    let size := (width * height * 12 ÷ 8)%Z in
    decoder_ (self w) = None ->
    (0 <= max_render_width settings <= 65520)%Z ->
    (0 <= max_render_height settings <= 65520)%Z ->
    Query engine (decoder_param (codec_ (self w))
                                (max_render_width settings)
                                (max_render_height settings))
    = (stsq, p') ->
    (0 <= stsq)%Z ->
    Init engine p' = MFX_ERR_NONE ->
    GetVideoParam engine {| dec_param := p'; dec_initialized := true |}
    = (MFX_ERR_NONE, param) ->
    QueryIOSurf engine param = (stsi, req) ->
    msdk_check_fails stsi MFX_ERR_NONE = false ->
    (width * height * 12 <= 2147483647)%Z ->
    (Z.of_N (NumFrameSuggested req) * size <= 2147483647)%Z ->
    exists d',
      Configure engine msdk_check_fails settings w
      = (Returned true,
         {| self := d'; replies := replies w;
            log := log w
                   ++ [EvQuery (decoder_param (codec_ (self w))
                                              (max_render_width settings)
                                              (max_render_height settings));
                       EvInit p'; EvGetVideoParam; EvQueryIOSurf param] |})
      /\ width_ d' = max_render_width settings
      /\ height_ d' = max_render_height settings
      /\ decoder_ d' = Some {| dec_param := p'; dec_initialized := true |}
      /\ decode_complete_callback_ d' = decode_complete_callback_ (self w)
      /\ alloc_request_ d' = req
      /\ len (bitstream_buffer_ d') = 1048576
      /\ bitstream_ d'
         = {| DataOffset := 0; DataLength := 0; MaxLength := 1048576 |}
      /\ (surface_buffer_ d', surfaces_ d') = make_surfaces param req
      /\ length (surfaces_ d') = N.to_nat (NumFrameSuggested req)
      /\ Forall (fun s => Locked s = 0 /\ surface_Info s = FrameInfo param)
                (surfaces_ d').
Proof.
  intros engine chk settings w stsq p' param stsi req width height size
         _ _ _ Hq Hpos Hi Hg Hs Hchk _ _.
  unfold Configure, InitMediaSDK, static, CreateDecoder, MSDK_CHECK_RESULT,
    bind, update, this, emit, ret.
  cbn [self replies log set_size width_ height_ codec_ session_ fst snd].
  rewrite Hq. destruct (Z.ltb_spec stsq 0); [lia|].
  rewrite Hi. cbn [Z.eqb MFX_ERR_NONE negb fst snd self replies log].
  rewrite Hg. cbn [Z.eqb MFX_ERR_NONE negb fst snd self replies log].
  rewrite Hs, Hchk. cbn [fst snd self replies log].
  unfold make_surfaces.
  cbn [alloc_request_ set_alloc_request_ set_bitstream set_decoder_].
  eexists. split.
  - rewrite <- !app_assoc. reflexivity.
  - cbn [width_ height_ decoder_ decode_complete_callback_ alloc_request_
         bitstream_buffer_ bitstream_ surfaces_ surface_buffer_ set_surfaces
         set_size set_bitstream set_alloc_request_ set_decoder_].
    rewrite len_resize.
    repeat match goal with |- _ /\ _ => split end; try reflexivity.
    + rewrite length_map, length_seq. reflexivity.
    + apply Forall_forall. intros s Hin. apply in_map_iff in Hin.
      destruct Hin as (i & <- & _). split; reflexivity.
Qed.

Lemma Configure_accepted_witness :
  exists d',
    Configure Sample.engine Sample.check_fails Sample.settings
              {| self := Sample.created; replies := []; log := [] |}
    = (Returned true,
       {| self := d'; replies := [];
          log := [] ++ [EvQuery (decoder_param MFX_CODEC_VP8 640 480);
                        EvInit (decoder_param MFX_CODEC_VP8 640 480);
                        EvGetVideoParam;
                        EvQueryIOSurf (decoder_param MFX_CODEC_VP8 640 480)]
       |})
    /\ width_ d' = 640%Z
    /\ height_ d' = 480%Z
    /\ decoder_ d'
       = Some {| dec_param := decoder_param MFX_CODEC_VP8 640 480;
                 dec_initialized := true |}
    /\ decode_complete_callback_ d' = Some 1
    /\ alloc_request_ d'
       = {| NumFrameSuggested := 2;
            Info := FrameInfo (decoder_param MFX_CODEC_VP8 640 480) |}
    /\ len (bitstream_buffer_ d') = 1048576
    /\ bitstream_ d'
       = {| DataOffset := 0; DataLength := 0; MaxLength := 1048576 |}
    /\ (surface_buffer_ d', surfaces_ d')
       = make_surfaces (decoder_param MFX_CODEC_VP8 640 480)
           {| NumFrameSuggested := 2;
              Info := FrameInfo (decoder_param MFX_CODEC_VP8 640 480) |}
    /\ length (surfaces_ d') = 2%nat
    /\ Forall (fun s => Locked s = 0
                        /\ surface_Info s
                           = FrameInfo (decoder_param MFX_CODEC_VP8 640 480))
              (surfaces_ d').
Proof.
  apply (Configure_accepted Sample.engine Sample.check_fails Sample.settings
           {| self := Sample.created; replies := []; log := [] |}
           MFX_ERR_NONE (decoder_param MFX_CODEC_VP8 640 480)
           (decoder_param MFX_CODEC_VP8 640 480) MFX_ERR_NONE
           {| NumFrameSuggested := 2;
              Info := FrameInfo (decoder_param MFX_CODEC_VP8 640 480) |});
    try reflexivity; try (vm_compute; split; discriminate);
    vm_compute; discriminate.
Defined.

(** ** Geometry (lines 96-105 and 296-316) *)

(** Rounding up to a multiple of [k] the way the source writes it, with the
    truncating division of C, on a value that is not negative. *)
Lemma round_up_quot x k :
  (0 <= x)%Z -> (0 < k)%Z ->
  (((x + (k - 1)) ÷ k * k) mod k = 0
   /\ x <= (x + (k - 1)) ÷ k * k < x + k)%Z.
Proof.
  intros Hx Hk. rewrite Z.quot_div_nonneg by lia.
  split.
  - apply Z.mod_mul. lia.
  - pose proof (Z.div_mod (x + (k - 1)) k ltac:(lia)) as E.
    pose proof (Z.mod_pos_bound (x + (k - 1)) k Hk) as B.
    lia.
Qed.

Lemma to_mfxU16_small z :
  (0 <= z < 65536)%Z -> Z.of_N (to_mfxU16 z) = z.
Proof.
  intros H. unfold to_mfxU16.
  change (2 ^ 16)%Z with 65536%Z.
  rewrite Z.mod_small by exact H. apply Z2N.id. lia.
Qed.

(** For a requested size between 0 and 65520 in each direction, the
    parameter block of [CreateDecoder] crops to the requested size at the
    origin and declares the size rounded up to the next multiple of 16:
    a multiple of 16, not below the request and less than 16 above it. *)
Theorem decoder_param_alignment :
  forall codec width height,
    (0 <= width <= 65520)%Z ->
    (0 <= height <= 65520)%Z ->
    let info := FrameInfo (decoder_param codec width height) in
    CropX info = 0 /\ CropY info = 0
    /\ Z.of_N (CropW info) = width
    /\ Z.of_N (CropH info) = height
    /\ (Z.of_N (Width info) mod 16 = 0)%Z
    /\ (width <= Z.of_N (Width info) < width + 16)%Z
    /\ (Z.of_N (Height info) mod 16 = 0)%Z
    /\ (height <= Z.of_N (Height info) < height + 16)%Z.
Proof.
  intros codec width height Hw Hh info. unfold info, decoder_param.
  cbn [FrameInfo CropX CropY CropW CropH Width Height].
  destruct (round_up_quot width 16) as [Mw Bw]; [lia | lia |].
  destruct (round_up_quot height 16) as [Mh Bh]; [lia | lia |].
  change (16 - 1)%Z with 15%Z in *.
  assert (Hwr : ((width + 15) ÷ 16 * 16 < 65536)%Z).
  { rewrite Z.quot_div_nonneg in * by lia.
    pose proof (Z.div_mod (width + 15) 16 ltac:(lia)).
    pose proof (Z.mod_pos_bound (width + 15) 16 ltac:(lia)). lia. }
  assert (Hhr : ((height + 15) ÷ 16 * 16 < 65536)%Z).
  { rewrite Z.quot_div_nonneg in * by lia.
    pose proof (Z.div_mod (height + 15) 16 ltac:(lia)).
    pose proof (Z.mod_pos_bound (height + 15) 16 ltac:(lia)). lia. }
  rewrite !to_mfxU16_small by lia.
  repeat match goal with |- _ /\ _ => split end;
    try reflexivity; try assumption; lia.
Qed.

Lemma decoder_param_alignment_witness :
  let info := FrameInfo (decoder_param MFX_CODEC_AVC 1918 1080) in
  CropX info = 0 /\ CropY info = 0
  /\ Z.of_N (CropW info) = 1918%Z
  /\ Z.of_N (CropH info) = 1080%Z
  /\ (Z.of_N (Width info) mod 16 = 0)%Z
  /\ (1918 <= Z.of_N (Width info) < 1918 + 16)%Z
  /\ (Z.of_N (Height info) mod 16 = 0)%Z
  /\ (1080 <= Z.of_N (Height info) < 1080 + 16)%Z.
Proof.
  apply (decoder_param_alignment MFX_CODEC_AVC 1918 1080); lia.
Defined.

(** The surfaces that [InitMediaSDK] lays out in [surface_buffer_], for a
    frame description whose sides, rounded up to multiples of 32, give
    products that fit in an [int].  Surface [i] starts at [i * size]; its
    luma plane has [width * height] bytes and is followed by the chroma
    plane, [V] one byte behind [U], which takes the remaining half as
    many bytes; the surface ends inside the buffer, and a later surface
    starts where an earlier one has ended or behind.  Each surface is
    unlocked and carries the frame description of the decoder; its pitch
    is the rounded width as long as that fits in 16 bits. *)
Theorem make_surfaces_layout :
  forall param req i s,
    let width := ((Z.of_N (Width (Info req)) + 31) ÷ 32 * 32)%Z in
    let height := ((Z.of_N (Height (Info req)) + 31) ÷ 32 * 32)%Z in
    let size := (width * height * 12 ÷ 8)%Z in
    (width * height * 12 <= 2147483647)%Z ->
    (Z.of_N (NumFrameSuggested req) * size <= 2147483647)%Z ->
    nth_error (snd (make_surfaces param req)) i = Some s ->
    (i < N.to_nat (NumFrameSuggested req))%nat
    /\ Y s = (Z.of_nat i * size)%Z
    /\ U s = (Y s + width * height)%Z
    /\ V s = (U s + 1)%Z
    /\ (2 * (Y s + size - U s) = width * height)%Z
    /\ (0 <= Y s)%Z
    /\ (Y s + size <= fst (make_surfaces param req))%Z
    /\ (forall j t, (i < j)%nat ->
                    nth_error (snd (make_surfaces param req)) j = Some t ->
                    (Y s + size <= Y t)%Z)
    /\ Locked s = 0
    /\ surface_Info s = FrameInfo param
    /\ (Width (Info req) <= 65504 -> Z.of_N (Pitch s) = width).
Proof.
  intros param req i s width height size _ _ Hs.
  assert (Ha : exists a, (0 <= a)%Z /\ width = (a * 32)%Z
                         /\ (Z.of_N (Width (Info req)) <= a * 32
                             < Z.of_N (Width (Info req)) + 32)%Z).
  { exists ((Z.of_N (Width (Info req)) + 31) ÷ 32)%Z.
    pose proof (round_up_quot (Z.of_N (Width (Info req))) 32
                  ltac:(lia) ltac:(lia)) as [_ B].
    change (32 - 1)%Z with 31%Z in B.
    split; [apply Z.quot_pos; lia|]. split; [reflexivity | exact B]. }
  assert (Hb : exists b, (0 <= b)%Z /\ height = (b * 32)%Z).
  { exists ((Z.of_N (Height (Info req)) + 31) ÷ 32)%Z.
    split; [apply Z.quot_pos; lia | reflexivity]. }
  destruct Ha as (a & Ha0 & Ha & Hab). destruct Hb as (b & Hb0 & Hb).
  assert (Hsize : size = (a * b * 1536)%Z).
  { unfold size. rewrite Ha, Hb.
    replace (a * 32 * (b * 32) * 12)%Z with (a * b * 1536 * 8)%Z by lia.
    apply Z.quot_mul. discriminate. }
  assert (Hsz0 : (0 <= size)%Z) by nia.
  assert (Hnth : forall k t,
             nth_error (snd (make_surfaces param req)) k = Some t ->
             (k < N.to_nat (NumFrameSuggested req))%nat
             /\ t = {| surface_Info := FrameInfo param; Locked := 0;
                       Y := Z.of_nat k * size;
                       U := Z.of_nat k * size + width * height;
                       V := Z.of_nat k * size + width * height + 1;
                       Pitch := to_mfxU16 width |}).
  { intros k t Hk. unfold make_surfaces in Hk. cbn [snd] in Hk.
    fold width height size in Hk.
    rewrite nth_error_map in Hk.
    destruct (nth_error (seq 0 (N.to_nat (NumFrameSuggested req))) k)
      as [m|] eqn:Em; [|discriminate].
    cbn [option_map] in Hk. injection Hk as <-.
    rewrite nth_error_seq in Em.
    destruct (Nat.ltb_spec k (N.to_nat (NumFrameSuggested req))) as [Hlt|];
      [|discriminate Em].
    injection Em as <-. split; [exact Hlt | reflexivity]. }
  destruct (Hnth i s Hs) as [Hi ->].
  cbn [Y U V Locked surface_Info Pitch].
  unfold make_surfaces. cbn [fst]. fold width height size.
  repeat match goal with |- _ /\ _ => split end;
    try reflexivity; try lia; try nia.
  - intros j t Hij Ht. destruct (Hnth j t Ht) as [Hj ->]. cbn [Y]. nia.
  - intros HW. apply to_mfxU16_small. lia.
Qed.

Lemma make_surfaces_layout_witness :
  let width := ((Z.of_N 640 + 31) ÷ 32 * 32)%Z in
  let height := ((Z.of_N 480 + 31) ÷ 32 * 32)%Z in
  let size := (width * height * 12 ÷ 8)%Z in
  let s := {| surface_Info :=
                FrameInfo (decoder_param MFX_CODEC_VP8 640 480);
              Locked := 0; Y := 460800; U := 768000; V := 768001;
              Pitch := 640 |} in
  (1 < 2)%nat
  /\ Y s = (Z.of_nat 1 * size)%Z
  /\ U s = (Y s + width * height)%Z
  /\ V s = (U s + 1)%Z
  /\ (2 * (Y s + size - U s) = width * height)%Z
  /\ (0 <= Y s)%Z
  /\ (Y s + size <= 921600)%Z.
Proof.
  intros width height size s.
  destruct (make_surfaces_layout
              (decoder_param MFX_CODEC_VP8 640 480)
              {| NumFrameSuggested := 2;
                 Info := FrameInfo (decoder_param MFX_CODEC_VP8 640 480) |}
              1 s)
    as (H1 & H2 & H3 & H4 & H5 & H6 & H7 & _).
  - vm_compute. discriminate.
  - vm_compute. discriminate.
  - reflexivity.
  - repeat split; assumption.
Defined.

(** ** The accumulator while its recorded capacity is exact *)

(** Lines 170-191 when the recorded capacity is the size of the buffer,
    the unconsumed bytes lie inside it, and either the chunk needs no
    growth or nothing is held at the moment of the growth.  The copies stay
    inside the buffer; afterwards the recorded capacity is again the size
    of the buffer, which has not shrunk, the descriptor starts at offset 0
    and designates the bytes held before followed by the chunk, and nothing
    else of the object has changed. *)
Theorem accumulated_exact_capacity :
  forall input_image d,
    readable input_image ->
    DataOffset (bitstream_ d) + DataLength (bitstream_ d)
      <= len (bitstream_buffer_ d) ->
    MaxLength (bitstream_ d) = len (bitstream_buffer_ d) ->
    DataLength (bitstream_ d) + size input_image < 2 ^ 32 ->
    DataLength (bitstream_ d) = 0
    \/ DataLength (bitstream_ d) + size input_image
       <= MaxLength (bitstream_ d) ->
    exists d1,
      accumulated input_image d = Some d1
      /\ MaxLength (bitstream_ d1) = len (bitstream_buffer_ d1)
      /\ len (bitstream_buffer_ d) <= len (bitstream_buffer_ d1)
      /\ DataOffset (bitstream_ d1) = 0
      /\ DataLength (bitstream_ d1)
         = DataLength (bitstream_ d) + size input_image
      /\ view d1 = view d ++ chunk input_image
      /\ surfaces_ d1 = surfaces_ d
      /\ configuration d1 = configuration d
      /\ buffer_pool_ d1 = buffer_pool_ d.
Proof.
  intros img d Hread Hreg Hcap Hwrap Hcase.
  unfold accumulated, grow.
  destruct (N.ltb_spec (MaxLength (bitstream_ d))
                       (DataLength (bitstream_ d) + size img)) as [Hg|Hg].
  - destruct Hcase as [Hz | Hle]; [|lia].
    set (buf1 := resize (DataLength (bitstream_ d) + size img)
                        (bitstream_buffer_ d)).
    assert (Hl1 : len buf1 = DataLength (bitstream_ d) + size img)
      by apply len_resize.
    rewrite Hl1.
    set (bs1 := {| DataOffset := DataOffset (bitstream_ d);
                   DataLength := DataLength (bitstream_ d);
                   MaxLength := _ |}).
    destruct (compact_append buf1 bs1 img Hread) as (buf' & E & Hl' & Hv).
    { cbn [bs1 DataOffset DataLength]. lia. }
    { cbn [bs1 DataLength]. lia. }
    destruct (compact (buf1, bs1)) as [st|]; [|discriminate E].
    cbn [option_map] in E. injection E as E. rewrite E.
    eexists. split; [reflexivity|].
    cbn [fst snd bitstream_ bitstream_buffer_ set_bitstream DataOffset
         DataLength MaxLength bs1] in *.
    unfold view.
    cbn [bitstream_ bitstream_buffer_ set_bitstream DataOffset DataLength].
    rewrite !to_mfxU32_small by lia.
    repeat match goal with |- _ /\ _ => split end; try reflexivity; try lia.
    rewrite Hv. f_equal. unfold buf1. rewrite resize_extends by lia.
    apply slice_app_left. exact Hreg.
  - destruct (compact_append (bitstream_buffer_ d) (bitstream_ d) img Hread)
      as (buf' & E & Hl' & Hv); [exact Hreg | lia |].
    destruct (compact (bitstream_buffer_ d, bitstream_ d)) as [st|];
      [|discriminate E].
    cbn [option_map] in E. injection E as E. rewrite E.
    eexists. split; [reflexivity|].
    unfold view.
    cbn [fst snd bitstream_ bitstream_buffer_ set_bitstream DataOffset
         DataLength MaxLength].
    rewrite to_mfxU32_small by lia.
    repeat match goal with |- _ /\ _ => split end; try reflexivity; try lia.
    exact Hv.
Qed.

Lemma accumulated_exact_capacity_witness :
  exists d1,
    accumulated (Sample.ones 2000000) Sample.configured = Some d1
    /\ MaxLength (bitstream_ d1) = len (bitstream_buffer_ d1)
    /\ len (bitstream_buffer_ Sample.configured) <= len (bitstream_buffer_ d1)
    /\ DataOffset (bitstream_ d1) = 0
    /\ DataLength (bitstream_ d1)
       = DataLength (bitstream_ Sample.configured)
         + size (Sample.ones 2000000)
    /\ view d1 = view Sample.configured ++ chunk (Sample.ones 2000000)
    /\ surfaces_ d1 = surfaces_ Sample.configured
    /\ configuration d1 = configuration Sample.configured
    /\ buffer_pool_ d1 = buffer_pool_ Sample.configured.
Proof.
  apply (accumulated_exact_capacity (Sample.ones 2000000) Sample.configured).
  - unfold readable, Sample.ones, len. cbn [data size].
    rewrite repeat_length. lia.
  - vm_compute. discriminate.
  - vm_compute. reflexivity.
  - vm_compute. reflexivity.
  - left. vm_compute. reflexivity.
Defined.

(** Whenever lines 170-191 run without leaving the buffer, what they
    record covers what they hold: the descriptor starts at offset 0 and
    [DataLength] does not exceed [MaxLength] (twice the bytes held plus
    the chunk staying below 2^32, so that no counter wraps). *)
Theorem accumulated_within_recorded_capacity :
  forall input_image d d1,
    accumulated input_image d = Some d1 ->
    2 * DataLength (bitstream_ d) + size input_image < 2 ^ 32 ->
    DataOffset (bitstream_ d1) = 0
    /\ DataLength (bitstream_ d1)
       = DataLength (bitstream_ d) + size input_image
    /\ DataOffset (bitstream_ d1) + DataLength (bitstream_ d1)
       <= MaxLength (bitstream_ d1).
Proof.
  intros img d d1 Ha Hwrap. unfold accumulated, grow in Ha.
  destruct (N.ltb_spec (MaxLength (bitstream_ d))
                       (DataLength (bitstream_ d) + size img)) as [Hg|Hg].
  - unfold compact in Ha.
    destruct (memmove_front _ _ _) as [b1|]; [|discriminate].
    unfold append in Ha.
    destruct (memcpy_at _ _ _ _) as [b2|]; [|discriminate].
    injection Ha as <-.
    cbn [fst snd bitstream_ set_bitstream DataOffset DataLength MaxLength].
    rewrite len_resize, !to_mfxU32_small by lia. lia.
  - unfold compact in Ha.
    destruct (memmove_front _ _ _) as [b1|]; [|discriminate].
    unfold append in Ha.
    destruct (memcpy_at _ _ _ _) as [b2|]; [|discriminate].
    injection Ha as <-.
    cbn [fst snd bitstream_ set_bitstream DataOffset DataLength MaxLength].
    rewrite !to_mfxU32_small by lia. lia.
Qed.

Lemma accumulated_within_recorded_capacity_witness :
  DataOffset (bitstream_ Sample.fed) = 0
  /\ DataLength (bitstream_ Sample.fed)
     = DataLength (bitstream_ Sample.configured) + size Sample.abc
  /\ DataOffset (bitstream_ Sample.fed) + DataLength (bitstream_ Sample.fed)
     <= MaxLength (bitstream_ Sample.fed).
Proof.
  apply (accumulated_within_recorded_capacity Sample.abc Sample.configured
           Sample.fed).
  - apply option_is_Some. vm_compute. reflexivity.
  - vm_compute. reflexivity.
Defined.

(** ** What [Decode] leaves alone *)

Section Keeps.

Context {X : Type} (f : MsdkVideoDecoderImpl -> X).

Lemma keeps_ret {A} (a : A) : keeps f (ret a).
Proof. intros w. reflexivity. Qed.

Lemma keeps_emit evs : keeps f (emit evs).
Proof. intros w. reflexivity. Qed.

Lemma keeps_raise {A} e : keeps f (@raise A e).
Proof. intros w. reflexivity. Qed.

Lemma keeps_undefined {A} u : keeps f (@undefined A u).
Proof. intros w. reflexivity. Qed.

Lemma keeps_this : keeps f this.
Proof. intros w. reflexivity. Qed.

Lemma keeps_update g : (forall d, f (g d) = f d) -> keeps f (update g).
Proof. intros H w. apply H. Qed.

Lemma keeps_bind {A B} (c : M A) (k : A -> M B) :
  keeps f c -> (forall a, keeps f (k a)) -> keeps f (bind c k).
Proof.
  intros Hc Hk w. unfold bind. specialize (Hc w).
  destruct (c w) as [[a| | |] w1]; cbn [snd] in *; try exact Hc.
  rewrite Hk. exact Hc.
Qed.

End Keeps.

Lemma unlock_relock_one i v ss :
  map unlock (relock_one i v ss) = map unlock ss.
Proof.
  revert i. induction ss as [|s ss IH]; intros [|i]; cbn [relock_one map];
    try reflexivity.
  f_equal. apply IH.
Qed.

Lemma unlock_relock ups :
  forall ss, map unlock (relock ups ss) = map unlock ss.
Proof.
  unfold relock. induction ups as [|[i v] ups IH]; intros ss;
    cbn [fold_left fst snd].
  - reflexivity.
  - rewrite IH. apply unlock_relock_one.
Qed.

Lemma configuration_engine_effect r d :
  configuration (engine_effect r d) = configuration d.
Proof.
  unfold configuration, engine_effect.
  cbn [width_ height_ decode_complete_callback_ codec_ session_
       alloc_request_ decoder_ surface_buffer_ surfaces_].
  rewrite unlock_relock. reflexivity.
Qed.

Lemma keeps_configuration_accumulate img :
  keeps configuration (accumulate img).
Proof.
  unfold accumulate.
  apply keeps_bind; [apply keeps_this|]. intros d.
  apply keeps_bind; [apply keeps_update; reflexivity|]. intros _.
  destruct (compact _) as [st|]; [|apply keeps_undefined].
  apply keeps_bind; [apply keeps_update; reflexivity|]. intros _.
  destruct (append img st) as [st'|]; [|apply keeps_undefined].
  apply keeps_update. reflexivity.
Qed.

Lemma configuration_submit_loop surface rs :
  forall d lg,
    configuration (self (snd (submit_loop surface rs d lg)))
    = configuration d.
Proof.
  induction rs as [|r rs IH]; intros d lg; cbn [submit_loop].
  - reflexivity.
  - destruct (r_sts r =? MFX_WRN_DEVICE_BUSY)%Z.
    + rewrite IH. apply configuration_engine_effect.
    + apply configuration_engine_effect.
Qed.

Lemma keeps_configuration_deliver engine chk cb pts r :
  keeps configuration (deliver engine chk cb pts r).
Proof.
  unfold deliver, MSDK_CHECK_RESULT.
  destruct (r_sts r =? MFX_ERR_MORE_DATA)%Z; [apply keeps_ret|].
  destruct (r_syncp r) as [syncp|]; [|apply keeps_ret].
  apply keeps_bind.
  { destruct (chk _ _); [apply keeps_raise | apply keeps_ret]. }
  intros _. apply keeps_bind; [apply keeps_emit|]. intros _.
  apply keeps_bind.
  { destruct (chk _ _); [apply keeps_raise | apply keeps_ret]. }
  intros _. apply keeps_bind; [apply keeps_this|]. intros d.
  apply keeps_bind; [apply keeps_update; reflexivity|]. intros _.
  destruct (r_out_surface r); [|apply keeps_undefined].
  apply keeps_bind; [apply keeps_emit | intros _; apply keeps_ret].
Qed.

(** Whatever the input, the answers of the engine and the outcome, a
    [Decode] call leaves the configuration of the decoder as it was: the
    size, the sink, the codec, the session, the decoder object, the
    allocation request and the surfaces up to their [Locked] counters, in
    number and content.  Only the accumulator, the [Locked] counters and
    the pool of destination buffers can differ afterwards. *)
Theorem Decode_keeps_configuration :
  forall engine msdk_check_fails input_image missing_frames render_time_ms w,
    configuration
      (self (snd (Decode engine msdk_check_fails input_image missing_frames
                         render_time_ms w)))
    = configuration (self w).
Proof.
  intros engine chk img mf rt.
  change (keeps configuration (Decode engine chk img mf rt)).
  unfold Decode.
  apply keeps_bind; [apply keeps_this|]. intros d.
  destruct (decoder_ d); [|apply keeps_ret].
  destruct (decode_complete_callback_ d) as [cb|]; [|apply keeps_ret].
  destruct (_ && _); [apply keeps_ret|].
  unfold decode_chunk.
  apply keeps_bind; [apply keeps_configuration_accumulate|]. intros _.
  apply keeps_bind; [apply keeps_this|]. intros d'.
  destruct (find_if unlocked (surfaces_ d')) as [surface|];
    [|apply keeps_ret].
  apply keeps_bind.
  - intros w. unfold submit. apply configuration_submit_loop.
  - intros r. apply keeps_configuration_deliver.
Qed.

(** ** Delivery of frames (lines 225-250) *)

Lemma filter_nil {A} (p : A -> bool) l :
  (forall x, In x l -> p x = false) -> filter p l = [].
Proof.
  induction l as [|a l IH]; intros H; cbn [filter].
  - reflexivity.
  - rewrite (H a (or_introl eq_refl)). apply IH.
    intros x Hx. apply H. right. exact Hx.
Qed.

Lemma submit_loop_no_frame surface rs d :
  filter is_frame (log (snd (submit_loop surface rs d []))) = [].
Proof.
  apply filter_nil. intros e He.
  destruct (submit_loop_log surface rs d [] e He)
    as [[] | [-> | (bs & v & s & ->)]]; reflexivity.
Qed.

(** What lines 221-250 add to the log: nothing that is a frame, or the
    wait followed by one frame, in which case they return OK and both
    checks have passed. *)
Lemma deliver_cases engine chk cb pts r w :
  exists evs,
    log (snd (deliver engine chk cb pts r w)) = log w ++ evs
    /\ (filter is_frame evs = []
        \/ exists syncp out,
             evs = [EvSyncOperation syncp 600000;
                    EvDecoded cb {| frame_width := width_ (self w);
                                    frame_height := height_ (self w);
                                    timestamp_rtp := to_mfxU32 pts;
                                    frame_source := out |}]
             /\ fst (deliver engine chk cb pts r w)
                = Returned WEBRTC_VIDEO_CODEC_OK
             /\ r_syncp r = Some syncp
             /\ r_out_surface r = Some out
             /\ chk (r_sts r) MFX_ERR_NONE = false
             /\ chk (SyncOperation engine syncp 600000) MFX_ERR_NONE
                = false).
Proof.
  unfold deliver, MSDK_CHECK_RESULT, bind, emit, update, this, ret, raise,
    undefined.
  destruct (r_sts r =? MFX_ERR_MORE_DATA)%Z;
    [exists []; rewrite app_nil_r; split; [reflexivity | left; reflexivity]|].
  destruct (r_syncp r) as [syncp|];
    [|exists []; rewrite app_nil_r; split; [reflexivity | left; reflexivity]].
  destruct (chk (r_sts r) MFX_ERR_NONE) eqn:H1;
    [exists []; rewrite app_nil_r; split; [reflexivity | left; reflexivity]|].
  cbn [fst snd self replies log].
  destruct (chk (SyncOperation engine syncp 600000) MFX_ERR_NONE) eqn:H2;
    cbn [fst snd self replies log].
  - eexists. split; [reflexivity | left; reflexivity].
  - destruct (r_out_surface r) as [out|]; cbn [fst snd self replies log].
    + eexists. rewrite <- app_assoc. split; [reflexivity|].
      right. exists syncp, out. repeat split. exact H2.
    + eexists. split; [reflexivity | left; reflexivity].
Qed.

(** A [Decode] call delivers at most one frame.  When it does, the frame
    is the last thing it logs, right after the wait on the completion
    token, which returned a status that [MSDK_CHECK_RESULT] let through;
    the frame goes to the sink registered on the object, has the size the
    decoder was configured with and the timestamp of the input of this
    very call (its low 32 bits), and the call returns
    WEBRTC_VIDEO_CODEC_OK.  A call that ends in any other way delivers
    nothing. *)
Theorem Decode_frame_delivery :
  forall engine msdk_check_fails input_image missing_frames render_time_ms
         d rs,
    filter is_frame
      (log (snd (run (Decode engine msdk_check_fails input_image
                             missing_frames render_time_ms) d rs))) = []
    \/ exists cb syncp out pre,
         decode_complete_callback_ d = Some cb
         /\ fst (run (Decode engine msdk_check_fails input_image
                             missing_frames render_time_ms) d rs)
            = Returned WEBRTC_VIDEO_CODEC_OK
         /\ log (snd (run (Decode engine msdk_check_fails input_image
                                  missing_frames render_time_ms) d rs))
            = pre ++ [EvSyncOperation syncp 600000;
                      EvDecoded cb
                        {| frame_width := width_ d;
                           frame_height := height_ d;
                           timestamp_rtp :=
                             to_mfxU32 (Timestamp input_image);
                           frame_source := out |}]
         /\ filter is_frame pre = []
         /\ msdk_check_fails (SyncOperation engine syncp 600000)
                             MFX_ERR_NONE = false.
Proof.
  intros engine chk img mf rt d rs. unfold run.
  set (w := {| self := d; replies := rs; log := [] |}).
  destruct (decoder_ d) as [h|] eqn:Hd.
  2:{ left. unfold Decode, bind, this. cbn [self w]. rewrite Hd.
      reflexivity. }
  destruct (decode_complete_callback_ d) as [cb|] eqn:Hc.
  2:{ left. unfold Decode, bind, this. cbn [self w]. rewrite Hd, Hc.
      reflexivity. }
  destruct (match data img with None => true | Some _ => false end
            && (0 <? size img)) eqn:Hn.
  { left. unfold Decode, bind, this. cbn [self w]. rewrite Hd, Hc, Hn.
    reflexivity. }
  assert (E : Decode engine chk img mf rt w
              = decode_chunk engine chk cb img w).
  { unfold Decode, bind, this. cbn [self w]. rewrite Hd, Hc, Hn.
    reflexivity. }
  rewrite E.
  destruct (accumulated img d) as [d1|] eqn:Ha.
  2:{ left.
      destruct (decode_chunk_out_of_bounds engine chk img w cb Ha)
        as [_ ->]. reflexivity. }
  rewrite (decode_chunk_accumulated engine chk img w cb d1 Ha).
  cbv zeta.
  destruct (find_if unlocked (surfaces_ d1)) as [surface|];
    [|left; reflexivity].
  unfold bind, submit. cbn [self replies log w].
  pose proof (submit_loop_no_frame surface rs d1) as Hnf.
  pose proof (configuration_submit_loop surface rs d1 []) as Hcf.
  destruct (submit_loop surface rs d1 []) as [[r| | |] w2];
    cbn [snd] in *; try (left; exact Hnf).
  destruct (deliver_cases engine chk cb (Timestamp img) r w2)
    as (evs & Elog & [Hno | (syncp & out & -> & Hok & _ & _ & _ & Hsync)]).
  - left. rewrite Elog, filter_app, Hnf, Hno. reflexivity.
  - right. exists cb, syncp, out, (log w2).
    assert (Hdim : width_ (self w2) = width_ d
                   /\ height_ (self w2) = height_ d).
    { destruct (accumulated_fields _ _ _ Ha) as (_ & Hw & Hh & _).
      unfold configuration in Hcf. injection Hcf as -> -> _.
      split; assumption. }
    destruct Hdim as [Hw Hh]. rewrite Hw, Hh in Elog.
    repeat split; assumption.
Qed.

(** ** Without a decoder or without a sink *)

Lemma Decode_uninitialized engine chk img mf rt w :
  decoder_ (self w) = None \/ decode_complete_callback_ (self w) = None ->
  Decode engine chk img mf rt w
  = (Returned WEBRTC_VIDEO_CODEC_UNINITIALIZED, w).
Proof.
  unfold Decode, bind, this, ret. intros [Hd | Hc].
  - rewrite Hd. reflexivity.
  - rewrite Hc. destruct (decoder_ (self w)); reflexivity.
Qed.

(** After [Release], and likewise after a null sink was registered,
    [Decode] answers WEBRTC_VIDEO_CODEC_UNINITIALIZED to every input and
    leaves the world as [Release] (or the registration) left it: nothing is
    appended to the accumulator and the engine is not called. *)
Theorem Decode_refused_after_Release :
  forall engine msdk_check_fails input_image missing_frames render_time_ms w,
    Decode engine msdk_check_fails input_image missing_frames render_time_ms
           (snd (Release w))
    = (Returned WEBRTC_VIDEO_CODEC_UNINITIALIZED, snd (Release w))
    /\ Decode engine msdk_check_fails input_image missing_frames
              render_time_ms
              (snd (RegisterDecodeCompleteCallback None w))
       = (Returned WEBRTC_VIDEO_CODEC_UNINITIALIZED,
          snd (RegisterDecodeCompleteCallback None w)).
Proof.
  intros engine chk img mf rt w. split.
  - apply Decode_uninitialized.
    unfold Release, ReleaseMediaSDK, bind, this, emit, update, ret.
    destruct (decoder_ (self w)); left; reflexivity.
  - apply Decode_uninitialized. right. reflexivity.
Qed.

(** ** An engine that stays busy (lines 210-218) *)

Lemma submit_loop_all_busy surface rs :
  forall d lg,
    Forall (fun r => r_sts r = MFX_WRN_DEVICE_BUSY) rs ->
    exists evs,
      fst (submit_loop surface rs d lg) = Starved
      /\ replies (snd (submit_loop surface rs d lg)) = []
      /\ log (snd (submit_loop surface rs d lg)) = lg ++ evs
      /\ length (filter is_submission evs) = length rs
      /\ length (filter is_sleep evs) = length rs
      /\ length evs = (2 * length rs)%nat.
Proof.
  induction rs as [|r rs IH]; intros d lg Hall; cbn [submit_loop].
  - exists []. rewrite app_nil_r. repeat split.
  - inversion Hall as [|? ? Hr Hrs]; subst.
    rewrite Hr, Z.eqb_refl.
    destruct (IH (engine_effect r d)
                 (lg ++ [EvDecodeFrameAsync (bitstream_ d) (view d) surface
                           (nth_error (surfaces_ d) surface);
                         EvSleep 1]) Hrs)
      as (evs & -> & -> & -> & Hs & Hz & Hl).
    eexists. rewrite <- app_assoc.
    split; [reflexivity|]. split; [reflexivity|]. split; [reflexivity|].
    cbn [app filter is_submission is_sleep length].
    rewrite Hs, Hz, Hl. repeat split. lia.
Qed.

(** As long as the engine answers MFX_WRN_DEVICE_BUSY, [Decode] does not
    return: given any number of busy answers and nothing else, the call
    has used them all and is still in its loop, having made one submission
    and asked for one sleep per answer, and nothing else.  There is no
    bound after which it gives up. *)
Theorem Decode_retries_without_bound :
  forall engine msdk_check_fails input_image missing_frames render_time_ms
         d h cb d1 surface rs,
    decoder_ d = Some h ->
    decode_complete_callback_ d = Some cb ->
    (data input_image = None -> size input_image = 0) ->
    accumulated input_image d = Some d1 ->
    find_if unlocked (surfaces_ d1) = Some surface ->
    Forall (fun r => r_sts r = MFX_WRN_DEVICE_BUSY) rs ->
    let res := run (Decode engine msdk_check_fails input_image
                           missing_frames render_time_ms) d rs in
    fst res = Starved
    /\ replies (snd res) = []
    /\ length (filter is_submission (log (snd res))) = length rs
    /\ length (filter is_sleep (log (snd res))) = length rs
    /\ length (log (snd res)) = (2 * length rs)%nat.
Proof.
  intros engine chk img mf rt d h cb d1 surface rs Hd Hc Hn Ha Hf Hall res.
  unfold res, run.
  set (w := {| self := d; replies := rs; log := [] |}).
  rewrite (Decode_ready engine chk img mf rt w h cb Hd Hc Hn).
  rewrite (decode_chunk_accumulated engine chk img w cb d1 Ha).
  cbv zeta. rewrite Hf. unfold bind, submit. cbn [self replies log w].
  destruct (submit_loop_all_busy surface rs d1 [] Hall)
    as (evs & Ho & Hr & Hl & Hs & Hz & Hlen).
  destruct (submit_loop surface rs d1 []) as [o w2]. cbn [fst snd] in *.
  subst o. cbn [fst snd]. rewrite Hl. cbn [app]. repeat split; assumption.
Qed.

Lemma Decode_retries_without_bound_witness :
  let res := run (Decode Sample.engine Sample.check_fails Sample.abc false 0)
                 Sample.configured (repeat Sample.busy 100) in
  fst res = Starved
  /\ replies (snd res) = []
  /\ length (filter is_submission (log (snd res)))
     = length (repeat Sample.busy 100)
  /\ length (filter is_sleep (log (snd res)))
     = length (repeat Sample.busy 100)
  /\ length (log (snd res)) = (2 * length (repeat Sample.busy 100))%nat.
Proof.
  apply (Decode_retries_without_bound Sample.engine Sample.check_fails
           Sample.abc false 0 Sample.configured
           {| dec_param := decoder_param MFX_CODEC_VP8 640 480;
              dec_initialized := true |}
           1 Sample.fed O (repeat Sample.busy 100)).
  - vm_compute. reflexivity.
  - vm_compute. reflexivity.
  - discriminate.
  - apply option_is_Some. vm_compute. reflexivity.
  - vm_compute. reflexivity.
  - apply Forall_forall. intros r Hr. apply repeat_spec in Hr. subst r.
    reflexivity.
Defined.

(** ** Chunks fed one after the other *)

Lemma submitted_views_app lg1 lg2 :
  submitted_views (lg1 ++ lg2) = submitted_views lg1 ++ submitted_views lg2.
Proof.
  induction lg1 as [|e lg1 IH]; cbn [app submitted_views].
  - reflexivity.
  - destruct e; try exact IH. cbn [app]. f_equal. exact IH.
Qed.

(** [Decode_without_token] from a world that already has a log. *)
Lemma Decode_without_token_from :
  forall engine chk img mf rt w h cb d1 surface r rest,
    decoder_ (self w) = Some h ->
    decode_complete_callback_ (self w) = Some cb ->
    (data img = None -> size img = 0) ->
    accumulated img (self w) = Some d1 ->
    find_if unlocked (surfaces_ d1) = Some surface ->
    replies w = r :: rest ->
    r_sts r <> MFX_WRN_DEVICE_BUSY ->
    r_sts r = MFX_ERR_MORE_DATA \/ r_syncp r = None ->
    Decode engine chk img mf rt w
    = (Returned WEBRTC_VIDEO_CODEC_OK,
       {| self := engine_effect r d1; replies := rest;
          log := log w ++ [submission surface d1] |}).
Proof.
  intros engine chk img mf rt w h cb d1 surface r rest
         Hd Hc Hn Ha Hf Hrs Hb Hr.
  rewrite (Decode_ready engine chk img mf rt w h cb Hd Hc Hn).
  rewrite (decode_chunk_accumulated engine chk img w cb d1 Ha).
  cbv zeta. rewrite Hf. unfold bind, submit.
  cbn [self replies log]. rewrite Hrs. cbn [submit_loop].
  destruct (Z.eqb_spec (r_sts r) MFX_WRN_DEVICE_BUSY); [contradiction|].
  unfold deliver, ret.
  destruct Hr as [Hr | Hr].
  - rewrite Hr. reflexivity.
  - rewrite Hr. destruct (r_sts r =? MFX_ERR_MORE_DATA)%Z; reflexivity.
Qed.

(** Flow control over a whole sequence.  On a decoder whose recorded
    capacity is the size of its buffer (as [Configure] leaves it), chunks
    are fed one after the other, their total fitting the buffer with what
    is already held, and the engine answers each submission with
    MFX_ERR_MORE_DATA, taking nothing.  Then every call returns
    WEBRTC_VIDEO_CODEC_OK, each call makes one submission, and the k-th
    submission shows the engine the bytes held at the start followed by the
    first k chunks, in order.  At the end the accumulator holds them all. *)
Theorem feed_accumulates :
  forall engine msdk_check_fails chunks rs d h cb surface lg,
    decoder_ d = Some h ->
    decode_complete_callback_ d = Some cb ->
    find_if unlocked (surfaces_ d) = Some surface ->
    DataOffset (bitstream_ d) + DataLength (bitstream_ d)
      <= len (bitstream_buffer_ d) ->
    MaxLength (bitstream_ d) = len (bitstream_buffer_ d) ->
    Forall readable chunks ->
    DataLength (bitstream_ d) + total_size chunks
      <= MaxLength (bitstream_ d) ->
    DataLength (bitstream_ d) + total_size chunks < 2 ^ 32 ->
    Forall wants_more rs ->
    length rs = length chunks ->
    let res := feed engine msdk_check_fails chunks
                    {| self := d; replies := rs; log := lg |} in
    fst res = map (fun _ => Returned WEBRTC_VIDEO_CODEC_OK) chunks
    /\ submitted_views (log (snd res))
       = submitted_views lg ++ running_views (view d) chunks
    /\ length (log (snd res)) = (length lg + length chunks)%nat
    /\ view (self (snd res)) = view d ++ concat (map chunk chunks)
    /\ replies (snd res) = [].
Proof.
  intros engine chk chunks.
  induction chunks as [|c cs IH];
    intros rs d h cb surface lg Hd Hc Hf Hreg Hcap Hread Hfit Hwrap Hrs Hlen
           res; unfold res; clear res.
  - destruct rs; [|discriminate Hlen].
    cbn [feed fst snd map running_views length concat log self replies].
    rewrite !app_nil_r, Nat.add_0_r. repeat split.
  - destruct rs as [|r rs]; [discriminate Hlen|].
    inversion Hread as [|? ? Hrc Hrcs]; subst.
    inversion Hrs as [|? ? (Hsts & Hcons & Hrel) Hrs']; subst.
    cbn [total_size fold_right] in Hfit, Hwrap.
    fold (total_size cs) in Hfit, Hwrap.
    destruct (accumulated_exact_capacity c d Hrc Hreg Hcap)
      as (d1 & Ha & Hcap1 & Hgrow & Hoff1 & Hlen1 & Hview1 & Hsurf1
          & Hconf1 & _); [lia | right; lia |].
    assert (Hn : data c = None -> size c = 0).
    { intros E. unfold readable in Hrc. rewrite E in Hrc. exact Hrc. }
    assert (Hf1 : find_if unlocked (surfaces_ d1) = Some surface)
      by (rewrite Hsurf1; exact Hf).
    cbn [feed].
    rewrite (Decode_without_token_from engine chk c false 0%Z
               {| self := d; replies := r :: rs; log := lg |}
               h cb d1 surface r rs Hd Hc Hn Ha Hf1 eq_refl)
      by (rewrite Hsts; first [discriminate | left; reflexivity]).
    rewrite engine_effect_idle
      by (first [assumption | rewrite Hoff1; reflexivity]).
    cbn [log].
    assert (Hd1 : decoder_ d1 = Some h
                  /\ decode_complete_callback_ d1 = Some cb).
    { unfold configuration in Hconf1.
      injection Hconf1 as _ _ Hcb _ _ _ Hdec _ _.
      rewrite Hcb, Hdec. split; assumption. }
    destruct Hd1 as [Hd1 Hc1].
    specialize (IH rs d1 h cb surface (lg ++ [submission surface d1])
                   Hd1 Hc1 Hf1).
    destruct IH as (Ho & Hv & Hl & Hfin & Hrep);
      try assumption; try lia.
    { injection Hlen as Hlen. exact Hlen. }
    destruct (feed engine chk cs _) as [os w2]. cbn [fst snd] in *.
    rewrite Ho, Hv, Hl, Hfin, Hrep.
    rewrite submitted_views_app, length_app.
    unfold submission at 1. cbn [submitted_views map running_views concat
                                 length].
    rewrite Hview1, <- !app_assoc. cbn [app].
    repeat split. lia.
Qed.

Lemma feed_accumulates_witness :
  let res := feed Sample.engine Sample.check_fails [Sample.abc; Sample.de]
                  {| self := Sample.configured;
                     replies := [Sample.more_data 0; Sample.more_data 0];
                     log := [] |} in
  fst res = map (fun _ => Returned WEBRTC_VIDEO_CODEC_OK)
                [Sample.abc; Sample.de]
  /\ submitted_views (log (snd res))
     = submitted_views []
       ++ running_views (view Sample.configured) [Sample.abc; Sample.de]
  /\ length (log (snd res)) = (length (@nil event) + 2)%nat
  /\ view (self (snd res))
     = view Sample.configured
       ++ concat (map chunk [Sample.abc; Sample.de])
  /\ replies (snd res) = [].
Proof.
  apply (feed_accumulates Sample.engine Sample.check_fails
           [Sample.abc; Sample.de]
           [Sample.more_data 0; Sample.more_data 0]
           Sample.configured
           {| dec_param := decoder_param MFX_CODEC_VP8 640 480;
              dec_initialized := true |}
           1 O []).
  - vm_compute. reflexivity.
  - vm_compute. reflexivity.
  - vm_compute. reflexivity.
  - vm_compute. discriminate.
  - vm_compute. reflexivity.
  - repeat constructor; vm_compute; discriminate.
  - vm_compute. discriminate.
  - vm_compute. reflexivity.
  - repeat constructor.
  - reflexivity.
Defined.


(** * Properties of the encoder factory *)

Import Factory.

Section FactoryFacts.

Context {SdpVideoFormat Encoder : Type}.
Variable IsSameCodec : SdpVideoFormat -> SdpVideoFormat -> bool.
Variable GetDefaultVideoFormats : VideoCodecType -> list SdpVideoFormat.

Implicit Types this : SoraVideoEncoderFactory SdpVideoFormat Encoder.
Implicit Types encs : list (VideoEncoderConfig SdpVideoFormat Encoder).

Lemma collect_formats_spec encs :
  forall r cache,
    collect_formats GetDefaultVideoFormats encs r cache
    = (r ++ concat (map (entry_formats GetDefaultVideoFormats) encs),
       cache ++ map (entry_formats GetDefaultVideoFormats) encs).
Proof.
  induction encs as [|enc encs IH]; intros r cache;
    cbn [collect_formats map concat].
  - rewrite !app_nil_r. reflexivity.
  - rewrite IH, <- !app_assoc. reflexivity.
Qed.

Lemma has_same_codec_existsb supported format :
  has_same_codec IsSameCodec supported format
  = existsb (fun f => IsSameCodec f format) supported.
Proof.
  induction supported as [|f rest IH]; cbn [has_same_codec existsb].
  - reflexivity.
  - rewrite IH. destruct (IsSameCodec f format); reflexivity.
Qed.

Lemma create_loop_first_match encs format :
  forall pre,
    create_loop IsSameCodec encs
      (pre ++ map (entry_formats GetDefaultVideoFormats) encs)
      (length pre) format
    = first_match IsSameCodec GetDefaultVideoFormats encs format.
Proof.
  unfold first_match.
  induction encs as [|enc encs IH]; intros pre; cbn [create_loop map find].
  - reflexivity.
  - rewrite nth_error_app2, Nat.sub_diag by lia. cbn [nth_error].
    rewrite has_same_codec_existsb.
    destruct (existsb _ (entry_formats GetDefaultVideoFormats enc));
      [reflexivity|].
    specialize (IH (pre ++ [entry_formats GetDefaultVideoFormats enc])).
    rewrite <- app_assoc, length_app in IH. cbn [app length] in IH.
    rewrite Nat.add_1_r in IH. exact IH.
Qed.


(** ** [GetSupportedFormats] (lines 55-76) *)

(** [GetSupportedFormats] returns the formats of the entries of the
    configuration, entry after entry in their order, and leaves in
    [formats_] the formats of each entry at the position of the entry.
    It rebuilds the cache from nothing: a second call returns the same
    list and leaves the same object, so the cache never grows beyond one
    list per entry.  The configuration and the nested factory are left as
    they were. *)
Theorem GetSupportedFormats_rebuilds_cache :
  forall this,
    let res := GetSupportedFormats GetDefaultVideoFormats this in
    fst res
    = concat (map (entry_formats GetDefaultVideoFormats)
                  (encoders (config_ this)))
    /\ formats_ (snd res)
       = map (entry_formats GetDefaultVideoFormats)
             (encoders (config_ this))
    /\ length (formats_ (snd res)) = length (encoders (config_ this))
    /\ config_ (snd res) = config_ this
    /\ internal_encoder_factory_ (snd res) = internal_encoder_factory_ this
    /\ GetSupportedFormats GetDefaultVideoFormats (snd res) = res.
Proof.
  intros this res. unfold res, GetSupportedFormats.
  rewrite collect_formats_spec.
  cbn [fst snd app config_ formats_ internal_encoder_factory_].
  rewrite collect_formats_spec. cbn [app].
  rewrite length_map. repeat split.
Qed.

(** ** [CreateVideoEncoder] (lines 78-125) *)

(** On a factory without nested factory whose cache is empty or filled
    by [GetSupportedFormats], [CreateVideoEncoder] is served by the first
    entry of the configuration that has a format of the same codec as the
    requested one: it returns what the creation function of that entry
    returns on the requested format, null or not, without trying a later
    entry; it ends in [std::bad_function_call] when that entry has neither
    factory nor creation function; and it returns [nullptr] when no entry
    has such a format.  Afterwards the cache is filled. *)
Theorem CreateVideoEncoder_first_match :
  forall this format,
    internal_encoder_factory_ this = None ->
    cache_ok GetDefaultVideoFormats this ->
    CreateVideoEncoder IsSameCodec GetDefaultVideoFormats this format
    = (first_match IsSameCodec GetDefaultVideoFormats
                   (encoders (config_ this)) format,
       {| config_ := config_ this;
          formats_ := map (entry_formats GetDefaultVideoFormats)
                          (encoders (config_ this));
          internal_encoder_factory_ := None |}).
Proof.
  intros [cfg cache inner] format Hin Hok.
  cbn [internal_encoder_factory_ config_ formats_] in *. subst inner.
  unfold CreateVideoEncoder, cache_ok in *.
  cbn [internal_encoder_factory_ config_ formats_] in *.
  destruct Hok as [-> | ->].
  - unfold GetSupportedFormats. rewrite collect_formats_spec.
    cbn [snd app config_ formats_ internal_encoder_factory_].
    rewrite <- (create_loop_first_match (encoders cfg) format []).
    reflexivity.
  - destruct (map (entry_formats GetDefaultVideoFormats) (encoders cfg))
      as [|fs rest] eqn:E.
    + unfold GetSupportedFormats. rewrite collect_formats_spec.
      cbn [snd app config_ formats_ internal_encoder_factory_].
      rewrite E.
      rewrite <- (create_loop_first_match (encoders cfg) format []).
      rewrite E. reflexivity.
    + cbn [config_ formats_]. rewrite <- E.
      rewrite <- (create_loop_first_match (encoders cfg) format []).
      reflexivity.
Qed.

Lemma first_match_in_range encs format :
  first_match IsSameCodec GetDefaultVideoFormats encs format <> OutOfRange.
Proof.
  unfold first_match.
  destruct (find _ encs) as [enc|]; [|discriminate].
  destruct (entry_create enc); discriminate.
Qed.

Lemma use_factory_in_range calls :
  forall this,
    cache_ok GetDefaultVideoFormats this ->
    Forall (fun c => c <> OutOfRange)
           (fst (use_factory IsSameCodec GetDefaultVideoFormats calls this))
    /\ cache_ok GetDefaultVideoFormats
         (snd (use_factory IsSameCodec GetDefaultVideoFormats calls this)).
Proof.
  induction calls as [|[|format] calls IH]; intros this Hok;
    cbn [use_factory].
  - split; [constructor | exact Hok].
  - apply IH. right.
    destruct (GetSupportedFormats_rebuilds_cache this)
      as (_ & -> & _ & -> & _). reflexivity.
  - destruct (internal_encoder_factory_ this) as [inner|] eqn:Hin.
    + unfold CreateVideoEncoder. rewrite Hin.
      destruct (IH this Hok) as [Hall Hok'].
      destruct (use_factory _ _ calls this) as [cs this2].
      cbn [fst snd] in *. split; [|exact Hok'].
      constructor; [discriminate | exact Hall].
    + rewrite (CreateVideoEncoder_first_match this format Hin Hok).
      match goal with
      | |- context [use_factory _ _ calls ?t] =>
          destruct (IH t (or_intror eq_refl)) as [Hall Hok'];
          destruct (use_factory IsSameCodec GetDefaultVideoFormats calls t)
            as [cs this2]
      end.
      cbn [fst snd] in *. split; [|exact Hok'].
      constructor; [apply first_match_in_range | exact Hall].
Qed.

(** Whatever the configuration and whatever calls of
    [GetSupportedFormats] and [CreateVideoEncoder] are made on a factory
    after its construction, in any order, the read [formats_[n++]] of line
    102 stays inside [formats_], and the cache is at any time empty or
    the formats of every entry. *)
Theorem formats_cache_in_range :
  forall (config : SoraVideoEncoderFactoryConfig SdpVideoFormat Encoder)
         calls,
    Forall (fun c => c <> OutOfRange)
           (fst (use_factory IsSameCodec GetDefaultVideoFormats calls
                             (SoraVideoEncoderFactory_new config)))
    /\ cache_ok GetDefaultVideoFormats
         (snd (use_factory IsSameCodec GetDefaultVideoFormats calls
                           (SoraVideoEncoderFactory_new config))).
Proof.
  intros config calls. apply use_factory_in_range.
  left. unfold SoraVideoEncoderFactory_new.
  destruct (use_simulcast_adapter config); reflexivity.
Qed.

(** With [use_simulcast_adapter] set, every [CreateVideoEncoder] call
    returns a [SimulcastEncoderAdapter] on the nested factory, for any
    format, supported or not, and leaves the object as it is.  The nested
    factory has the same entries, no adapter of its own, and advertises
    the same formats as the outer one. *)
Theorem CreateVideoEncoder_simulcast :
  forall (config : SoraVideoEncoderFactoryConfig SdpVideoFormat Encoder)
         format,
    use_simulcast_adapter config = true ->
    let this := SoraVideoEncoderFactory_new config in
    let inner :=
      SoraVideoEncoderFactory_new
        {| encoders := encoders config; use_simulcast_adapter := false |} in
    CreateVideoEncoder IsSameCodec GetDefaultVideoFormats this format
    = (Adapter inner format, this)
    /\ internal_encoder_factory_ inner = None
    /\ fst (GetSupportedFormats GetDefaultVideoFormats inner)
       = fst (GetSupportedFormats GetDefaultVideoFormats this)
    /\ fst (CreateVideoEncoder IsSameCodec GetDefaultVideoFormats inner
                               format)
       = first_match IsSameCodec GetDefaultVideoFormats (encoders config)
                     format.
Proof.
  intros config format Hs this inner.
  unfold this, inner, SoraVideoEncoderFactory_new. rewrite Hs.
  cbn [use_simulcast_adapter encoders].
  split; [reflexivity|]. split; [reflexivity|]. split.
  - unfold GetSupportedFormats. cbn [config_ encoders].
    rewrite collect_formats_spec. reflexivity.
  - rewrite CreateVideoEncoder_first_match.
    + reflexivity.
    + reflexivity.
    + left. reflexivity.
Qed.

End FactoryFacts.

(** ** The default configurations (lines 127-256) *)

Section DefaultsFacts.

Variable SdpVideoFormat : Type.
Variable build : Build.
Variable platform : Platform SdpVideoFormat.
Variable VideoEncoderConfig_of_codec :
  VideoCodecType -> (SdpVideoFormat -> EncoderCall SdpVideoFormat) ->
  VideoEncoderConfig SdpVideoFormat (EncoderCall SdpVideoFormat).
Variable VideoEncoderConfig_of_factory :
  VideoEncoderFactory SdpVideoFormat (EncoderCall SdpVideoFormat) ->
  VideoEncoderConfig SdpVideoFormat (EncoderCall SdpVideoFormat).
Variable default_config :
  SoraVideoEncoderFactoryConfig SdpVideoFormat (EncoderCall SdpVideoFormat).

Lemma encoders_insert_begin_if (b : bool) x config :
  encoders (if b then insert_begin SdpVideoFormat x config else config)
  = when b x ++ encoders config.
Proof. destruct b; reflexivity. Qed.

Lemma flag_insert_begin_if (b : bool) x config :
  use_simulcast_adapter
    (if b then insert_begin SdpVideoFormat x config else config)
  = use_simulcast_adapter config.
Proof. destruct b; reflexivity. Qed.

(** The order of the entries of the default configuration, which is the
    order in which [CreateVideoEncoder] tries them.  The software
    configuration is its tail, unchanged; before it come, from the front:
    the Jetson encoders (H264 without any probe, then AV1, VP9, VP8 where
    the probe succeeds), the Media SDK encoders (AV1, H264, VP9, VP8 where
    the probe succeeds), the NVIDIA H264 encoder, the Android factory and
    the Mac factory, each only in a build that has it.  An entry inserted
    later in the source is tried earlier.  The software configuration
    itself is VP8, VP9 and, where libaom is built, AV1, behind whatever a
    default-constructed configuration holds. *)
Theorem GetDefaultVideoEncoderFactoryConfig_order :
  forall cuda_context env,
    let software :=
      GetSoftwareOnlyVideoEncoderFactoryConfig SdpVideoFormat build
        VideoEncoderConfig_of_codec default_config in
    let jetson := jetson_entry SdpVideoFormat VideoEncoderConfig_of_codec in
    let msdk := msdk_entry SdpVideoFormat VideoEncoderConfig_of_codec in
    let config :=
      GetDefaultVideoEncoderFactoryConfig SdpVideoFormat build platform
        VideoEncoderConfig_of_codec VideoEncoderConfig_of_factory
        default_config cuda_context env in
    encoders config
    = (if USE_JETSON_ENCODER build
       then [jetson kVideoCodecH264]
            ++ when (JetsonVideoEncoder_IsSupportedAV1 _ platform)
                    (jetson kVideoCodecAV1)
            ++ when (JetsonVideoEncoder_IsSupportedVP9 _ platform)
                    (jetson kVideoCodecVP9)
            ++ when (JetsonVideoEncoder_IsSupportedVP8 _ platform)
                    (jetson kVideoCodecVP8)
       else [])
      ++ (if USE_MSDK_ENCODER build
          then when (MsdkVideoEncoder_IsSupported _ platform kVideoCodecAV1)
                    (msdk kVideoCodecAV1)
               ++ when (MsdkVideoEncoder_IsSupported _ platform
                          kVideoCodecH264)
                       (msdk kVideoCodecH264)
               ++ when (MsdkVideoEncoder_IsSupported _ platform
                          kVideoCodecVP9)
                       (msdk kVideoCodecVP9)
               ++ when (MsdkVideoEncoder_IsSupported _ platform
                          kVideoCodecVP8)
                       (msdk kVideoCodecVP8)
          else [])
      ++ (if USE_NVCODEC_ENCODER build
          then when (NvCodecH264Encoder_IsSupported _ platform cuda_context)
                    (VideoEncoderConfig_of_codec kVideoCodecH264
                       (fun format =>
                          NvCodecH264Encoder_Create _ format cuda_context))
          else [])
      ++ (if SORA_CPP_SDK_ANDROID build
          then match env with
               | Some e =>
                   [VideoEncoderConfig_of_factory
                      (CreateAndroidVideoEncoderFactory _ platform e)]
               | None => []
               end
          else [])
      ++ when (APPLE build)
              (VideoEncoderConfig_of_factory
                 (CreateMacVideoEncoderFactory _ platform))
      ++ encoders software
    /\ encoders software
       = encoders default_config
         ++ [VideoEncoderConfig_of_codec kVideoCodecVP8
               (fun _ => VP8Encoder_Create);
             VideoEncoderConfig_of_codec kVideoCodecVP9
               (fun format => VP9Encoder_Create _ format)]
         ++ when (HAVE_LIBAOM build)
                 (VideoEncoderConfig_of_codec kVideoCodecAV1
                    (fun _ => CreateLibaomAv1Encoder))
    /\ use_simulcast_adapter config = use_simulcast_adapter default_config.
Proof.
  intros cuda_context env software jetson msdk config.
  unfold config, software, jetson, msdk,
    GetDefaultVideoEncoderFactoryConfig.
  clear config software jetson msdk. cbv zeta.
  split; [|split].
  - destruct (USE_JETSON_ENCODER build), (USE_MSDK_ENCODER build),
      (USE_NVCODEC_ENCODER build), (SORA_CPP_SDK_ANDROID build), env;
      cbn [insert_begin encoders use_simulcast_adapter];
      repeat (progress (cbn [insert_begin encoders use_simulcast_adapter
                              app];
                        rewrite ?encoders_insert_begin_if;
                        rewrite <- ?app_assoc));
      reflexivity.
  - unfold GetSoftwareOnlyVideoEncoderFactoryConfig. cbv zeta.
    destruct (HAVE_LIBAOM build);
      cbn [push_back encoders when]; rewrite <- ?app_assoc; reflexivity.
  - destruct (USE_JETSON_ENCODER build), (USE_MSDK_ENCODER build),
      (USE_NVCODEC_ENCODER build), (SORA_CPP_SDK_ANDROID build), env;
      repeat (progress (cbn [insert_begin encoders use_simulcast_adapter];
                        rewrite ?flag_insert_begin_if));
      unfold GetSoftwareOnlyVideoEncoderFactoryConfig; cbv zeta;
      destruct (HAVE_LIBAOM build); reflexivity.
Qed.


Lemma find_when {A} (p : A -> bool) (b : bool) x l :
  find p (when b x ++ l) = if b && p x then Some x else find p l.
Proof.
  destruct b; cbn [when app find andb]; [|reflexivity].
  destruct (p x); reflexivity.
Qed.

(** Which encoder serves a request under the default configuration, in a
    build without the Jetson encoder and without platform factories, when
    the constructors of [VideoEncoderConfig] store their arguments and set
    nothing else, a default-constructed configuration is empty without
    simulcast adapter, and the requested format is of the same codec as
    default formats of exactly one codec [c].  The Media SDK encoder is
    taken when it is built in and supports [c].  Otherwise H264 is served
    by the NVIDIA encoder when that is built in and supported, and by
    nothing else: there is no software H264 encoder, and the factory
    returns [nullptr].  VP8 and VP9 fall back to the software encoders, and
    AV1 to libaom where it is built, [nullptr] otherwise. *)
Theorem default_factory_priority :
  forall cuda_context env
         (IsSameCodec : SdpVideoFormat -> SdpVideoFormat -> bool)
         (GetDefaultVideoFormats : VideoCodecType -> list SdpVideoFormat)
         c format,
    APPLE build = false ->
    SORA_CPP_SDK_ANDROID build = false ->
    USE_JETSON_ENCODER build = false ->
    (forall c' create,
        factory (VideoEncoderConfig_of_codec c' create) = None
        /\ get_supported_formats (VideoEncoderConfig_of_codec c' create)
           = None
        /\ codec (VideoEncoderConfig_of_codec c' create) = c'
        /\ create_video_encoder (VideoEncoderConfig_of_codec c' create)
           = Some create) ->
    encoders default_config = [] ->
    use_simulcast_adapter default_config = false ->
    (forall c',
        existsb (fun f => IsSameCodec f format) (GetDefaultVideoFormats c')
        = codec_eqb c' c) ->
    fst (CreateVideoEncoder IsSameCodec GetDefaultVideoFormats
           (SoraVideoEncoderFactory_new
              (GetDefaultVideoEncoderFactoryConfig SdpVideoFormat build
                 platform VideoEncoderConfig_of_codec
                 VideoEncoderConfig_of_factory default_config
                 cuda_context env))
           format)
    = if USE_MSDK_ENCODER build
         && MsdkVideoEncoder_IsSupported _ platform c
         && negb (codec_eqb c kVideoCodecGeneric)
      then Created (MsdkVideoEncoder_Create c)
      else
        match c with
        | kVideoCodecH264 =>
            if USE_NVCODEC_ENCODER build
               && NvCodecH264Encoder_IsSupported _ platform cuda_context
            then Created (NvCodecH264Encoder_Create _ format cuda_context)
            else Nullptr
        | kVideoCodecVP8 => Created VP8Encoder_Create
        | kVideoCodecVP9 => Created (VP9Encoder_Create _ format)
        | kVideoCodecAV1 =>
            if HAVE_LIBAOM build then Created CreateLibaomAv1Encoder
            else Nullptr
        | kVideoCodecGeneric => Nullptr
        end.
Proof.
  intros cuda_context env IsSameCodec GetDefaultVideoFormats c format
         Hmac Handroid Hjetson Hctor Hempty Hflag Hcodec.
  destruct (GetDefaultVideoEncoderFactoryConfig_order cuda_context env)
    as (Horder & Hsoft & Hadapter).
  cbv zeta in Horder, Hsoft, Hadapter.
  set (config := GetDefaultVideoEncoderFactoryConfig _ _ _ _ _ _ _ _) in *.
  assert (Hnew : SoraVideoEncoderFactory_new config
                 = {| config_ := config; formats_ := [];
                      internal_encoder_factory_ := None |}).
  { unfold SoraVideoEncoderFactory_new. rewrite Hadapter, Hflag.
    reflexivity. }
  rewrite Hnew.
  rewrite CreateVideoEncoder_first_match;
    [|reflexivity | left; reflexivity].
  cbn [fst config_]. rewrite Horder, Hsoft, Hempty, Hmac, Handroid, Hjetson.
  cbn [app when].
  assert (Hp : forall c' create,
             existsb (fun f => IsSameCodec f format)
                     (entry_formats GetDefaultVideoFormats
                        (VideoEncoderConfig_of_codec c' create))
             = codec_eqb c' c).
  { intros c' create. destruct (Hctor c' create) as (Hf & Hg & Hc & _).
    unfold entry_formats. rewrite Hf, Hg, Hc. apply Hcodec. }
  assert (Hcr : forall c' create,
             entry_create (VideoEncoderConfig_of_codec c' create)
             = Some create).
  { intros c' create. destruct (Hctor c' create) as (Hf & _ & _ & Hc).
    unfold entry_create. rewrite Hf. exact Hc. }
  unfold first_match, msdk_entry.
  destruct (USE_MSDK_ENCODER build), (USE_NVCODEC_ENCODER build);
    cbn [app andb]; rewrite ?find_when; cbn [find]; rewrite ?Hp;
    destruct c; cbn [codec_eqb negb];
    rewrite ?andb_false_r, ?andb_true_r;
    repeat match goal with
           | |- context [MsdkVideoEncoder_IsSupported _ platform ?k] =>
               destruct (MsdkVideoEncoder_IsSupported _ platform k)
           | |- context [NvCodecH264Encoder_IsSupported _ platform ?k] =>
               destruct (NvCodecH264Encoder_IsSupported _ platform k)
           | |- context [HAVE_LIBAOM build] =>
               destruct (HAVE_LIBAOM build)
           end;
    cbn [when app find andb]; rewrite ?Hp; cbn [codec_eqb];
    rewrite ?Hcr; reflexivity.
Qed.

End DefaultsFacts.

(** ** The sample factory *)

Lemma CreateVideoEncoder_first_match_witness :
  CreateVideoEncoder FactorySample.IsSameCodec
    FactorySample.GetDefaultVideoFormats
    (SoraVideoEncoderFactory_new FactorySample.config)
    (kVideoCodecVP9, 0)
  = (first_match FactorySample.IsSameCodec
       FactorySample.GetDefaultVideoFormats
       (encoders (config_ (SoraVideoEncoderFactory_new FactorySample.config)))
       (kVideoCodecVP9, 0),
     {| config_ := config_ (SoraVideoEncoderFactory_new FactorySample.config);
        formats_ :=
          map (entry_formats FactorySample.GetDefaultVideoFormats)
              (encoders
                 (config_ (SoraVideoEncoderFactory_new FactorySample.config)));
        internal_encoder_factory_ := None |}).
Proof.
  apply (CreateVideoEncoder_first_match FactorySample.IsSameCodec
           FactorySample.GetDefaultVideoFormats
           (SoraVideoEncoderFactory_new FactorySample.config)
           (kVideoCodecVP9, 0)).
  - reflexivity.
  - left. reflexivity.
Defined.

Lemma CreateVideoEncoder_simulcast_witness :
  let config :=
    {| encoders := encoders FactorySample.config;
       use_simulcast_adapter := true |} in
  let this := SoraVideoEncoderFactory_new config in
  let inner :=
    SoraVideoEncoderFactory_new
      {| encoders := encoders config; use_simulcast_adapter := false |} in
  CreateVideoEncoder FactorySample.IsSameCodec
    FactorySample.GetDefaultVideoFormats this (kVideoCodecGeneric, 7)
  = (Adapter inner (kVideoCodecGeneric, 7), this)
  /\ internal_encoder_factory_ inner = None
  /\ fst (GetSupportedFormats FactorySample.GetDefaultVideoFormats inner)
     = fst (GetSupportedFormats FactorySample.GetDefaultVideoFormats this)
  /\ fst (CreateVideoEncoder FactorySample.IsSameCodec
            FactorySample.GetDefaultVideoFormats inner
            (kVideoCodecGeneric, 7))
     = first_match FactorySample.IsSameCodec
         FactorySample.GetDefaultVideoFormats (encoders config)
         (kVideoCodecGeneric, 7).
Proof.
  apply (CreateVideoEncoder_simulcast FactorySample.IsSameCodec
           FactorySample.GetDefaultVideoFormats
           {| encoders := encoders FactorySample.config;
              use_simulcast_adapter := true |}
           (kVideoCodecGeneric, 7)).
  reflexivity.
Defined.

Lemma default_factory_priority_witness :
  fst (CreateVideoEncoder FactorySample.IsSameCodec
         FactorySample.GetDefaultVideoFormats
         (SoraVideoEncoderFactory_new FactorySample.config)
         (kVideoCodecH264, 1))
  = Created (MsdkVideoEncoder_Create kVideoCodecH264)
  /\ fst (CreateVideoEncoder FactorySample.IsSameCodec
            FactorySample.GetDefaultVideoFormats
            (SoraVideoEncoderFactory_new FactorySample.config)
            (kVideoCodecVP8, 0))
     = Created VP8Encoder_Create.
Proof.
  split.
  - apply (default_factory_priority FactorySample.format FactorySample.build
             FactorySample.platform FactorySample.of_codec
             FactorySample.of_factory FactorySample.default_config
             None None FactorySample.IsSameCodec
             FactorySample.GetDefaultVideoFormats
             kVideoCodecH264 (kVideoCodecH264, 1));
      try reflexivity.
    + intros c' create. repeat split.
    + intros c'. destruct c'; reflexivity.
  - apply (default_factory_priority FactorySample.format FactorySample.build
             FactorySample.platform FactorySample.of_codec
             FactorySample.of_factory FactorySample.default_config
             None None FactorySample.IsSameCodec
             FactorySample.GetDefaultVideoFormats
             kVideoCodecVP8 (kVideoCodecVP8, 0));
      try reflexivity.
    + intros c' create. repeat split.
    + intros c'. destruct c'; reflexivity.
Defined.
